(** * Dataset-preparation tools: annotation conversion, validation,
      distribution analysis and splitting

    A shallow embedding of the Python tools under [tools/]:
    - [xmlTools.py]: [XMLLabelSummarizer], [XMLtoTXTConverter],
      [TxtToXmlConverter];
    - [check_format.py]: [validate_yolo_dataset];
    - [yolo_labels_distribution.py]: [YOLOLabelAnalyzer];
    - [split_dataset.py]: [split_dataset].

    Conventions of the embedding.
    - Python [int] is [Z]; Python [float] is modelled by exact rationals
      [Q] (no rounding); [int(float)] is truncation toward zero.
    - A Python exception is the [Raise] branch of [result]; a loop body
      that raises ends the enclosing function unless the source catches it.
    - Text is [string], a character being a code point below 256;
      [str.strip], [str.split], [int(str)] and the validator's regular
      expression are written out.
    - Files written by a run are kept in a finite map from path to
      content. *)

From Stdlib Require Import ZArith QArith Qround Qabs Lia Lqa String Ascii List Sorted.
From stdpp Require Import base list strings gmap.

Local Open Scope Z_scope.

(** ** Exceptions and the error monad *)

Inductive exn : Type :=
| ZeroDivisionError
| AttributeError
| TypeError
| ValueError
| KeyError
| UnboundLocalError
| IndexError
| ParseError
| SystemExit.

Inductive result (A : Type) : Type :=
| Ok (a : A)
| Raise (e : exn).

Arguments Ok {A} a.
Arguments Raise {A} e.


#[global] Instance result_bind : MBind result := fun A B k r =>
  match r with
  | Ok a => k a
  | Raise e => Raise e
  end.

#[global] Instance result_fmap : FMap result := fun A B f r =>
  match r with
  | Ok a => Ok (f a)
  | Raise e => Raise e
  end.

Definition is_ok {A : Type} (r : result A) : bool :=
  match r with Ok _ => true | Raise _ => false end.

(** ** Python arithmetic used by the tools *)

(** [a / b] on floats: raises [ZeroDivisionError] when [b] is zero. *)
Definition float_div (a b : Q) : result Q :=
  if Qeq_bool b 0 then Raise ZeroDivisionError else Ok (a / b)%Q.

(** [int(x)] for a float [x]: truncation toward zero. *)
Definition py_int_of_float (x : Q) : Z := Z.quot (Qnum x) (Zpos (Qden x)).

(** ** Coordinate conversion ([xmlTools.py]) *)

Definition box : Type := (Q * Q * Q * Q)%type.

(** [XMLtoTXTConverter._convert_coordinate]: [imgshape] is
    [(width, height)], [bbox] is [(xmin, xmax, ymin, ymax)]. *)
Definition _convert_coordinate (imgshape : Z * Z) (bbox : box) : result box :=
  let '(xmin, xmax, ymin, ymax) := bbox in
  let width := fst imgshape in
  let height := snd imgshape in
  dw ← float_div 1 (inject_Z width);
  dh ← float_div 1 (inject_Z height);
  let x := ((xmin + xmax) / 2)%Q in
  let y := ((ymin + ymax) / 2)%Q in
  let w := (xmax - xmin)%Q in
  let h := (ymax - ymin)%Q in
  let x := (x * dw)%Q in
  let y := (y * dh)%Q in
  let w := (w * dw)%Q in
  let h := (h * dh)%Q in
  Ok (x, y, w, h).

(** The pixel box written by [TxtToXmlConverter.convert] for one label
    line [cls cx cy w h] of an image of [Pwidth] by [Pheight] pixels, in the
    order of the XML fields: [(xmin, ymin, xmax, ymax)]. *)
Definition txt_line_bndbox (Pwidth Pheight : Z) (b : box) : Z * Z * Z * Z :=
  let '(cx, cy, w, h) := b in
  let Pw := inject_Z Pwidth in
  let Ph := inject_Z Pheight in
  (py_int_of_float ((cx * Pw + 1) - w * 0.5 * Pw)%Q,
   py_int_of_float ((cy * Ph + 1) - h * 0.5 * Ph)%Q,
   py_int_of_float ((cx * Pw + 1) + w * 0.5 * Pw)%Q,
   py_int_of_float ((cy * Ph + 1) + h * 0.5 * Ph)%Q).

(** Text to XML and back: the box of [txt_line_bndbox] read by the forward
    converter, which passes [(xmin, xmax, ymin, ymax)] to
    [_convert_coordinate]. *)
Definition txt_xml_txt (Pwidth Pheight : Z) (b : box) : result box :=
  let '(xmin, ymin, xmax, ymax) := txt_line_bndbox Pwidth Pheight b in
  _convert_coordinate (Pwidth, Pheight)
    (inject_Z xmin, inject_Z xmax, inject_Z ymin, inject_Z ymax).






(** ** Python text

    A character is a code point below 256; this covers ASCII and Latin-1. *)

Definition code (c : ascii) : nat := nat_of_ascii c.

(** [str.isspace] on one character, also the class [\s] of [re]: tab to
    carriage return, the four separators 0x1c to 0x1f, the space, and the
    Latin-1 characters 0x85 and 0xa0. *)
Definition py_isspace (c : ascii) : bool :=
  let n := code c in
  ((9 <=? n) && (n <=? 13) || (28 <=? n) && (n <=? 32) || (n =? 133) || (n =? 160))%nat.

(** Decimal digits, the class [\d] of [re]. *)
Definition py_isdigit (c : ascii) : bool :=
  let n := code c in ((48 <=? n) && (n <=? 57))%nat.

Definition digit_value (c : ascii) : option Z :=
  if py_isdigit c then Some (Z.of_nat (code c) - 48) else None.

Fixpoint lstrip (l : list ascii) : list ascii :=
  match l with
  | c :: l' => if py_isspace c then lstrip l' else l
  | [] => []
  end.

Definition rstrip (l : list ascii) : list ascii := rev (lstrip (rev l)).

(** [str.strip()] *)
Definition strip_chars (l : list ascii) : list ascii := rstrip (lstrip l).

Definition strip (s : string) : string :=
  string_of_list_ascii (strip_chars (list_ascii_of_string s)).

(** [str.split()] without argument: the maximal runs of characters that are
    not whitespace. [cur] holds the current run, reversed. *)
Fixpoint split_run (cur : list ascii) (l : list ascii) : list (list ascii) :=
  match l with
  | [] => match cur with [] => [] | _ => [rev cur] end
  | c :: l' =>
      if py_isspace c
      then match cur with
           | [] => split_run [] l'
           | _ => rev cur :: split_run [] l'
           end
      else split_run (c :: cur) l'
  end.

Definition split (s : string) : list string :=
  map string_of_list_ascii (split_run [] (list_ascii_of_string s)).

(** [int(s)] for a string: surrounding whitespace is dropped, one sign is
    allowed, then decimal digits, where single underscores may separate
    digits. [after_digit] tells that the previous character was a digit. *)
Fixpoint int_digits (after_digit : bool) (acc : Z) (l : list ascii) : option Z :=
  match l with
  | [] => if after_digit then Some acc else None
  | c :: l' =>
      if Ascii.eqb c "_"
      then (if after_digit then int_digits false acc l' else None)
      else match digit_value c with
           | Some d => int_digits true (acc * 10 + d) l'
           | None => None
           end
  end.

Definition int_chars (l : list ascii) : option Z :=
  match strip_chars l with
  | c :: l' =>
      if Ascii.eqb c "-" then Z.opp <$> int_digits false 0 l'
      else if Ascii.eqb c "+" then int_digits false 0 l'
      else int_digits false 0 (c :: l')
  | [] => None
  end.

Definition py_int (s : string) : result Z :=
  match int_chars (list_ascii_of_string s) with
  | Some z => Ok z
  | None => Raise ValueError
  end.

(** [float(s)] restricted to what the validator passes to it, a non-empty
    string of digits and dots: one dot at most and one digit at least,
    otherwise [ValueError]. [scale] is [None] before the dot and the power of
    ten of the fraction read so far after it. *)
Fixpoint float_digits (seen_digit : bool) (num : Z) (scale : option positive)
    (l : list ascii) : option Q :=
  match l with
  | [] =>
      if seen_digit
      then Some (match scale with None => inject_Z num | Some p => num # p end)
      else None
  | c :: l' =>
      if Ascii.eqb c "."
      then match scale with
           | None => float_digits seen_digit num (Some 1%positive) l'
           | Some _ => None
           end
      else match digit_value c with
           | Some d =>
               float_digits true (num * 10 + d)
                 ((fun p => (p * 10)%positive) <$> scale) l'
           | None => None
           end
  end.

Definition float_of_digits_dots (l : list ascii) : result Q :=
  match float_digits false 0 None l with
  | Some q => Ok q
  | None => Raise ValueError
  end.

(** ** Paths ([os.path]) *)

(** The part of a path after its last slash. *)
Fixpoint basename_chars (cur : list ascii) (l : list ascii) : list ascii :=
  match l with
  | [] => rev cur
  | c :: l' => if Ascii.eqb c "/" then basename_chars [] l' else basename_chars (c :: cur) l'
  end.

Definition basename (p : string) : string :=
  string_of_list_ascii (basename_chars [] (list_ascii_of_string p)).

(** [os.path.join(a, b)] on POSIX. *)
Definition path_join (a b : string) : string :=
  match b with
  | String "/" _ => b
  | _ =>
      match rev (list_ascii_of_string a) with
      | [] => b
      | c :: _ => if Ascii.eqb c "/" then a +:+ b else a +:+ "/" +:+ b
      end
  end.

(** [s.replace('.xml', '.txt')]: every occurrence, left to right. *)
Fixpoint replace_xml_txt (s : string) : string :=
  match s with
  | String "." (String "x" (String "m" (String "l" rest))) =>
      String "." (String "t" (String "x" (String "t" (replace_xml_txt rest))))
  | String c rest => String c (replace_xml_txt rest)
  | EmptyString => EmptyString
  end.

(** ** XML documents ([xml.etree.ElementTree]) *)

#[warnings="-register-all"]
Inductive element : Type :=
| Element (tag : string) (text : option string) (children : list element).

Definition tag (e : element) : string := let 'Element t _ _ := e in t.
Definition text (e : element) : option string := let 'Element _ x _ := e in x.
Definition children (e : element) : list element := let 'Element _ _ c := e in c.

Definition has_tag (name : string) (e : element) : bool := String.eqb (tag e) name.

(** [e.find(name)]: the first child with that tag, or [None]. *)
Definition find (name : string) (e : element) : option element :=
  List.find (has_tag name) (children e).

(** [e.findall(name)]: the children with that tag, in document order. *)
Definition findall (name : string) (e : element) : list element :=
  List.filter (has_tag name) (children e).

(** [x.text] for the result [x] of a [find]: on [None] Python raises
    [AttributeError]. *)
Definition text_of (x : option element) : result (option string) :=
  match x with
  | Some e => Ok (text e)
  | None => Raise AttributeError
  end.

(** [x.find(name)] for the result [x] of a [find]. *)
Definition find_in (name : string) (x : option element) : result (option element) :=
  match x with
  | Some e => Ok (find name e)
  | None => Raise AttributeError
  end.

(** [int(t)] for the text [t] of an element; [int(None)] is a [TypeError]. *)
Definition int_of_text (t : option string) : result Z :=
  match t with
  | Some s => py_int s
  | None => Raise TypeError
  end.

(** A file on disk as [ET.parse] sees it. *)
Inductive xml_file : Type :=
| Unparsable
| Document (root : element).

Definition parse (f : xml_file) : result element :=
  match f with
  | Document root => Ok root
  | Unparsable => Raise ParseError
  end.

(** ** Insertion-ordered dictionaries

    A Python [dict] iterates in insertion order; assigning to a key that is
    present keeps its position. *)
Section odict.
Context {K : Type} `{EqDecision K} {V : Type}.

Definition odict : Type := list (K * V).

Fixpoint odict_get (d : odict) (k : K) : option V :=
  match d with
  | [] => None
  | (k', v) :: d' => if decide (k' = k) then Some v else odict_get d' k
  end.

Fixpoint odict_set (d : odict) (k : K) (v : V) : odict :=
  match d with
  | [] => [(k, v)]
  | (k', v') :: d' =>
      if decide (k' = k) then (k', v) :: d' else (k', v') :: odict_set d' k v
  end.

Definition odict_keys (d : odict) : list K := map fst d.
End odict.

Arguments odict : clear implicits.

(** ** [XMLLabelSummarizer] *)

(** [name_count[name] = name_count.get(name, 0) + 1] *)
Definition count_name (name_count : odict string nat) (name : string) : odict string nat :=
  odict_set name_count name (default 0%nat (odict_get name_count name) + 1)%nat.

(** The body of [_count_names] for one element: an [object] with a [name]
    child counts that name, stripped. *)
Definition count_object (e : element) (name_count : odict string nat)
    : result (odict string nat) :=
  if String.eqb (tag e) "object" then
    match find "name" e with
    | Some name_element =>
        match text name_element with
        | Some t =>
            let name := strip t in
            Ok (count_name name_count name)
        | None => Raise AttributeError
        end
    | None => Ok name_count
    end
  else Ok name_count.

(** [XMLLabelSummarizer._count_names]: the element, then its children in
    order, recursively. *)
Fixpoint _count_names (e : element) (name_count : odict string nat)
    : result (odict string nat) :=
  nc ← count_object e name_count;
  (fix over_children (cs : list element) (nc : odict string nat) :=
     match cs with
     | [] => Ok nc
     | c :: cs' => nc' ← _count_names c nc; over_children cs' nc'
     end) (children e) nc.

(** [XMLLabelSummarizer.parse_xml_file]: the labels of the [object] children
    of the root, then [_count_names] on the whole tree. *)
Definition parse_xml_file (f : xml_file) (name_count : odict string nat)
    : result (gset (option string) * odict string nat) :=
  root ← parse f;
  labels ← foldl (fun acc object_elem =>
                    labels ← acc;
                    label ← text_of (find "name" object_elem);
                    Ok ({[label]} ∪ labels))
                 (Ok ∅) (findall "object" root);
  nc ← _count_names root name_count;
  Ok (labels, nc).

(** [XMLLabelSummarizer.summarize_labels] over the [.xml] files of the folder
    in the order of [os.walk]. *)
Fixpoint summarize_labels (files : list xml_file) (labels : gset (option string))
    (name_count : odict string nat)
    : result (gset (option string) * odict string nat) :=
  match files with
  | [] => Ok (labels, name_count)
  | f :: files' =>
      '(ls, nc) ← parse_xml_file f name_count;
      summarize_labels files' (labels ∪ ls) nc
  end.

(** [sorted(l, key=key, reverse=True)]. Python's sort is stable, and with
    [reverse=True] elements with equal keys still keep their original order;
    the result of a stable sort does not depend on the algorithm, and an
    insertion sort computes it. [insert_desc] places [x], which precedes every
    element of [l] in the input, before the first element whose key is not
    greater. *)
Fixpoint insert_desc {A : Type} (key : A -> nat) (x : A) (l : list A) : list A :=
  match l with
  | [] => [x]
  | y :: l' => if (key x <? key y)%nat then y :: insert_desc key x l' else x :: l
  end.

Definition sorted_reverse {A : Type} (key : A -> nat) (l : list A) : list A :=
  foldr (insert_desc key) [] l.

(** [name_count.get] as the sort key. *)
Definition count_of (name_count : odict string nat) (name : string) : nat :=
  default 0%nat (odict_get name_count name).

(** [XMLLabelSummarizer.get_class_list] *)
Definition get_class_list (name_count : odict string nat) : list string :=
  sorted_reverse (count_of name_count) (odict_keys name_count).

(** The class list after scanning a folder with a fresh summarizer. *)
Definition scan_class_list (files : list xml_file) : result (list string) :=
  '(_, nc) ← summarize_labels files ∅ [];
  Ok (get_class_list nc).

(** The names of the [object] elements of a tree in the order in which
    [_count_names] visits them, from the definition of the traversal
    (element first, then children); [None] when a [name] has no text. Used to
    say what "first seen" means. *)
Fixpoint seen_names (e : element) : list (option string) :=
  (if String.eqb (tag e) "object" then
     match find "name" e with
     | Some name_element => [strip <$> text name_element]
     | None => []
     end
   else []) ++
  (fix over_children (cs : list element) :=
     match cs with
     | [] => []
     | c :: cs' => seen_names c ++ over_children cs'
     end) (children e).

Definition seen_in_files (files : list xml_file) : list (option string) :=
  flat_map (fun f => match f with Document root => seen_names root | Unparsable => [] end) files.

(** Number of occurrences of [x] in [l]. *)
Fixpoint occurrences {A : Type} `{EqDecision A} (x : A) (l : list A) : nat :=
  match l with
  | [] => 0
  | y :: l' => if decide (y = x) then S (occurrences x l') else occurrences x l'
  end.

(** Position of the first occurrence of [x] in [l], or [length l]. *)
Fixpoint first_index {A : Type} `{EqDecision A} (x : A) (l : list A) : nat :=
  match l with
  | [] => 0
  | y :: l' => if decide (y = x) then 0 else S (first_index x l')
  end.

(** ** [XMLtoTXTConverter] *)

(** Truthiness of the optional constructor arguments: [None], the empty
    string, the empty list and the empty dict are false. *)
Definition truthy_str (x : option string) : bool :=
  match x with Some (String _ _) => true | _ => false end.

Definition truthy_list {A : Type} (x : option (list A)) : bool :=
  match x with Some (_ :: _) => true | _ => false end.

Definition truthy_dict (x : option (gmap string string)) : bool :=
  match x with Some m => negb (bool_decide (m = ∅)) | None => false end.

Inductive write_mode : Type :=
| Overwrite   (* 'w' *)
| Append.     (* 'a' *)

Record converter : Type := {
  input_dir : string;
  out_dir : string;
  class_dir : option string;
  class_list : option (list string);
  class_map_dist : option (gmap string string);
  txt_write_mode : write_mode;
}.

(** [XMLtoTXTConverter.__init__]: without any class source it prints a
    message and calls [exit()]. *)
Definition converter_init (input_dir out_dir : string) (class_dir : option string)
    (class_list : option (list string)) (class_map_dist : option (gmap string string))
    (txt_write_mode : write_mode) : result converter :=
  if negb (truthy_str class_dir || truthy_list class_list || truthy_dict class_map_dist)
  then Raise SystemExit
  else Ok {| input_dir := input_dir; out_dir := out_dir; class_dir := class_dir;
             class_list := class_list; class_map_dist := class_map_dist;
             txt_write_mode := txt_write_mode |}.

(** [l.index(x)]: position of the first occurrence, [ValueError] if absent. *)
Fixpoint list_index (x : string) (l : list string) : result nat :=
  match l with
  | [] => Raise ValueError
  | y :: l' => if String.eqb y x then Ok 0%nat else S <$> list_index x l'
  end.

(** What the class lookup at the head of the object loop does with the
    name of an object: [continue], bind [obj_id], or leave it alone. In the
    last case [obj_id] is a local variable that no statement of the method
    ever assigns. *)
Inductive class_lookup : Type :=
| Continue
| Bound (obj_id : nat)
| Unassigned.

Definition lookup_class (c : converter) (obj_name : option string) : result class_lookup :=
  if truthy_dict (class_map_dist c) && truthy_list (class_list c) then
    match obj_name ≫= (fun n => default ∅ (class_map_dist c) !! n) with
    | None => Ok Continue
    | Some new_class_name =>
        Bound <$> list_index new_class_name (default [] (class_list c))
    end
  else if truthy_list (class_list c) then
    match obj_name with
    | Some n =>
        if negb (existsb (String.eqb n) (default [] (class_list c))) then Ok Continue
        else Bound <$> list_index n (default [] (class_list c))
    | None => Ok Continue   (* [None] is in no list of names *)
    end
  else Ok Unassigned.

(** One line of a label file: [obj_id x y w h]. The text is
    ['{} {} {} {} {}\n'.format(obj_id, x, y, w, h)]; the embedding keeps the
    five values. *)
Definition label_line : Type := (nat * box)%type.

Section xml_to_txt.
(** [float(s)] on an arbitrary string is a parameter of the converter. *)
Variable py_float : string -> result Q.

(** [float(t)] for the text [t] of an element. *)
Definition float_of_text (t : option string) : result Q :=
  match t with
  | Some s => py_float s
  | None => Raise TypeError
  end.

(** [float(bbox.find(name).text)] *)
Definition float_field (bbox : element) (name : string) : result Q :=
  t ← text_of (find name bbox);
  float_of_text t.

(** The body of the loop over the [object] elements of one file;
    [txtresult] is the text accumulated so far. *)
Definition convert_object (c : converter) (imgshape : Z * Z)
    (txtresult : list label_line) (obj : element) : result (list label_line) :=
  obj_name ← text_of (find "name" obj);
  lk ← lookup_class c obj_name;
  match lk with
  | Continue => Ok txtresult
  | _ =>
      match find "bndbox" obj with
      | Some bbox =>
          xmin ← float_field bbox "xmin";
          xmax ← float_field bbox "xmax";
          ymin ← float_field bbox "ymin";
          ymax ← float_field bbox "ymax";
          b ← _convert_coordinate imgshape (xmin, xmax, ymin, ymax);
          match lk with
          | Bound obj_id => Ok (txtresult ++ [(obj_id, b)])
          | _ => Raise UnboundLocalError
          end
      | None => Ok txtresult
      end
  end.

Fixpoint convert_objects (c : converter) (imgshape : Z * Z)
    (txtresult : list label_line) (objs : list element) : result (list label_line) :=
  match objs with
  | [] => Ok txtresult
  | obj :: objs' =>
      txtresult' ← convert_object c imgshape txtresult obj;
      convert_objects c imgshape txtresult' objs'
  end.

(** The body of the loop over files, up to the text to write. *)
Definition convert_file (c : converter) (f : xml_file) : result (list label_line) :=
  root ← parse f;
  let size := find "size" root in
  tw ← (w ← find_in "width" size; text_of w);
  width ← int_of_text tw;
  th ← (h ← find_in "height" size; text_of h);
  height ← int_of_text th;
  convert_objects c (width, height) [] (findall "object" root).

(** The path of the text file written for an XML file. *)
Definition txt_file_path (c : converter) (file_path : string) : string :=
  path_join (out_dir c) (replace_xml_txt (basename file_path)).

(** [open(path, mode).write(txtresult)] *)
Definition write_txt (mode : write_mode) (path : string) (txtresult : list label_line)
    (fs : gmap string (list label_line)) : gmap string (list label_line) :=
  match mode with
  | Overwrite => <[path := txtresult]> fs
  | Append => <[path := default [] (fs !! path) ++ txtresult]> fs
  end.

(** [XMLtoTXTConverter._convert_xml_to_txt]: the text files after the
    run, and how the run ended. An exception in one file is not caught: it
    ends the loop, and the files written before it stay written. *)
Fixpoint _convert_xml_to_txt (c : converter) (file_path_list : list (string * xml_file))
    (fs : gmap string (list label_line)) : gmap string (list label_line) * result unit :=
  match file_path_list with
  | [] => (fs, Ok ())
  | (file_path, f) :: rest =>
      match convert_file c f with
      | Ok txtresult =>
          _convert_xml_to_txt c rest
            (write_txt (txt_write_mode c) (txt_file_path c file_path) txtresult fs)
      | Raise e => (fs, Raise e)
      end
  end.
End xml_to_txt.

(** The names the object loop passes over: not a key of the class map when
    a class map and a class list are given, not an element of the class list
    when only a class list is given. *)
Definition unresolved (c : converter) (obj_name : option string) : bool :=
  if truthy_dict (class_map_dist c) && truthy_list (class_list c) then
    match obj_name with
    | Some n => bool_decide (default ∅ (class_map_dist c) !! n = None)
    | None => true
    end
  else if truthy_list (class_list c) then
    match obj_name with
    | Some n => bool_decide (n ∉ default [] (class_list c))
    | None => true
    end
  else false.

Definition unresolved_object (c : converter) (obj : element) : bool :=
  match find "name" obj with
  | Some name_element => unresolved c (text name_element)
  | None => false
  end.

(** The order of the class list on two names: more occurrences first, and
    among names with as many occurrences the one first seen earlier in [l]. *)
Definition ranks_before {A : Type} `{EqDecision A} (key : A -> nat) (l : list A)
    (a b : A) : Prop :=
  (key b < key a)%nat \/
  (key a = key b /\ (first_index a l < first_index b l)%nat).

(** ** Dataset validator ([check_format.py]) *)

(** The longest prefix of characters satisfying [p], and the rest. *)
Fixpoint span (p : ascii -> bool) (l : list ascii) : list ascii * list ascii :=
  match l with
  | c :: l' => if p c then let '(a, b) := span p l' in (c :: a, b) else ([], l)
  | [] => ([], [])
  end.

(** One or more characters satisfying [p]. *)
Definition span1 (p : ascii -> bool) (l : list ascii) : option (list ascii * list ascii) :=
  match span p l with
  | ([], _) => None
  | r => Some r
  end.

(** The class [[\d.]]. *)
Definition digit_or_dot (c : ascii) : bool := py_isdigit c || Ascii.eqb c ".".

(** [yolo_line_pattern.match(line)] for the pattern
    [^\s*(\d+)\s+([\d.]+)\s+([\d.]+)\s+([\d.]+)\s+([\d.]+)\s*$]: the five
    groups, or [None]. Each repetition is followed by a class disjoint from
    its own (or by the end of the line), so the greedy match is the only one
    and no backtracking is needed. *)
Definition yolo_line_pattern (line : list ascii)
    : option (list ascii * list ascii * list ascii * list ascii * list ascii) :=
  let '(_, r) := span py_isspace line in
  '(g1, r) ← span1 py_isdigit r;
  '(_, r) ← span1 py_isspace r;
  '(g2, r) ← span1 digit_or_dot r;
  '(_, r) ← span1 py_isspace r;
  '(g3, r) ← span1 digit_or_dot r;
  '(_, r) ← span1 py_isspace r;
  '(g4, r) ← span1 digit_or_dot r;
  '(_, r) ← span1 py_isspace r;
  '(g5, r) ← span1 digit_or_dot r;
  let '(_, r) := span py_isspace r in
  match r with
  | [] => Some (g1, g2, g3, g4, g5)
  | _ => None
  end.

(** The entries of [invalid_annotations], named after the error taxonomy;
    the comment gives the message of the source. *)
Inductive annotation_problem : Type :=
| EmptyAnnotation (label_file : string)
    (* "{label_file} (空文件)" *)
| MalformedLine (label_file : string) (line_num : nat) (line : string)
    (* "{label_file} (第{line_num}行格式错误: '{line}')" *)
| CoordinateOutOfRange (label_file : string) (line_num : nat)
    (* "{label_file} (第{line_num}行坐标超出0-1范围)" *)
| ClassIdOutOfRange (label_file : string) (line_num : nat) (class_id max_class_id : Z)
    (* "{label_file} (第{line_num}行类别ID {class_id} 超过最大允许值 {max_class_id})" *)
| NegativeClassId (label_file : string) (line_num : nat) (class_id : Z)
    (* "{label_file} (第{line_num}行类别ID为负数: {class_id})" *)
| ReadError (label_file : string) (e : exn).
    (* "{label_file} (读取错误: {e})" *)

Definition in_unit_range (q : Q) : bool := Qle_bool 0 q && Qle_bool q 1.

(** The body of the loop over the lines of one label file: the problems it
    appends. *)
Definition check_line (max_class_id : option Z) (label_file : string) (line_num : nat)
    (line : string) : result (list annotation_problem) :=
  let line := strip line in
  match line with
  | EmptyString => Ok []
  | _ =>
      match yolo_line_pattern (list_ascii_of_string line) with
      | None => Ok [MalformedLine label_file line_num line]
      | Some (g1, g2, g3, g4, g5) =>
          class_id ← py_int (string_of_list_ascii g1);
          cx ← float_of_digits_dots g2;
          cy ← float_of_digits_dots g3;
          w ← float_of_digits_dots g4;
          h ← float_of_digits_dots g5;
          let range :=
            if negb (in_unit_range cx && in_unit_range cy && in_unit_range w && in_unit_range h)
            then [CoordinateOutOfRange label_file line_num] else [] in
          let class :=
            match max_class_id with
            | Some m =>
                if m <? class_id then [ClassIdOutOfRange label_file line_num class_id m]
                else if class_id <? 0 then [NegativeClassId label_file line_num class_id]
                else []
            | None =>
                if class_id <? 0 then [NegativeClassId label_file line_num class_id]
                else []
            end in
          Ok (range ++ class)
      end
  end.

(** The loop over the lines, numbered from [line_num]. An exception keeps
    the problems appended so far and is reported by the handler. *)
Fixpoint check_lines (max_class_id : option Z) (label_file : string) (line_num : nat)
    (lines : list string) (invalid : list annotation_problem) : list annotation_problem :=
  match lines with
  | [] => invalid
  | line :: lines' =>
      match check_line max_class_id label_file line_num line with
      | Ok ps => check_lines max_class_id label_file (S line_num) lines' (invalid ++ ps)
      | Raise e => invalid ++ [ReadError label_file e]
      end
  end.

Definition is_blank (line : string) : bool :=
  match strip line with EmptyString => true | _ => false end.

(** The body of the loop over label files; [content] is what reading the
    file gives. *)
Definition check_label_file (max_class_id : option Z) (label_file : string)
    (content : result (list string)) (invalid : list annotation_problem)
    : list annotation_problem :=
  match content with
  | Raise e => invalid ++ [ReadError label_file e]
  | Ok lines =>
      if negb (existsb (fun line => negb (is_blank line)) lines)
      then invalid ++ [EmptyAnnotation label_file]
      else check_lines max_class_id label_file 1 lines invalid
  end.

(** ** More of [os.path] and [str] *)

Fixpoint starts_with (pre l : list ascii) : bool :=
  match pre, l with
  | [], _ => true
  | c :: pre', d :: l' => Ascii.eqb c d && starts_with pre' l'
  | _ :: _, [] => false
  end.

(** [s.endswith(suffix)] *)
Definition endswith (s suffix : string) : bool :=
  starts_with (rev (list_ascii_of_string suffix)) (rev (list_ascii_of_string s)).

(** [s.endswith(suffixes)] for a tuple of suffixes. *)
Definition endswith_any (s : string) (suffixes : list string) : bool :=
  existsb (endswith s) suffixes.

(** [s.lower()] on one character: the capital letters of ASCII and Latin-1. *)
Definition lower_char (c : ascii) : ascii :=
  let n := code c in
  if ((65 <=? n) && (n <=? 90) || (192 <=? n) && (n <=? 222) && negb (n =? 215))%nat
  then ascii_of_nat (n + 32) else c.

Definition lower (s : string) : string :=
  string_of_list_ascii (map lower_char (list_ascii_of_string s)).

Definition is_dot (c : ascii) : bool := Ascii.eqb c ".".
Definition is_slash (c : ascii) : bool := Ascii.eqb c "/".

(** [os.path.splitext(p)]: the extension starts at the last dot of the last
    component, provided a character other than a dot precedes it there. *)
Definition splitext (p : string) : string * string :=
  let l := list_ascii_of_string p in
  let name := basename_chars [] l in
  let dir := take (length l - length name) l in
  let '(rev_ext, rest) := span (fun c => negb (is_dot c)) (rev name) in
  match rest with
  | dot :: rev_root =>
      if existsb (fun c => negb (is_dot c)) rev_root
      then (string_of_list_ascii (dir ++ rev rev_root),
            string_of_list_ascii (dot :: rev rev_ext))
      else (p, EmptyString)
  | [] => (p, EmptyString)
  end.

(** [os.path.dirname(p)] *)
Definition dirname (p : string) : string :=
  let l := list_ascii_of_string p in
  let name := basename_chars [] l in
  let head := take (length l - length name) l in
  if forallb is_slash head then string_of_list_ascii head
  else string_of_list_ascii (rev (snd (span is_slash (rev head)))).

(** ** The file system as the tools see it *)

Record filesystem : Type := {
  path_exists : string -> bool;               (* os.path.exists *)
  is_file : string -> bool;                   (* os.path.isfile *)
  listdir : string -> result (list string);   (* os.listdir *)
  read_lines : string -> result (list string); (* open(path).readlines() *)
  abspath : string -> string                  (* os.path.abspath *)
}.

(** ** [validate_yolo_dataset] *)

Definition image_extensions : list string :=
  [".jpg"; ".jpeg"; ".png"; ".bmp"; ".gif"; ".JPG"; ".PNG"].

Inductive config_error : Type :=
| ImagesDirMissing (images_dir : string)  (* "错误: 图像目录不存在 - ..." *)
| LabelsDirMissing (labels_dir : string). (* "错误: 标注目录不存在 - ..." *)

(** [correspondence_info] *)
Record correspondence : Type := {
  total_images : nat;
  total_labels : nat;
  matched_pairs : nat;
  images_without_label : gset string;
  labels_without_image : gset string;
}.

(** What the validator returns: the early dictionary
    [{"success": False, "error": error, "report_path": None}], or the full
    result. [error_count] is the length of [all_errors]; the report written
    to [report_path] carries the same data. *)
Inductive validation_result : Type :=
| ConfigFailure (error : config_error)
| Validated (success : bool) (report_path : string)
    (correspondence_info : correspondence) (error_count : nat)
    (invalid_annotations : list annotation_problem).

(** The lines a non-empty group of findings adds to [all_errors]: one
    warning and at most five details. *)
Definition warning_lines (findings : nat) : nat :=
  match findings with
  | O => 0
  | _ => 1 + Nat.min 5 findings
  end.

(** [validate_yolo_dataset]. The images found broken by the random
    integrity sample are an input, [broken_images]. The second component is
    the report file written, if any. *)
Definition validate_yolo_dataset (fs : filesystem) (broken_images : list string)
    (images_dir labels_dir : string) (max_class_id : option Z)
    (report_path : option string)
    : result (validation_result * option (string * validation_result)) :=
  if negb (path_exists fs images_dir) then
    Ok (ConfigFailure (ImagesDirMissing images_dir), None)
  else if negb (path_exists fs labels_dir) then
    Ok (ConfigFailure (LabelsDirMissing labels_dir), None)
  else
    images ← listdir fs images_dir;
    labels ← listdir fs labels_dir;
    let image_files := List.filter (fun f => endswith_any f image_extensions) images in
    let label_files := List.filter (fun f => endswith f ".txt") labels in
    let image_basenames : gset string := list_to_set (map (fun f => fst (splitext f)) image_files) in
    let label_basenames : gset string := list_to_set (map (fun f => fst (splitext f)) label_files) in
    let info :=
      {| total_images := length image_files;
         total_labels := length label_files;
         matched_pairs := size (image_basenames ∩ label_basenames);
         images_without_label := image_basenames ∖ label_basenames;
         labels_without_image := label_basenames ∖ image_basenames |} in
    let invalid_annotations :=
      foldl (fun invalid label_file =>
               check_label_file max_class_id label_file
                 (read_lines fs (path_join labels_dir label_file)) invalid)
            [] label_files in
    let error_count :=
      (warning_lines (size (images_without_label info)) +
       warning_lines (size (labels_without_image info)) +
       warning_lines (length broken_images) +
       warning_lines (length invalid_annotations))%nat in
    let success := (error_count =? 0)%nat in
    let report_path :=
      match report_path with
      | Some p => p
      | None => path_join (dirname images_dir) "dataset_validation_report.txt"
      end in
    let res := Validated success report_path info error_count invalid_annotations in
    Ok (res, Some (report_path, res)).

Definition is_negative_class_id (p : annotation_problem) : bool :=
  match p with
  | NegativeClassId _ _ _ => true
  | _ => false
  end.

(** ** Distribution analyzer ([yolo_labels_distribution.py]) *)

(** [c[k] += 1] on a [Counter]: a missing key counts as zero. *)
Definition counter_incr {K : Type} `{Countable K} (k : K) (c : gmap K nat) : gmap K nat :=
  <[k := S (default 0%nat (c !! k))]> c.

(** The same on the insertion-ordered [file_objects]. *)
Definition ocounter_incr (k : Z) (c : odict Z nat) : odict Z nat :=
  odict_set c k (S (default 0%nat (odict_get c k))).

Record analyzer : Type := {
  labels_counter : gmap Z nat;
  total_objects : nat;
  total_label_files : nat;
  objects_per_image : gmap nat nat;
  class_objects_per_image : gmap Z (gmap nat nat);
}.

(** The fields of a fresh [YOLOLabelAnalyzer]. *)
Definition analyzer_init : analyzer :=
  {| labels_counter := ∅; total_objects := 0; total_label_files := 0;
     objects_per_image := ∅; class_objects_per_image := ∅ |}.

(** The variables of the loop over the lines of one file: the counter
    [labels_counter] of the analyzer, and the locals [file_objects] and
    [total_objects_in_file]. *)
Definition line_state : Type := (gmap Z nat * odict Z nat * nat)%type.

(** What counting one object of class [class_id] does to them. *)
Definition line_counted (class_id : Z) (st : line_state) : line_state :=
  let '(labels_counter, file_objects, total_objects_in_file) := st in
  (counter_incr class_id labels_counter,
   ocounter_incr class_id file_objects,
   S total_objects_in_file).

(** The body of [for line in file]. *)
Definition count_line (st : line_state) (line : string) : result line_state :=
  let '(labels_counter, file_objects, total_objects_in_file) := st in
  let line := strip line in
  match line with
  | EmptyString => Ok st
  | _ =>
      let parts := split line in
      if (5 <=? length parts)%nat then
        class_id ← py_int (default EmptyString (head parts));
        Ok (line_counted class_id st)
      else Ok st
  end.

(** The loop over the lines. An exception leaves the loop; what it did to
    [labels_counter] stays, the locals are lost. *)
Fixpoint count_lines (st : line_state) (lines : list string)
    : gmap Z nat * result (odict Z nat * nat) :=
  match lines with
  | [] => let '(labels_counter, file_objects, total) := st in
          (labels_counter, Ok (file_objects, total))
  | line :: lines' =>
      match count_line st line with
      | Ok st' => count_lines st' lines'
      | Raise e => (fst (fst st), Raise e)
      end
  end.

(** [for class_id, count in file_objects.items():
       self.class_objects_per_image[class_id][count] += 1];
    the outer dictionary is a plain [dict], an absent class id is a
    [KeyError], and the entries updated before it stay updated. *)
Fixpoint add_class_counts (items : list (Z * nat)) (per_class : gmap Z (gmap nat nat))
    : gmap Z (gmap nat nat) * result unit :=
  match items with
  | [] => (per_class, Ok ())
  | (class_id, count) :: items' =>
      match per_class !! class_id with
      | Some c => add_class_counts items' (<[class_id := counter_incr count c]> per_class)
      | None => (per_class, Raise KeyError)
      end
  end.

(** The body of the loop over label files, with its [try]/[except]: any
    exception is printed and the loop goes on with the next file. *)
Definition analyze_file (a : analyzer) (lines : list string) : analyzer :=
  match count_lines (labels_counter a, [], 0%nat) lines with
  | (lc, Raise _) =>
      {| labels_counter := lc; total_objects := total_objects a;
         total_label_files := total_label_files a;
         objects_per_image := objects_per_image a;
         class_objects_per_image := class_objects_per_image a |}
  | (lc, Ok (file_objects, total_objects_in_file)) =>
      {| labels_counter := lc; total_objects := total_objects a;
         total_label_files := total_label_files a;
         objects_per_image := counter_incr total_objects_in_file (objects_per_image a);
         class_objects_per_image :=
           fst (add_class_counts file_objects (class_objects_per_image a)) |}
  end.

Definition exclude_files : list string :=
  ["classes.txt"; "train.txt"; "val.txt"; "test.txt"].

Definition excluded (path : string) : bool :=
  existsb (String.eqb (basename path)) exclude_files.

(** The object count of a label file: the value of [total_objects_in_file]
    when the loop over its lines ends, [None] when the loop raises. *)
Definition objects_in_file (lines : list string) : option nat :=
  match snd (count_lines (∅, [], 0%nat) lines) with
  | Ok (_, total_objects_in_file) => Some total_objects_in_file
  | Raise _ => None
  end.

(** [sum(counter.values())] *)
Definition counter_total (c : gmap Z nat) : nat :=
  map_fold (fun _ v acc => (v + acc)%nat) 0%nat c.

(** [YOLOLabelAnalyzer.analyze_labels_distribution]; [txt_files] is the
    result of the recursive [glob], each path with the lines of its file. The
    result is the analyzer afterwards and the value returned. *)
Definition analyze_labels_distribution (a : analyzer)
    (txt_files : list (string * list string)) : analyzer * bool :=
  match txt_files with
  | [] => (a, false)
  | _ =>
      let txt_files :=
        List.filter (fun f => negb (excluded (fst f))) txt_files in
      let a :=
        {| labels_counter := labels_counter a; total_objects := total_objects a;
           total_label_files := length txt_files;
           objects_per_image := objects_per_image a;
           class_objects_per_image :=
             foldl (fun m class_id => <[Z.of_nat class_id := ∅]> m)
                   (class_objects_per_image a) (seq 0 100) |} in
      let a := foldl (fun a f => analyze_file a (snd f)) a txt_files in
      let per_class :=
        filter (fun kv => snd kv <> ∅ /\ is_Some (labels_counter a !! fst kv))
               (class_objects_per_image a) in
      if bool_decide (labels_counter a = ∅) then
        ({| labels_counter := labels_counter a; total_objects := total_objects a;
            total_label_files := total_label_files a;
            objects_per_image := objects_per_image a;
            class_objects_per_image := per_class |}, false)
      else
        ({| labels_counter := labels_counter a;
            total_objects := counter_total (labels_counter a);
            total_label_files := total_label_files a;
            objects_per_image := objects_per_image a;
            class_objects_per_image := per_class |}, true)
  end.

(** ** Dataset splitter ([split_dataset.py]) *)

(** A directory argument: one path or a list of paths. *)
Inductive dirs : Type :=
| OneDir (d : string)
| ManyDirs (ds : list string).

Definition default_image_extensions : list string :=
  [".jpg"; ".jpeg"; ".png"; ".bmp"; ".tiff"; ".tif"].

(** [needle in hay] on strings. *)
Fixpoint contains_chars (needle hay : list ascii) : bool :=
  starts_with needle hay ||
  match hay with
  | [] => false
  | _ :: hay' => contains_chars needle hay'
  end.

Definition contains (needle hay : string) : bool :=
  contains_chars (list_ascii_of_string needle) (list_ascii_of_string hay).

Definition is_image_file (fs : filesystem) (directory filename : string) : bool :=
  is_file fs (path_join directory filename) &&
  existsb (String.eqb (lower (snd (splitext filename)))) default_image_extensions.

(** [get_all_image_files]; an [OSError] of the listing is printed and the
    empty list returned. *)
Definition get_all_image_files (fs : filesystem) (directory : string) : list string :=
  match listdir fs directory with
  | Ok names => List.filter (is_image_file fs directory) names
  | Raise _ => []
  end.

(** [find_image_files_with_strings] *)
Definition find_image_files_with_strings (fs : filesystem) (directory : string)
    (search_strings : list string) : list string :=
  match listdir fs directory with
  | Ok names =>
      List.filter (fun filename =>
                     is_image_file fs directory filename &&
                     match search_strings with
                     | [] => true
                     | _ => existsb (fun s => contains s filename) search_strings
                     end) names
  | Raise _ => []
  end.

(** The directory lists after the formatting of the arguments. *)
Definition images_dir_list (images_dir : dirs) : list string :=
  match images_dir with
  | OneDir d => [d]
  | ManyDirs ds => ds
  end.

Definition labels_dir_list (images_dir : dirs) (labels_dir : option dirs) : list string :=
  match labels_dir with
  | None => images_dir_list images_dir
  | Some (OneDir d) => [d]
  | Some (ManyDirs ds) => ds
  end.

(** An entry of [all_image_info]: [(image_file, image_dir, label_dir)]. *)
Definition image_info : Type := (string * string * string)%type.

(** The loop that collects [all_image_info] over the directory pairs. *)
Definition collect_image_info (fs : filesystem) (search_strings : list string)
    (images labels : list string) : list image_info :=
  flat_map (fun '(img_dir, lbl_dir) =>
              let current_image_files :=
                match search_strings with
                | [] => get_all_image_files fs img_dir
                | _ => find_image_files_with_strings fs img_dir search_strings
                end in
              map (fun img_file => (img_file, img_dir, lbl_dir)) current_image_files)
           (zip images labels).

(** [get_label_path(idx, False)] on the entry itself. *)
Definition label_path (info : image_info) : string :=
  let '(img_file, _, lbl_dir) := info in
  path_join lbl_dir (fst (splitext img_file) +:+ ".txt").

Definition has_label (fs : filesystem) (info : image_info) : bool :=
  path_exists fs (label_path info).

(** The dictionary returned by [split_dataset]. *)
Record split_stats : Type := {
  total : Z;
  train : Z;
  val : Z;
  test : Z;
  trainval : Z;
  output_dir : string;
}.

Section split_dataset.
(** The generator of [random] is a parameter: its states, the state after
    [random.seed(n)], and [random.sample(population, k)] for
    [0 <= k <= len(population)], which returns the sample and the next
    state. *)
Variable rng : Type.
Variable rng_seed : Z -> rng.
Variable rng_sample : rng -> list nat -> nat -> list nat * rng.

(** [random.sample], with its check of [k]. *)
Definition random_sample (g : rng) (population : list nat) (k : Z)
    : result (list nat * rng) :=
  if (k <? 0) || (Z.of_nat (length population) <? k) then Raise ValueError
  else Ok (rng_sample g population (Z.to_nat k)).

(** [get_file_path(idx, use_abs_path)] and [get_label_path]. *)
Definition get_file_path (fs : filesystem) (all_image_info : list image_info)
    (use_abs_path : bool) (idx : nat) : result string :=
  match all_image_info !! idx with
  | Some (img_file, img_dir, _) =>
      Ok (if use_abs_path then abspath fs (path_join img_dir img_file)
          else path_join img_dir img_file)
  | None => Raise IndexError
  end.

Definition get_label_path (fs : filesystem) (all_image_info : list image_info)
    (use_abs_path : bool) (idx : nat) : result string :=
  match all_image_info !! idx with
  | Some info => Ok (if use_abs_path then abspath fs (label_path info) else label_path info)
  | None => Raise IndexError
  end.

(** [[f(x) for x in l]] for an [f] that may raise. *)
Fixpoint map_result {A B : Type} (f : A -> result B) (l : list A) : result (list B) :=
  match l with
  | [] => Ok []
  | x :: l' => y ← f x; ys ← map_result f l'; Ok (y :: ys)
  end.

(** The loop over [file_sets]: one list file per set, and one list of
    label paths when asked for. *)
Fixpoint write_file_sets (fs : filesystem) (all_image_info : list image_info)
    (output_dir : string) (use_absolute_path generate_label_lists : bool)
    (file_sets : list (string * list nat)) (written : gmap string (list string))
    : result (gmap string (list string)) :=
  match file_sets with
  | [] => Ok written
  | (set_name, indices_list) :: rest =>
      paths ← map_result (get_file_path fs all_image_info use_absolute_path) indices_list;
      let written := <[path_join output_dir (set_name +:+ ".txt") := paths]> written in
      written ←
        (if generate_label_lists then
           label_paths ← map_result (get_label_path fs all_image_info use_absolute_path)
                                    indices_list;
           Ok (<[path_join output_dir (set_name +:+ "_labels.txt") := label_paths]> written)
         else Ok written);
      write_file_sets fs all_image_info output_dir use_absolute_path
        generate_label_lists rest written
  end.

(** [split_dataset]. [g] is the state of the generator before the call and
    [answer] what the user types if asked about images without labels. The
    result is the dictionary returned, the list files written and the
    state of the generator afterwards. *)
Definition split_dataset (fs : filesystem) (g : rng) (answer : string)
    (images_dir : dirs) (labels_dir : option dirs) (output_dir : option string)
    (search_strings : list string) (trainval_percent train_percent : Q)
    (use_absolute_path generate_label_lists : bool) (random_seed : option Z)
    : result (split_stats * gmap string (list string) * rng) :=
  let images := images_dir_list images_dir in
  let labels := labels_dir_list images_dir labels_dir in
  if negb (length images =? length labels)%nat then Raise ValueError
  else if existsb (fun img_dir => negb (path_exists fs img_dir)) images then Raise ValueError
  else
    output_dir ←
      match output_dir with
      | Some o => Ok o
      | None =>
          match images with
          | first :: _ => Ok (path_join (path_join first "..") "Main")
          | [] => Raise IndexError
          end
      end;
    let g := match random_seed with Some n => rng_seed n | None => g end in
    let all_image_info := collect_image_info fs search_strings images labels in
    match all_image_info with
    | [] => Raise ValueError
    | _ =>
        let valid_image_info := List.filter (has_label fs) all_image_info in
        let missing_labels := List.filter (fun info => negb (has_label fs info)) all_image_info in
        let all_image_info :=
          match missing_labels with
          | [] => all_image_info
          | _ => if String.eqb (lower answer) "y" then valid_image_info else all_image_info
          end in
        let num_total := Z.of_nat (length all_image_info) in
        let num_trainval := py_int_of_float (inject_Z num_total * trainval_percent) in
        let num_train := py_int_of_float (inject_Z num_trainval * train_percent) in
        let num_val := num_trainval - num_train in
        let num_test := num_total - num_trainval in
        let indices := seq 0 (length all_image_info) in
        '(trainval_indices, g) ← random_sample g indices num_trainval;
        '(train_indices, g) ← random_sample g trainval_indices num_train;
        let val_indices :=
          List.filter (fun i => negb (bool_decide (i ∈ train_indices))) trainval_indices in
        let test_indices :=
          List.filter (fun i => negb (bool_decide (i ∈ trainval_indices))) indices in
        written ←
          write_file_sets fs all_image_info output_dir use_absolute_path
            generate_label_lists
            [("train", train_indices); ("val", val_indices);
             ("test", test_indices); ("trainval", trainval_indices)] ∅;
        Ok ({| total := num_total; train := num_train; val := num_val;
               test := num_test; trainval := num_trainval;
               output_dir := output_dir |}, written, g)
    end.
End split_dataset.

(** ** More of the analyzer, the converters and the splitter *)

(** The sum of the counts of a [Counter]. *)
Definition counter_sum {K : Type} `{Countable K} (c : gmap K nat) : nat :=
  map_fold (fun _ v acc => (v + acc)%nat) 0%nat c.

(** The loop of [_load_classes_from_txt] over the lines of the file,
    numbered from [i]: a line that is not blank gives the class [i] its
    stripped text. *)
Fixpoint load_class_lines (i : nat) (lines : list string) (class_names : gmap nat string)
    : gmap nat string :=
  match lines with
  | [] => class_names
  | line :: lines' =>
      let class_name := strip line in
      load_class_lines (S i) lines'
        (match class_name with
         | EmptyString => class_names
         | _ => <[i := class_name]> class_names
         end)
  end.

(** [YOLOLabelAnalyzer._load_classes_from_txt]; [content] is what reading
    the file gives, and any exception gives the empty dictionary. *)
Definition _load_classes_from_txt (content : result (list string)) : gmap nat string :=
  match content with
  | Ok lines => load_class_lines 0 lines ∅
  | Raise _ => ∅
  end.



(** [check_label_files_exist]: the images with a label file and the images
    without, each in the order of [image_files]. *)
Definition check_label_files_exist (fs : filesystem) (image_files : list string)
    (images_dir labels_dir : string) : list string * list string :=
  foldl (fun '(valid_images, missing_labels) image_file =>
           let base_name := fst (splitext image_file) in
           let label_file := path_join labels_dir (base_name +:+ ".txt") in
           if path_exists fs label_file
           then (valid_images ++ [image_file], missing_labels)
           else (valid_images, missing_labels ++ [image_file]))
        ([], []) image_files.

Section split_indices.
Variable rng : Type.
Variable rng_sample : rng -> list nat -> nat -> list nat * rng.

(** The random partition inside [split_dataset]: [indices],
    [trainval_indices], [train_indices], [val_indices] and [test_indices],
    returned as [(train, val, test, trainval)] with the next state of the
    generator. *)
Definition split_indices (g : rng) (num_total : nat) (num_trainval num_train : Z)
    : result (list nat * list nat * list nat * list nat * rng) :=
  let indices := seq 0 num_total in
  '(trainval_indices, g) ← random_sample rng rng_sample g indices num_trainval;
  '(train_indices, g) ← random_sample rng rng_sample g trainval_indices num_train;
  let val_indices :=
    List.filter (fun i => negb (bool_decide (i ∈ train_indices))) trainval_indices in
  let test_indices :=
    List.filter (fun i => negb (bool_decide (i ∈ trainval_indices))) indices in
  Ok (train_indices, val_indices, test_indices, trainval_indices, g).
End split_indices.

(** The line that [get_file_path] gives for an entry of [all_image_info]. *)
Definition image_path (fs : filesystem) (use_abs_path : bool) (info : image_info) : string :=
  let '(img_file, img_dir, _) := info in
  if use_abs_path then abspath fs (path_join img_dir img_file)
  else path_join img_dir img_file.

(** ** [XmlNameModify] *)

(** [root.iter('object')]: the elements with the tag [object] in document
    order, the root included. *)
Fixpoint iter_objects (e : element) : list element :=
  match e with
  | Element t x cs =>
      (if String.eqb t "object" then [e] else []) ++ flat_map iter_objects cs
  end.

(** What [obj.find('name')] gives to the loops of [XmlNameModify]: [None]
    when there is no [name] child, else the text of the first one. *)
Definition object_name (obj : element) : option (option string) :=
  text <$> find "name" obj.

(** [obj.find(name).text = t] on the children of [obj]. *)
Fixpoint set_first_text (name t : string) (cs : list element) : list element :=
  match cs with
  | [] => []
  | c :: cs' =>
      if has_tag name c then Element (tag c) (Some t) (children c) :: cs'
      else c :: set_first_text name t cs'
  end.

(** The body of [if name == old_name] in [modify]: a [name_old] child is
    added at the end when there is none, the first [name_old] gets the old
    name and the first [name] the new one. *)
Definition rename_object (old_name new_name : string) (obj : element) : element :=
  let cs := match find "name_old" obj with
            | Some _ => children obj
            | None => children obj ++ [Element "name_old" None []]
            end in
  Element (tag obj) (text obj)
    (set_first_text "name" new_name (set_first_text "name_old" old_name cs)).

(** One turn of the loop over [root.iter('object')]: the object rewritten
    when its name is the old name. *)
Definition modify_object (old_name new_name : string) (obj : element)
    : result (option element) :=
  name ← text_of (find "name" obj);
  if bool_decide (name = Some old_name)
  then Ok (Some (rename_object old_name new_name obj))
  else Ok None.

(** The first element of a list that [f] rewrites is replaced, and the
    search stops there. *)
Definition modify_first {A : Type} (f : A -> result (option A))
    : list A -> result (option (list A)) :=
  fix go (l : list A) : result (option (list A)) :=
    match l with
    | [] => Ok None
    | c :: l' =>
        r ← f c;
        match r with
        | Some c' => Ok (Some (c' :: l'))
        | None => rs ← go l'; Ok (cons c <$> (rs : option (list A)))
        end
    end.

(** The loop [for obj in root.iter('object')] of [modify] with its
    [break]: the tree that is written back when an object had the old name,
    [None] when the loop ends without writing. *)
Fixpoint modify_element (old_name new_name : string) (e : element)
    : result (option element) :=
  match e with
  | Element t x cs =>
      here ← (if String.eqb t "object" then modify_object old_name new_name e
              else Ok None);
      match here with
      | Some e' => Ok (Some e')
      | None =>
          cs' ← modify_first (modify_element old_name new_name) cs;
          Ok (Element t x <$> (cs' : option (list element)))
      end
  end.

(** [XmlNameModify.modify] over the [.xml] files in the order of [os.walk]:
    the files afterwards and the value returned; an exception leaves the
    files not yet reached as they were. *)
Fixpoint modify (old_name new_name : string) (files : list xml_file)
    : list xml_file * result bool :=
  match files with
  | [] => ([], Ok true)
  | f :: files' =>
      match root ← parse f; modify_element old_name new_name root with
      | Raise e => (f :: files', Raise e)
      | Ok r =>
          let f' := match r with Some root' => Document root' | None => f end in
          let '(rest, outcome) := modify old_name new_name files' in
          (f' :: rest, outcome)
      end
  end.

(** The names that a loop over [root.iter('object')] reads, in document
    order. *)
Definition object_names (e : element) : list (option (option string)) :=
  map object_name (iter_objects e).

(** ** The class file *)

(** [XMLtoTXTConverter._create_class_file]: [classes.txt] is opened for
    appending and gets one line for each name of the class list; [content]
    is what the file held before. Without a class list the loop raises a
    [TypeError]. *)
Definition _create_class_file (c : converter) (content : string) : result string :=
  match class_list c with
  | None => Raise TypeError
  | Some names =>
      Ok (content +:+
          foldl (fun class_result i => (class_result +:+ i) +:+ String "010" EmptyString)
                EmptyString names)
  end.

(** The lines of a text file as [readlines] and the iteration over the file
    give them: every line keeps its end, and in text mode a carriage return,
    alone or before a line feed, is read as the line feed. [cur] holds the
    current line, reversed. *)
Fixpoint file_lines (cur : list ascii) (l : list ascii) : list (list ascii) :=
  match l with
  | [] => match cur with [] => [] | _ => [rev cur] end
  | c :: l' =>
      if Ascii.eqb c "010" then rev ("010"%char :: cur) :: file_lines [] l'
      else if Ascii.eqb c "013" then
        rev ("010"%char :: cur) ::
        match l' with
        | d :: l'' => if Ascii.eqb d "010" then file_lines [] l'' else file_lines [] l'
        | [] => []
        end
      else file_lines (c :: cur) l'
  end.

Definition readlines (content : string) : list string :=
  map string_of_list_ascii (file_lines [] (list_ascii_of_string content)).

(** [s.strip('\n')] *)
Fixpoint lstrip_char (ch : ascii) (l : list ascii) : list ascii :=
  match l with
  | c :: l' => if Ascii.eqb c ch then lstrip_char ch l' else l
  | [] => []
  end.

Definition strip_char (ch : ascii) (s : string) : string :=
  string_of_list_ascii
    (rev (lstrip_char ch (rev (lstrip_char ch (list_ascii_of_string s))))).

(** The list [classes] that [TxtToXmlConverter.convert] reads from the
    class file. *)
Definition read_classes (content : string) : list string :=
  map (strip_char "010") (readlines content).

(** ** Example inputs *)

Module Examples.
(** [float(s)] on plain decimals, enough for the example files. *)
Definition decimal_float (s : string) : result Q :=
  float_of_digits_dots (list_ascii_of_string s).

Definition field (name value : string) : element := Element name (Some value) [].

(** An [object] element with a name and the pixel box (1, 2, 3, 4). *)
Definition object_named (name : string) : element :=
  Element "object" None
    [field "name" name;
     Element "bndbox" None
       [field "xmin" "1"; field "ymin" "2"; field "xmax" "3"; field "ymax" "4"]].

Definition size_8x8 : element :=
  Element "size" None [field "width" "8"; field "height" "8"; field "depth" "3"].

(** An annotation of an 8 by 8 image with one object per name. *)
Definition annotation (names : list string) : xml_file :=
  Document (Element "annotation" None (size_8x8 :: map object_named names)).

(** An annotation without its [size] element. *)
Definition annotation_without_size (names : list string) : xml_file :=
  Document (Element "annotation" None (map object_named names)).

Definition list_converter (names : list string) : converter :=
  {| input_dir := "xml"; out_dir := "labels"; class_dir := None;
     class_list := Some names; class_map_dist := None;
     txt_write_mode := Overwrite |}.

Definition map_converter (names : list string) (m : gmap string string) : converter :=
  {| input_dir := "xml"; out_dir := "labels"; class_dir := None;
     class_list := Some names; class_map_dist := Some m;
     txt_write_mode := Overwrite |}.

(** A folder [images] with the hundred files [img00.jpg] to [img99.jpg],
    on a file system where every path exists. *)
Definition image_name (n : nat) : string :=
  "img" +:+ String (ascii_of_nat (48 + n / 10))
              (String (ascii_of_nat (48 + n mod 10)) ".jpg").

Definition corpus_fs : filesystem :=
  {| path_exists := fun _ => true;
     is_file := fun _ => true;
     listdir := fun d => if String.eqb d "images" then Ok (map image_name (seq 0 100))
                         else Ok [];
     read_lines := fun _ => Ok [];
     abspath := fun p => "/data/" +:+ p |}.

(** A file system on which no path exists. *)
Definition empty_fs : filesystem :=
  {| path_exists := fun _ => false;
     is_file := fun _ => false;
     listdir := fun _ => Raise ValueError;
     read_lines := fun _ => Raise ValueError;
     abspath := fun p => p |}.

(** A deterministic stand-in for the generator: the state is a counter,
    seeding sets it, and a sample is the first [k] elements of the
    population rotated by the counter. *)
Definition counter_seed (n : Z) : nat := Z.to_nat n.

Definition rotate_sample (g : nat) (population : list nat) (k : nat) : list nat * nat :=
  (take k (rotate g population), S g).
End Examples.

Module MoreExamples.
(** A small dataset: three images, two of them with the same base name,
    and two label files. *)
Definition dataset_fs : filesystem :=
  {| path_exists := fun p => negb (String.eqb p "data/labels/b.txt");
     is_file := fun _ => true;
     listdir := fun d =>
       if String.eqb d "data/images" then Ok ["a.jpg"; "b.jpg"; "a.png"; "notes.md"]
       else if String.eqb d "data/labels" then Ok ["a.txt"; "c.txt"]
       else Ok [];
     read_lines := fun p =>
       if String.eqb p "data/labels/a.txt" then Ok ["0 0.5 0.5 0.2 0.2"; "1 0.1 0.1 0.1 0.1"]
       else if String.eqb p "data/labels/c.txt" then Ok ["7 0.5 0.5 0.2 1.2"]
       else Raise ValueError;
     abspath := fun p => "/home/" +:+ p |}.


(** An annotation with three objects, two of them with the same name, the
    first of which already has a [name_old] child. *)
Definition named_object (name : string) (more : list element) : element :=
  Element "object" None (Element "name" (Some name) [] :: more).

Definition three_objects : element :=
  Element "annotation" None
    [Element "filename" (Some "img.jpg") [];
     named_object "car" [];
     named_object "M1A1" [Element "name_old" (Some "tank") []];
     named_object "M1A1" []].
End MoreExamples.

(** * Properties *)

(** ** Coordinate conversion *)








(** On an 8 by 8 image the box (0.5, 0.5, 0.5, 0.5) is written as the pixel
    box (3, 3, 7, 7) and read back as (0.625, 0.625, 0.5, 0.5); every number
    involved is a binary fraction, so floating point computes the same. *)
Example txt_xml_txt_half :
  txt_line_bndbox 8 8 (1 # 2, 1 # 2, 1 # 2, 1 # 2)%Q = (3, 3, 7, 7) /\
  exists x y w h,
    txt_xml_txt 8 8 (1 # 2, 1 # 2, 1 # 2, 1 # 2)%Q = Ok (x, y, w, h) /\
    (x == 5 # 8)%Q /\ (y == 5 # 8)%Q /\ (w == 1 # 2)%Q /\ (h == 1 # 2)%Q.
Proof.
  split; [reflexivity|]. do 4 eexists. split; [vm_compute; reflexivity|].
  repeat split; reflexivity.
Qed.




(** ** XML to text conversion *)

Section xml_to_txt_properties.
Variable py_float : string -> result Q.

Lemma convert_xml_to_txt_app (c : converter) (pre rest : list (string * xml_file))
    (fs : gmap string (list label_line)) :
  _convert_xml_to_txt py_float c (pre ++ rest) fs =
    match snd (_convert_xml_to_txt py_float c pre fs) with
    | Ok _ => _convert_xml_to_txt py_float c rest (fst (_convert_xml_to_txt py_float c pre fs))
    | Raise e => (fst (_convert_xml_to_txt py_float c pre fs), Raise e)
    end.
Proof.
  revert fs. induction pre as [|[p f] pre IH]; intros fs; simpl.
  - reflexivity.
  - destruct (convert_file py_float c f); simpl; [apply IH | reflexivity].
Qed.

Lemma convert_xml_to_txt_all_ok (c : converter) (files : list (string * xml_file))
    (fs : gmap string (list label_line)) :
  Forall (fun pf => is_ok (convert_file py_float c (snd pf)) = true) files ->
  snd (_convert_xml_to_txt py_float c files fs) = Ok () /\
  (forall p, is_Some (fs !! p) ->
             is_Some (fst (_convert_xml_to_txt py_float c files fs) !! p)) /\
  (forall pf, pf ∈ files ->
     is_Some (fst (_convert_xml_to_txt py_float c files fs) !! txt_file_path c (fst pf))).
Proof.
  intros Hall. revert fs.
  induction Hall as [|[p f] files Hok _ IH]; intros fs; simpl.
  - split; [reflexivity|]. split; [auto|]. intros pf Hin. inversion Hin.
  - simpl in Hok. destruct (convert_file py_float c f) as [txt|] eqn:E; [|discriminate].
    set (fs1 := write_txt (txt_write_mode c) (txt_file_path c p) txt fs).
    destruct (IH fs1) as (Hend & Hkeep & Hnew).
    assert (Hmono : forall q, is_Some (fs !! q) -> is_Some (fs1 !! q)).
    { intros q Hq. unfold fs1, write_txt.
      destruct (txt_write_mode c); (destruct (decide (txt_file_path c p = q)) as [->|Hne];
        [rewrite lookup_insert_eq; eauto | rewrite lookup_insert_ne by done; exact Hq]). }
    assert (Hp : is_Some (fs1 !! txt_file_path c p)).
    { unfold fs1, write_txt. destruct (txt_write_mode c); rewrite lookup_insert_eq; eauto. }
    split; [exact Hend|]. split.
    + intros q Hq. apply Hkeep, Hmono, Hq.
    + intros pf Hin. apply elem_of_cons in Hin as [->|Hin]; simpl.
      * apply Hkeep, Hp.
      * apply Hnew, Hin.
Qed.

(** Claim C2, as amended. The loop over files catches nothing: when the
    files before some file convert and that file raises, the run ends with
    that exception right after writing the text files of the earlier ones,
    whatever follows in the list; no later file is converted and nothing is
    collected. Only when no file raises does the run end normally, and then
    every file of the list has its text file. *)
Theorem convert_stops_at_first_failure (c : converter)
    (pre post : list (string * xml_file)) (bad_path : string) (bad : xml_file)
    (e : exn) (fs : gmap string (list label_line)) :
  Forall (fun pf => is_ok (convert_file py_float c (snd pf)) = true) pre ->
  convert_file py_float c bad = Raise e ->
  _convert_xml_to_txt py_float c (pre ++ (bad_path, bad) :: post) fs =
    (fst (_convert_xml_to_txt py_float c pre fs), Raise e) /\
  snd (_convert_xml_to_txt py_float c pre fs) = Ok () /\
  (forall pf, pf ∈ pre ->
     is_Some (fst (_convert_xml_to_txt py_float c pre fs) !! txt_file_path c (fst pf))).
Proof.
  intros Hpre Hbad.
  destruct (convert_xml_to_txt_all_ok c pre fs Hpre) as (Hend & _ & Hwritten).
  split; [|split; assumption].
  rewrite convert_xml_to_txt_app, Hend. simpl. rewrite Hbad. reflexivity.
Qed.

(** ** Class lookup *)

Lemma existsb_eqb_elem_of (n : string) (l : list string) :
  existsb (String.eqb n) l = bool_decide (n ∈ l).
Proof.
  induction l as [|y l IH]; simpl.
  - reflexivity.
  - destruct (String.eqb_spec n y) as [->|Hne]; simpl.
    + symmetry. apply bool_decide_eq_true_2. left.
    + rewrite IH. apply bool_decide_ext. rewrite elem_of_cons. tauto.
Qed.

Lemma list_index_elem_of (n : string) (l : list string) :
  n ∈ l -> exists i, list_index n l = Ok i.
Proof.
  induction l as [|y l IH]; intros Hin; [inversion Hin|]. simpl.
  destruct (String.eqb_spec y n) as [->|Hne]; [eauto|].
  apply elem_of_cons in Hin as [->|Hin]; [done|].
  destruct (IH Hin) as [i ->]. eauto.
Qed.

(** The lookup continues with the next object exactly on the names of
    [unresolved]. *)
Lemma lookup_class_continue_iff (c : converter) (obj_name : option string) :
  lookup_class c obj_name = Ok Continue <-> unresolved c obj_name = true.
Proof.
  unfold lookup_class, unresolved.
  destruct (truthy_dict (class_map_dist c) && truthy_list (class_list c)).
  - destruct obj_name as [n|]; simpl; [|done].
    rewrite bool_decide_eq_true.
    destruct (default ∅ (class_map_dist c) !! n) as [new|] eqn:E; [|done].
    split; [|done]. destruct (list_index new _); simpl; discriminate.
  - destruct (truthy_list (class_list c)); [|done].
    destruct obj_name as [n|]; [|done].
    rewrite existsb_eqb_elem_of, bool_decide_eq_true.
    destruct (decide (n ∈ default [] (class_list c))) as [Hin|Hout].
    + rewrite bool_decide_true by done. simpl.
      destruct (list_index_elem_of _ _ Hin) as [i ->]. simpl. split; [discriminate|done].
    + rewrite bool_decide_false by done. simpl. done.
Qed.

Lemma convert_object_unresolved (c : converter) (imgshape : Z * Z)
    (txtresult : list label_line) (obj : element) :
  unresolved_object c obj = true ->
  convert_object py_float c imgshape txtresult obj = Ok txtresult.
Proof.
  unfold unresolved_object, convert_object.
  destruct (find "name" obj) as [name_element|]; [|discriminate].
  intros Hun. apply lookup_class_continue_iff in Hun. simpl. rewrite Hun. reflexivity.
Qed.

Lemma convert_objects_app (c : converter) (imgshape : Z * Z)
    (txtresult : list label_line) (pre post : list element) :
  convert_objects py_float c imgshape txtresult (pre ++ post) =
    txtresult' ← convert_objects py_float c imgshape txtresult pre;
    convert_objects py_float c imgshape txtresult' post.
Proof.
  revert txtresult. induction pre as [|o pre IH]; intros txtresult; simpl; [reflexivity|].
  destruct (convert_object py_float c imgshape txtresult o); simpl; [apply IH | reflexivity].
Qed.

Lemma convert_objects_skip (c : converter) (imgshape : Z * Z)
    (txtresult : list label_line) (pre post : list element) (obj : element) :
  unresolved_object c obj = true ->
  convert_objects py_float c imgshape txtresult (pre ++ obj :: post) =
  convert_objects py_float c imgshape txtresult (pre ++ post).
Proof.
  intros Hun. rewrite !convert_objects_app.
  destruct (convert_objects py_float c imgshape txtresult pre) as [txt|]; simpl; [|reflexivity].
  rewrite convert_object_unresolved by exact Hun. reflexivity.
Qed.

(** An object whose name resolves and whose box is complete appends its
    line. *)
Lemma convert_object_resolved (c : converter) (imgshape : Z * Z)
    (txtresult : list label_line) (obj name_element bbox : element)
    (obj_id : nat) (xmin xmax ymin ymax : Q) (b : box) :
  find "name" obj = Some name_element ->
  lookup_class c (text name_element) = Ok (Bound obj_id) ->
  find "bndbox" obj = Some bbox ->
  float_field py_float bbox "xmin" = Ok xmin ->
  float_field py_float bbox "xmax" = Ok xmax ->
  float_field py_float bbox "ymin" = Ok ymin ->
  float_field py_float bbox "ymax" = Ok ymax ->
  _convert_coordinate imgshape (xmin, xmax, ymin, ymax) = Ok b ->
  convert_object py_float c imgshape txtresult obj = Ok (txtresult ++ [(obj_id, b)]).
Proof.
  intros Hn Hl Hb H1 H2 H3 H4 Hc. unfold convert_object.
  rewrite Hn. cbn [text_of mbind result_bind]. rewrite Hl. cbn [mbind result_bind].
  rewrite Hb, H1. cbn [mbind result_bind]. rewrite H2. cbn [mbind result_bind].
  rewrite H3. cbn [mbind result_bind]. rewrite H4. cbn [mbind result_bind].
  rewrite Hc. reflexivity.
Qed.

(** Claim C3, as amended. An [object] whose name the lookup passes over
    (not a key of the class map when a class map and a class list are both
    given, not in the class list when only a class list is given) is
    skipped without an exception and adds no line; the file converts
    exactly as it would without that object, so its siblings are converted
    and written as if it were absent. *)
Theorem unresolved_object_skipped (c : converter) (t : string) (x : option string)
    (pre post : list element) (obj : element) :
  tag obj = "object" ->
  unresolved_object c obj = true ->
  (forall imgshape txtresult,
      convert_object py_float c imgshape txtresult obj = Ok txtresult) /\
  convert_file py_float c (Document (Element t x (pre ++ obj :: post))) =
  convert_file py_float c (Document (Element t x (pre ++ post))).
Proof.
  intros Htag Hun. split.
  - intros imgshape txtresult. apply convert_object_unresolved, Hun.
  - assert (Hsize : find "size" (Element t x (pre ++ obj :: post)) =
                    find "size" (Element t x (pre ++ post))).
    { unfold find. simpl. induction pre as [|p pre IH]; simpl.
      - unfold has_tag at 1. rewrite Htag. reflexivity.
      - destruct (has_tag "size" p); [reflexivity | exact IH]. }
    assert (Hobjs : findall "object" (Element t x (pre ++ obj :: post)) =
                    List.filter (has_tag "object") pre ++ obj ::
                    List.filter (has_tag "object") post).
    { unfold findall. simpl. rewrite List.filter_app. simpl.
      unfold has_tag at 2. rewrite Htag. reflexivity. }
    assert (Hobjs' : findall "object" (Element t x (pre ++ post)) =
                     List.filter (has_tag "object") pre ++
                     List.filter (has_tag "object") post).
    { unfold findall. simpl. apply List.filter_app. }
    unfold convert_file. cbn [parse mbind result_bind].
    rewrite Hsize, Hobjs, Hobjs'.
    destruct (find_in "width" (find "size" (Element t x (pre ++ post)))) as [w|]; [|reflexivity].
    cbn [mbind result_bind].
    destruct (text_of w) as [tw|]; [|reflexivity]. cbn [mbind result_bind].
    destruct (int_of_text tw) as [width|]; [|reflexivity]. cbn [mbind result_bind].
    destruct (find_in "height" (find "size" (Element t x (pre ++ post)))) as [h|]; [|reflexivity].
    cbn [mbind result_bind].
    destruct (text_of h) as [th|]; [|reflexivity]. cbn [mbind result_bind].
    destruct (int_of_text th) as [height|]; [|reflexivity]. cbn [mbind result_bind].
    apply convert_objects_skip, Hun.
Qed.
End xml_to_txt_properties.

Import Examples.

Lemma convert_stops_at_first_failure_witness :
  let c := list_converter ["a"] in
  let pre := [("xml/1.xml", annotation ["a"])] in
  let post := [("xml/3.xml", annotation ["a"])] in
  Forall (fun pf => is_ok (convert_file decimal_float c (snd pf)) = true) pre /\
  convert_file decimal_float c Unparsable = Raise ParseError /\
  _convert_xml_to_txt decimal_float c (pre ++ ("xml/2.xml", Unparsable) :: post) ∅ =
    (fst (_convert_xml_to_txt decimal_float c pre ∅), Raise ParseError) /\
  snd (_convert_xml_to_txt decimal_float c pre ∅) = Ok () /\
  (forall pf, pf ∈ pre ->
     is_Some (fst (_convert_xml_to_txt decimal_float c pre ∅) !! txt_file_path c (fst pf))).
Proof.
  intros c pre post.
  assert (Hpre : Forall (fun pf => is_ok (convert_file decimal_float c (snd pf)) = true) pre).
  { repeat constructor. }
  assert (Hbad : convert_file decimal_float c Unparsable = Raise ParseError).
  { reflexivity. }
  split; [exact Hpre|]. split; [exact Hbad|].
  exact (convert_stops_at_first_failure decimal_float c pre post "xml/2.xml"
           Unparsable ParseError ∅ Hpre Hbad).
Defined.

(** Claim C2 as stated fails. With an unparsable file, or a file without
    its [size] element, in front of a good file, the run ends with the
    exception of the bad file, and the text file of the good file, which
    converts on its own, is never written. *)
Lemma convert_aborts_on_bad_file :
  let c := list_converter ["a"] in
  let good := annotation ["a"] in
  is_ok (convert_file decimal_float c good) = true /\
  _convert_xml_to_txt decimal_float c
    [("xml/1.xml", Unparsable); ("xml/2.xml", good)] ∅ = (∅, Raise ParseError) /\
  _convert_xml_to_txt decimal_float c
    [("xml/1.xml", annotation_without_size ["a"]); ("xml/2.xml", good)] ∅ =
    (∅, Raise AttributeError).
Proof. repeat split. Qed.

Lemma unresolved_object_skipped_witness :
  let c := list_converter ["a"; "b"] in
  let pre := [size_8x8; object_named "a"] in
  let post := [object_named "b"] in
  let obj := object_named "zzz" in
  tag obj = "object" /\
  unresolved_object c obj = true /\
  (forall imgshape txtresult,
      convert_object decimal_float c imgshape txtresult obj = Ok txtresult) /\
  convert_file decimal_float c (Document (Element "annotation" None (pre ++ obj :: post))) =
  convert_file decimal_float c (Document (Element "annotation" None (pre ++ post))).
Proof.
  intros c pre post obj.
  split; [reflexivity|]. split; [reflexivity|].
  apply (unresolved_object_skipped decimal_float c "annotation" None pre post obj);
    reflexivity.
Defined.

(** The siblings of the skipped object of the witness are written. *)
Example siblings_written :
  exists b,
    convert_file decimal_float (list_converter ["a"; "b"]) (annotation ["a"; "zzz"; "b"]) =
      Ok [(0%nat, b); (1%nat, b)].
Proof. eexists. vm_compute. reflexivity. Qed.

(** Claim C3 as stated fails. With the class list [a] and the class map
    [a -> a, x -> b], the name [x] has no class id: the class it maps to is
    not in the class list. The object named [x] is not skipped: the lookup
    raises [ValueError], the file is not converted and its sibling named [a],
    whose name resolves to id 0, is not written. *)
Lemma unresolvable_name_raises :
  let c := map_converter ["a"] {[ "a" := "a"; "x" := "b" ]} in
  lookup_class c (Some "x") = Raise ValueError /\
  lookup_class c (Some "a") = Ok (Bound 0) /\
  convert_file decimal_float c (annotation ["x"; "a"]) = Raise ValueError /\
  is_ok (convert_file decimal_float c (annotation ["a"])) = true.
Proof. repeat split. Qed.

(** ** Class list of the frequency scan *)

Lemma element_induction (P : element -> Prop) :
  (forall t x cs, Forall P cs -> P (Element t x cs)) -> forall e, P e.
Proof.
  intros Hstep. fix IH 1. intros [t x cs]. apply Hstep.
  induction cs as [|c cs IHcs]; constructor; [apply IH | exact IHcs].
Qed.

Section odict_facts.
Context {K : Type} `{EqDecision K} {V : Type}.
Implicit Types (d : odict K V) (k : K) (v : V).

Lemma odict_get_set d k v k' :
  odict_get (odict_set d k v) k' = if decide (k = k') then Some v else odict_get d k'.
Proof.
  induction d as [|[k0 v0] d IH]; simpl.
  - destruct (decide (k = k')); reflexivity.
  - destruct (decide (k0 = k)) as [->|Hne]; simpl.
    + destruct (decide (k = k')); reflexivity.
    + destruct (decide (k0 = k')) as [->|Hne'].
      * destruct (decide (k = k')); [congruence | reflexivity].
      * exact IH.
Qed.

Lemma odict_keys_set d k v :
  odict_keys (odict_set d k v) =
    if decide (k ∈ odict_keys d) then odict_keys d else odict_keys d ++ [k].
Proof.
  unfold odict_keys. induction d as [|[k0 v0] d IH]; simpl.
  - destruct (decide (k ∈ [])) as [Hin|_]; [inversion Hin | reflexivity].
  - destruct (decide (k0 = k)) as [->|Hne]; simpl.
    + rewrite decide_True by left. reflexivity.
    + rewrite IH. destruct (decide (k ∈ map fst d)) as [Hin|Hout].
      * rewrite decide_True by (right; exact Hin). reflexivity.
      * rewrite decide_False; [reflexivity|].
        rewrite elem_of_cons. intros [->|Hin]; [congruence | contradiction].
Qed.
End odict_facts.

Section first_index_facts.
Context {A : Type} `{EqDecision A}.
Implicit Types (x : A) (l : list A).

Lemma first_index_lt x l : (first_index x l < length l)%nat <-> x ∈ l.
Proof.
  induction l as [|y l IH]; simpl.
  - split; [lia | intros Hin; inversion Hin].
  - rewrite elem_of_cons. destruct (decide (y = x)) as [->|Hne].
    + split; [auto | lia].
    + rewrite <- IH. split; [intros; right; lia | intros [->|]; [congruence | lia]].
Qed.

Lemma first_index_app_l x l l' : x ∈ l -> first_index x (l ++ l') = first_index x l.
Proof.
  induction l as [|y l IH]; intros Hin; [inversion Hin|]. simpl.
  destruct (decide (y = x)); [reflexivity|].
  apply elem_of_cons in Hin as [->|Hin]; [congruence|]. rewrite IH by exact Hin. reflexivity.
Qed.

Lemma first_index_app_r x l l' :
  x ∉ l -> first_index x (l ++ l') = (length l + first_index x l')%nat.
Proof.
  induction l as [|y l IH]; intros Hout; [reflexivity|]. simpl.
  apply not_elem_of_cons in Hout as [Hne Hout].
  rewrite decide_False by congruence. rewrite IH by exact Hout. reflexivity.
Qed.

Lemma occurrences_app x l l' :
  occurrences x (l ++ l') = (occurrences x l + occurrences x l')%nat.
Proof.
  induction l as [|y l IH]; [reflexivity|]. simpl.
  destruct (decide (y = x)); rewrite IH; reflexivity.
Qed.
End first_index_facts.

Lemma first_index_Some (x : string) (l : list string) :
  first_index (Some x) (Some <$> l) = first_index x l.
Proof.
  induction l as [|y l IH]; [reflexivity|]. rewrite fmap_cons. cbn [first_index].
  destruct (decide (y = x)) as [->|Hne].
  - rewrite decide_True by reflexivity. reflexivity.
  - rewrite decide_False by congruence. rewrite IH. reflexivity.
Qed.

Lemma occurrences_Some (x : string) (l : list string) :
  occurrences (Some x) (Some <$> l) = occurrences x l.
Proof.
  induction l as [|y l IH]; [reflexivity|]. rewrite fmap_cons. cbn [occurrences].
  destruct (decide (y = x)) as [->|Hne].
  - rewrite decide_True by reflexivity. rewrite IH. reflexivity.
  - rewrite decide_False by congruence. exact IH.
Qed.

Lemma count_object_seen (e : element) (nc nc' : odict string nat) :
  count_object e nc = Ok nc' ->
  exists names,
    (if String.eqb (tag e) "object" then
       match find "name" e with
       | Some name_element => [strip <$> text name_element]
       | None => []
       end
     else []) = Some <$> names /\
    nc' = foldl count_name nc names.
Proof.
  unfold count_object. destruct (String.eqb (tag e) "object").
  - destruct (find "name" e) as [ne|].
    + destruct (text ne) as [t|]; [|discriminate].
      intros [= <-]. exists [strip t]. split; reflexivity.
    + intros [= <-]. exists []. split; reflexivity.
  - intros [= <-]. exists []. split; reflexivity.
Qed.

Lemma count_names_seen (e : element) :
  forall nc nc', _count_names e nc = Ok nc' ->
    exists names, seen_names e = Some <$> names /\ nc' = foldl count_name nc names.
Proof.
  induction e as [t x cs IH] using element_induction. intros nc nc'.
  cbn [_count_names seen_names children].
  destruct (count_object (Element t x cs) nc) as [nc1|] eqn:Hhead; [|discriminate].
  cbn [mbind result_bind].
  destruct (count_object_seen _ _ _ Hhead) as (names0 & -> & ->).
  clear Hhead. intros Hrun.
  enough (exists names,
    (fix over_children (cs0 : list element) : list (option string) :=
       match cs0 with
       | [] => []
       | c :: cs' => seen_names c ++ over_children cs'
       end) cs = Some <$> names /\
    nc' = foldl count_name (foldl count_name nc names0) names) as (names & -> & ->).
  { exists (names0 ++ names). rewrite fmap_app, foldl_app. split; reflexivity. }
  revert Hrun. generalize (foldl count_name nc names0). clear nc. intros nc Hrun.
  revert nc Hrun. induction IH as [|c cs Hc _ IHcs]; intros nc Hrun.
  - injection Hrun as <-. exists []. split; reflexivity.
  - destruct (_count_names c nc) as [nc1|] eqn:Hc1; [|discriminate].
    cbn [mbind result_bind] in Hrun.
    destruct (Hc _ _ Hc1) as (n1 & -> & ->).
    destruct (IHcs _ Hrun) as (n2 & -> & ->).
    exists (n1 ++ n2). rewrite fmap_app, foldl_app. split; reflexivity.
Qed.

Lemma summarize_labels_seen (files : list xml_file) :
  forall labels nc labels' nc',
    summarize_labels files labels nc = Ok (labels', nc') ->
    exists names,
      seen_in_files files = Some <$> names /\ nc' = foldl count_name nc names.
Proof.
  induction files as [|f files IH]; intros labels nc labels' nc' Hrun.
  - injection Hrun as <- <-. exists []. split; reflexivity.
  - cbn [summarize_labels] in Hrun.
    destruct (parse_xml_file f nc) as [[ls nc1]|] eqn:Hf; [|discriminate].
    cbn [mbind result_bind] in Hrun.
    destruct (IH _ _ _ _ Hrun) as (n2 & Hseen2 & ->).
    unfold parse_xml_file in Hf. destruct f as [|root]; [discriminate|].
    cbn [parse mbind result_bind] in Hf.
    destruct (foldl _ _ _) as [ls0|]; [|discriminate]. cbn [mbind result_bind] in Hf.
    destruct (_count_names root nc) as [nc2|] eqn:Hroot; [|discriminate].
    injection Hf as <- <-.
    destruct (count_names_seen _ _ _ Hroot) as (n1 & Hseen1 & ->).
    exists (n1 ++ n2). unfold seen_in_files in *. cbn [flat_map].
    rewrite Hseen1, Hseen2, fmap_app, foldl_app. split; reflexivity.
Qed.

(** After counting [names] from the empty dictionary, the keys are the names
    in the order of their first occurrence and each count is the number of
    occurrences. *)
Lemma count_name_get (nc : odict string nat) (n a : string) :
  count_of (count_name nc n) a =
    if decide (n = a) then S (count_of nc a) else count_of nc a.
Proof.
  unfold count_of, count_name. rewrite odict_get_set.
  destruct (decide (n = a)) as [->|]; [simpl; lia | reflexivity].
Qed.

Lemma count_name_keys (nc : odict string nat) (n : string) :
  odict_keys (count_name nc n) =
    if decide (n ∈ odict_keys nc) then odict_keys nc else odict_keys nc ++ [n].
Proof. apply odict_keys_set. Qed.

Lemma count_of_foldl (names : list string) (a : string) :
  count_of (foldl count_name [] names) a = occurrences a names.
Proof.
  induction names as [|n names IH] using rev_ind; [reflexivity|].
  rewrite foldl_app, occurrences_app. cbn [foldl occurrences].
  rewrite count_name_get, IH. destruct (decide (n = a)); lia.
Qed.

Lemma keys_foldl (names : list string) :
  let keys := odict_keys (foldl count_name [] names) in
  NoDup keys /\
  (forall a, a ∈ keys <-> a ∈ names) /\
  (forall a b, a ∈ names -> b ∈ names ->
     (first_index a keys < first_index b keys)%nat <->
     (first_index a names < first_index b names)%nat).
Proof.
  induction names as [|n names IH] using rev_ind.
  - cbn. split; [constructor|]. split; [done|]. intros a b Ha. inversion Ha.
  - cbv zeta in *. destruct IH as (Hnd & Hdom & Hord).
    rewrite foldl_app. cbn [foldl]. rewrite !count_name_keys.
    set (keys := odict_keys (foldl count_name [] names)) in *.
    destruct (decide (n ∈ keys)) as [Hin|Hout].
    + assert (Hn : n ∈ names) by (apply Hdom, Hin).
      split; [exact Hnd|]. split.
      * intros a. rewrite Hdom, elem_of_app, list_elem_of_singleton.
        split; [auto | intros [?| ->]; assumption].
      * intros a b Ha Hb.
        assert (Ha' : a ∈ names).
        { apply elem_of_app in Ha as [?|Ha]; [done|].
          apply list_elem_of_singleton in Ha as ->. exact Hn. }
        assert (Hb' : b ∈ names).
        { apply elem_of_app in Hb as [?|Hb]; [done|].
          apply list_elem_of_singleton in Hb as ->. exact Hn. }
        rewrite !first_index_app_l by assumption. apply Hord; assumption.
    + assert (Hn : n ∉ names) by (rewrite <- Hdom; exact Hout).
      split.
      { apply NoDup_app. split; [exact Hnd|]. split.
        - intros y Hy Hy'. apply list_elem_of_singleton in Hy' as ->. contradiction.
        - apply NoDup_singleton. }
      split.
      { intros a. rewrite !elem_of_app, Hdom. reflexivity. }
      intros a b Ha Hb.
      assert (Hcase : forall c, c ∈ names ++ [n] ->
                (c ∈ names /\ c ∈ keys /\
                 first_index c (keys ++ [n]) = first_index c keys /\
                 first_index c (names ++ [n]) = first_index c names /\
                 (first_index c keys < length keys)%nat /\
                 (first_index c names < length names)%nat) \/
                (c = n /\ first_index c (keys ++ [n]) = length keys /\
                 first_index c (names ++ [n]) = length names)).
      { intros c Hc. apply elem_of_app in Hc as [Hc|Hc].
        - left. assert (Hck : c ∈ keys) by (apply Hdom, Hc).
          rewrite !first_index_app_l by assumption.
          repeat split; try assumption; apply first_index_lt; assumption.
        - right. apply list_elem_of_singleton in Hc as ->.
          rewrite !first_index_app_r by assumption. cbn [first_index].
          rewrite !decide_True by reflexivity. repeat split; lia. }
      destruct (Hcase a Ha) as [(Ha1 & Ha2 & -> & -> & Ha3 & Ha4)|(-> & -> & ->)];
        destruct (Hcase b Hb) as [(Hb1 & Hb2 & -> & -> & Hb3 & Hb4)|(-> & -> & ->)].
      * apply Hord; assumption.
      * lia.
      * lia.
      * lia.
Qed.

Section sorted_reverse_facts.
Context {A : Type} `{EqDecision A} (key : A -> nat).
Implicit Types (x : A) (l : list A).

Lemma insert_desc_perm x l : insert_desc key x l ≡ₚ x :: l.
Proof.
  induction l as [|y l IH]; simpl; [reflexivity|].
  destruct (key x <? key y)%nat; [|reflexivity].
  rewrite IH. apply Permutation_swap.
Qed.

Lemma sorted_reverse_perm l : sorted_reverse key l ≡ₚ l.
Proof.
  induction l as [|x l IH]; simpl; [reflexivity|].
  rewrite insert_desc_perm, IH. reflexivity.
Qed.

(** Inserting [x] keeps a list sorted for a relation [R] that puts larger
    keys first, as soon as [x] comes first among the elements whose key is
    not larger. *)
Lemma insert_desc_sorted (R : A -> A -> Prop) x l :
  (forall a b, R a b -> (key b <= key a)%nat) ->
  (forall y, y ∈ l -> (key x < key y)%nat -> R y x) ->
  (forall y, y ∈ l -> (key y <= key x)%nat -> R x y) ->
  StronglySorted R l -> StronglySorted R (insert_desc key x l).
Proof.
  intros Hkey Hbig Hsmall Hsorted.
  induction Hsorted as [|y l Hl IH Hy]; simpl.
  - repeat constructor.
  - destruct (Nat.ltb_spec (key x) (key y)) as [Hlt|Hge].
    + constructor.
      * apply IH; intros z Hz; [apply Hbig | apply Hsmall]; right; exact Hz.
      * rewrite Forall_forall. intros z Hz.
        rewrite insert_desc_perm in Hz.
        apply elem_of_cons in Hz as [->|Hz].
        -- apply Hbig; [left | exact Hlt].
        -- rewrite Forall_forall in Hy. apply Hy, Hz.
    + constructor; [constructor; assumption|].
      rewrite Forall_forall. intros z Hz. apply Hsmall; [exact Hz|].
      apply elem_of_cons in Hz as [->|Hz]; [exact Hge|].
      rewrite Forall_forall in Hy. specialize (Hkey _ _ (Hy z Hz)). lia.
Qed.

Lemma ranks_before_cons x l a b :
  a <> x -> b <> x -> ranks_before key l a b -> ranks_before key (x :: l) a b.
Proof.
  intros Ha Hb [Hlt|[Heq Hidx]]; [left; exact Hlt|].
  right. split; [exact Heq|]. cbn [first_index].
  rewrite !decide_False by congruence. lia.
Qed.

Lemma sorted_reverse_sorted l :
  NoDup l -> StronglySorted (ranks_before key l) (sorted_reverse key l).
Proof.
  induction 1 as [|x l Hx Hnd IH]; simpl; [constructor|].
  assert (Hin : forall y, y ∈ sorted_reverse key l -> y ∈ l).
  { intros y. rewrite sorted_reverse_perm. auto. }
  apply insert_desc_sorted.
  - intros a b [Hlt|[Heq _]]; lia.
  - intros y _ Hlt. left. exact Hlt.
  - intros y Hy Hle. apply Hin in Hy.
    destruct (decide (key y = key x)) as [Heq|Hne]; [|left; lia].
    right. split; [congruence|]. cbn [first_index].
    rewrite decide_True by reflexivity.
    rewrite decide_False by (intros ->; contradiction). lia.
  - assert (Hall : Forall (fun y => y ∈ l) (sorted_reverse key l)).
    { rewrite Forall_forall. intros y Hy. apply Hin, Hy. }
    revert Hall. generalize (sorted_reverse key l) IH. clear - Hx.
    induction 1 as [|a s Hs IHs Ha]; intros Hall; constructor.
    + apply IHs. inversion Hall; assumption.
    + inversion Hall as [|? ? Hal Hsl]; subst.
      rewrite Forall_forall in *. intros b Hb.
      apply ranks_before_cons.
      * intros ->. contradiction.
      * intros ->. apply Hx, Hsl, Hb.
      * apply Ha, Hb.
Qed.

Lemma StronglySorted_lookup (R : A -> A -> Prop) l (i j : nat) a b :
  StronglySorted R l -> (i < j)%nat -> l !! i = Some a -> l !! j = Some b -> R a b.
Proof.
  intros Hs. revert i j. induction Hs as [|x l Hl IH Hx]; intros i j Hij Hi Hj.
  - discriminate.
  - destruct j as [|j]; [lia|]. destruct i as [|i]; simpl in *.
    + injection Hi as <-. rewrite Forall_forall in Hx.
      apply Hx, list_elem_of_lookup. eauto.
    + apply (IH i j); [lia | assumption | assumption].
Qed.
End sorted_reverse_facts.

(** Claim C6. After a scan of a folder that succeeds, the class list holds
    every name seen exactly once, and of two names of the list the earlier
    one has strictly more occurrences, or as many and was seen first. *)
Theorem class_list_order (files : list xml_file) (classes : list string) :
  scan_class_list files = Ok classes ->
  let seen := seen_in_files files in
  NoDup classes /\
  (forall name, name ∈ classes <-> Some name ∈ seen) /\
  (forall (i j : nat) (a b : string),
     (i < j)%nat -> classes !! i = Some a -> classes !! j = Some b ->
     (occurrences (Some b) seen < occurrences (Some a) seen)%nat \/
     (occurrences (Some a) seen = occurrences (Some b) seen /\
      (first_index (Some a) seen < first_index (Some b) seen)%nat)).
Proof.
  unfold scan_class_list. intros Hscan.
  destruct (summarize_labels files ∅ []) as [[labels nc]|] eqn:Hsum; [|discriminate].
  injection Hscan as <-.
  destruct (summarize_labels_seen _ _ _ _ _ Hsum) as (names & Hseen & ->).
  cbv zeta. rewrite Hseen. clear Hsum Hseen.
  destruct (keys_foldl names) as (Hnd & Hdom & Hord). cbv zeta in *.
  unfold get_class_list.
  set (nc := foldl count_name [] names) in *.
  pose proof (sorted_reverse_perm (count_of nc) (odict_keys nc)) as Hperm.
  split; [rewrite Hperm; exact Hnd|]. split.
  - intros name. rewrite Hperm, Hdom. rewrite list_elem_of_fmap.
    split; [eauto | intros (y & [= ->] & Hy); exact Hy].
  - intros i j a b Hij Hi Hj.
    pose proof (StronglySorted_lookup _ _ _ _ _ _
                  (sorted_reverse_sorted (count_of nc) _ Hnd) Hij Hi Hj) as Hrank.
    assert (Ha : a ∈ names).
    { apply Hdom. rewrite <- Hperm. apply list_elem_of_lookup. eauto. }
    assert (Hb : b ∈ names).
    { apply Hdom. rewrite <- Hperm. apply list_elem_of_lookup. eauto. }
    rewrite !occurrences_Some, !first_index_Some.
    unfold nc in Hrank. destruct Hrank as [Hlt|[Heq Hidx]];
      rewrite !count_of_foldl in *; [left; exact Hlt|].
    right. split; [exact Heq|]. apply Hord; assumption.
Qed.

(** A folder engineered to have a tie: [a] and [c] occur twice, [b] once,
    and [a] is seen before [c]. *)
Lemma class_list_order_witness :
  let files := [annotation ["b"; "a"; "c"]; annotation ["a"; "c"]] in
  let classes := ["a"; "c"; "b"] in
  let seen := seen_in_files files in
  scan_class_list files = Ok classes /\
  NoDup classes /\
  (forall name, name ∈ classes <-> Some name ∈ seen) /\
  (forall (i j : nat) (a b : string),
     (i < j)%nat -> classes !! i = Some a -> classes !! j = Some b ->
     (occurrences (Some b) seen < occurrences (Some a) seen)%nat \/
     (occurrences (Some a) seen = occurrences (Some b) seen /\
      (first_index (Some a) seen < first_index (Some b) seen)%nat)).
Proof.
  intros files classes seen.
  assert (Hscan : scan_class_list files = Ok classes) by reflexivity.
  split; [exact Hscan|].
  exact (class_list_order files classes Hscan).
Defined.

(** ** Text helpers *)

Lemma digit_not_space (c : ascii) : py_isdigit c = true -> py_isspace c = false.
Proof.
  unfold py_isdigit, py_isspace. generalize (code c). intros n Hd.
  apply andb_true_iff in Hd as [H1 H2].
  apply Nat.leb_le in H1. apply Nat.leb_le in H2.
  repeat match goal with
         | |- context [(?a <=? n)%nat] => destruct (Nat.leb_spec a n); try lia
         | |- context [(n <=? ?a)%nat] => destruct (Nat.leb_spec n a); try lia
         | |- context [(n =? ?a)%nat] => destruct (Nat.eqb_spec n a); try lia
         end; reflexivity.
Qed.

Lemma span_spec (p : ascii -> bool) (l : list ascii) :
  Forall (fun c => p c = true) (fst (span p l)) /\ l = fst (span p l) ++ snd (span p l).
Proof.
  induction l as [|c l [IH1 IH2]]; simpl; [split; [constructor | reflexivity]|].
  destruct (p c) eqn:Hc; [|split; [constructor | reflexivity]].
  destruct (span p l) as [a b]. simpl in *. split; [constructor; assumption | congruence].
Qed.

Lemma span1_spec (p : ascii -> bool) (l a b : list ascii) :
  span1 p l = Some (a, b) -> a <> [] /\ Forall (fun c => p c = true) a.
Proof.
  unfold span1. pose proof (span_spec p l) as [Hall _].
  destruct (span p l) as [[|c a'] b']; [discriminate|].
  intros [= <- <-]. split; [discriminate | exact Hall].
Qed.

Lemma lstrip_no_space (l : list ascii) :
  match l with c :: _ => py_isspace c = false | [] => True end -> lstrip l = l.
Proof. destruct l as [|c l]; [reflexivity|]. simpl. intros ->. reflexivity. Qed.

Lemma strip_chars_digits (l : list ascii) :
  Forall (fun c => py_isdigit c = true) l -> strip_chars l = l.
Proof.
  intros Hall. unfold strip_chars, rstrip.
  assert (Hl : lstrip l = l).
  { apply lstrip_no_space. destruct Hall; [exact I | apply digit_not_space; assumption]. }
  rewrite Hl.
  assert (Hr : lstrip (rev l) = rev l).
  { apply lstrip_no_space. apply Forall_rev in Hall.
    destruct Hall; [exact I | apply digit_not_space; assumption]. }
  rewrite Hr. apply rev_involutive.
Qed.

Lemma digit_value_digit (c : ascii) :
  py_isdigit c = true -> exists d, digit_value c = Some d /\ 0 <= d.
Proof.
  intros Hd. unfold digit_value. rewrite Hd. eexists. split; [reflexivity|].
  unfold py_isdigit in Hd. apply andb_true_iff in Hd as [H1 _].
  apply Nat.leb_le in H1. lia.
Qed.

Lemma digit_not_char (c x : ascii) :
  py_isdigit x = false -> py_isdigit c = true -> Ascii.eqb c x = false.
Proof.
  intros Hx Hc. destruct (Ascii.eqb_spec c x) as [->|]; [congruence | reflexivity].
Qed.

Lemma int_digits_digits (l : list ascii) :
  Forall (fun c => py_isdigit c = true) l ->
  forall after_digit acc, 0 <= acc -> (l <> [] \/ after_digit = true) ->
    exists z, int_digits after_digit acc l = Some z /\ 0 <= z.
Proof.
  induction 1 as [|c l Hc Hl IH]; intros after_digit acc Hacc Hne; simpl.
  - destruct Hne as [Hne| ->]; [congruence | eauto].
  - rewrite (digit_not_char c "_") by (reflexivity || exact Hc).
    destruct (digit_value_digit c Hc) as (d & -> & Hd).
    apply IH; [lia | right; reflexivity].
Qed.

(** [int] of a non-empty string of digits is a natural number. *)
Lemma py_int_digits (g : list ascii) :
  g <> [] -> Forall (fun c => py_isdigit c = true) g ->
  exists z, py_int (string_of_list_ascii g) = Ok z /\ 0 <= z.
Proof.
  intros Hne Hall. unfold py_int, int_chars.
  rewrite list_ascii_of_string_of_list_ascii, strip_chars_digits by exact Hall.
  destruct g as [|c g]; [congruence|].
  assert (Hc : py_isdigit c = true) by (inversion Hall; assumption).
  rewrite (digit_not_char c "-"), (digit_not_char c "+") by (reflexivity || exact Hc).
  destruct (int_digits_digits (c :: g) Hall false 0) as (z & -> & Hz);
    [lia | left; discriminate | eauto].
Qed.

(** ** Dataset validator *)

Lemma check_line_no_negative (max_class_id : option Z) (label_file : string)
    (line_num : nat) (line : string) (ps : list annotation_problem) :
  check_line max_class_id label_file line_num line = Ok ps ->
  Forall (fun p => is_negative_class_id p = false) ps.
Proof.
  unfold check_line. destruct (strip line) as [|c0 s0] eqn:Hstrip.
  { intros [= <-]. constructor. }
  destruct (yolo_line_pattern _) as [[[[[g1 g2] g3] g4] g5]|] eqn:Hm.
  2:{ intros [= <-]. repeat constructor. }
  assert (Hg1 : g1 <> [] /\ Forall (fun c => py_isdigit c = true) g1).
  { unfold yolo_line_pattern in Hm. destruct (span py_isspace _) as [ws r0].
    destruct (span1 py_isdigit r0) as [[g r1]|] eqn:H1; [|discriminate].
    apply span1_spec in H1. cbn [mbind option_bind] in Hm.
    repeat match type of Hm with
           | context [span1 ?p ?r] => destruct (span1 p r) as [[? ?]|]; [|discriminate];
                                      cbn [mbind option_bind] in Hm
           end.
    destruct (span py_isspace _) as [? [|? ?]]; [|discriminate].
    injection Hm as <- _ _ _ _. exact H1. }
  destruct Hg1 as [Hne Hall].
  destruct (py_int_digits g1 Hne Hall) as (class_id & -> & Hpos).
  cbn [mbind result_bind].
  destruct (float_of_digits_dots g2) as [cx|]; [|discriminate]; cbn [mbind result_bind].
  destruct (float_of_digits_dots g3) as [cy|]; [|discriminate]; cbn [mbind result_bind].
  destruct (float_of_digits_dots g4) as [w|]; [|discriminate]; cbn [mbind result_bind].
  destruct (float_of_digits_dots g5) as [h|]; [|discriminate]; cbn [mbind result_bind].
  intros [= <-]. apply Forall_app. split.
  - destruct (negb _); repeat constructor.
  - assert (Hlt : (class_id <? 0) = false) by (apply Z.ltb_ge; exact Hpos).
    rewrite Hlt. destruct max_class_id as [m|]; [|constructor].
    destruct (m <? class_id); repeat constructor.
Qed.

Lemma check_lines_no_negative (max_class_id : option Z) (label_file : string)
    (lines : list string) :
  forall line_num invalid,
    Forall (fun p => is_negative_class_id p = false) invalid ->
    Forall (fun p => is_negative_class_id p = false)
           (check_lines max_class_id label_file line_num lines invalid).
Proof.
  induction lines as [|line lines IH]; intros line_num invalid Hinv; simpl; [exact Hinv|].
  destruct (check_line max_class_id label_file line_num line) as [ps|e] eqn:Hline.
  - apply IH, Forall_app. split; [exact Hinv|]. eapply check_line_no_negative, Hline.
  - apply Forall_app. split; [exact Hinv | repeat constructor].
Qed.

Lemma check_label_file_no_negative (max_class_id : option Z) (label_file : string)
    (content : result (list string)) (invalid : list annotation_problem) :
  Forall (fun p => is_negative_class_id p = false) invalid ->
  Forall (fun p => is_negative_class_id p = false)
         (check_label_file max_class_id label_file content invalid).
Proof.
  intros Hinv. unfold check_label_file. destruct content as [lines|e].
  - destruct (negb _).
    + apply Forall_app. split; [exact Hinv | repeat constructor].
    + apply check_lines_no_negative, Hinv.
  - apply Forall_app. split; [exact Hinv | repeat constructor].
Qed.

(** Claim C4 fails on the code. The line ["-1 0.5 0.5 0.5 0.5"] does not
    match the pattern, whose class id is [\d+], and is reported as a
    malformed line; no run of the validator, on any directory, reports a
    negative class id: the branch that would is unreachable. *)
Theorem negative_class_id_never_flagged :
  (forall max_class_id,
     check_label_file max_class_id "a.txt" (Ok ["-1 0.5 0.5 0.5 0.5"]) [] =
       [MalformedLine "a.txt" 1 "-1 0.5 0.5 0.5 0.5"]) /\
  (forall fs broken_images images_dir labels_dir max_class_id report_path,
     match validate_yolo_dataset fs broken_images images_dir labels_dir
             max_class_id report_path with
     | Ok (Validated _ _ _ _ invalid_annotations, _) =>
         Forall (fun p => is_negative_class_id p = false) invalid_annotations
     | _ => True
     end).
Proof.
  split; [intros max_class_id; reflexivity|].
  intros fs broken_images images_dir labels_dir max_class_id report_path.
  unfold validate_yolo_dataset.
  destruct (negb (path_exists fs images_dir)); [exact I|].
  destruct (negb (path_exists fs labels_dir)); [exact I|].
  destruct (listdir fs images_dir) as [images|]; [|exact I].
  destruct (listdir fs labels_dir) as [labels|]; [|exact I].
  cbn [mbind result_bind].
  generalize (List.filter (fun f => endswith f ".txt") labels). intros label_files.
  assert (Hinit : Forall (fun p => is_negative_class_id p = false) []) by constructor.
  revert Hinit. generalize (@nil annotation_problem).
  induction label_files as [|f label_files IH]; intros invalid Hinv; simpl; [exact Hinv|].
  apply IH, check_label_file_no_negative, Hinv.
Qed.

(** ** Distribution analyzer *)

Lemma split_run_spaces (ws : list ascii) :
  Forall (fun c => py_isspace c = true) ws ->
  forall cur, split_run cur ws = split_run cur [].
Proof.
  induction 1 as [|c ws Hc _ IH]; intros cur; [reflexivity|]. simpl. rewrite Hc.
  destruct cur; rewrite IH; reflexivity.
Qed.

Lemma split_run_app_spaces (l ws : list ascii) :
  Forall (fun c => py_isspace c = true) ws ->
  forall cur, split_run cur (l ++ ws) = split_run cur l.
Proof.
  intros Hws. induction l as [|c l IH]; intros cur.
  - apply split_run_spaces, Hws.
  - simpl. destruct (py_isspace c); [destruct cur|]; rewrite IH; reflexivity.
Qed.

Lemma lstrip_spec (l : list ascii) :
  exists ws, Forall (fun c => py_isspace c = true) ws /\ l = ws ++ lstrip l.
Proof.
  induction l as [|c l (ws & Hws & IH)]; [exists []; split; [constructor | reflexivity]|].
  simpl. destruct (py_isspace c) eqn:Hc.
  - exists (c :: ws). split; [constructor; assumption | simpl; congruence].
  - exists []. split; [constructor | reflexivity].
Qed.

Lemma split_run_lstrip (l : list ascii) : split_run [] (lstrip l) = split_run [] l.
Proof.
  induction l as [|c l IH]; [reflexivity|]. simpl.
  destruct (py_isspace c) eqn:Hc; [exact IH | simpl; rewrite Hc; reflexivity].
Qed.

Lemma split_run_rstrip (l : list ascii) (cur : list ascii) :
  split_run cur (rstrip l) = split_run cur l.
Proof.
  unfold rstrip. destruct (lstrip_spec (rev l)) as (ws & Hws & Hl).
  assert (Hl' : l = rev (lstrip (rev l)) ++ rev ws).
  { rewrite <- rev_app_distr, <- Hl, rev_involutive. reflexivity. }
  rewrite Hl' at 2. symmetry. apply split_run_app_spaces, Forall_rev, Hws.
Qed.

Lemma split_run_strip (l : list ascii) :
  split_run [] (strip_chars l) = split_run [] l.
Proof. unfold strip_chars. rewrite split_run_rstrip. apply split_run_lstrip. Qed.

(** Stripping a line does not change its tokens. *)
Lemma split_strip (line : string) : split (strip line) = split line.
Proof.
  unfold split, strip. rewrite list_ascii_of_string_of_list_ascii, split_run_strip.
  reflexivity.
Qed.

Lemma line_counted_neq (class_id : Z) (st : line_state) : line_counted class_id st <> st.
Proof.
  destruct st as [[lc fo] total]. unfold line_counted. intros [= _ _ Htotal]. lia.
Qed.

(** The complete behaviour of the loop body on one line, in terms of the
    tokens of the line as read. *)
Lemma count_line_tokens (st : line_state) (line : string) :
  count_line st line =
    if (5 <=? length (split line))%nat then
      match py_int (default EmptyString (head (split line))) with
      | Ok class_id => Ok (line_counted class_id st)
      | Raise e => Raise e
      end
    else Ok st.
Proof.
  unfold count_line. destruct st as [[lc fo] total].
  rewrite <- (split_strip line).
  destruct (strip line) as [|c s] eqn:Hs; [reflexivity|].
  destruct (5 <=? length (split (String c s)))%nat; [|reflexivity].
  destruct (py_int _); reflexivity.
Qed.

(** Claim C10. A line read by the analyzer is counted as one object exactly
    when it has at least five whitespace-separated tokens and its first token
    parses as an integer, which is then the class counted. Nothing but the
    number of tokens and the first token is looked at: the line
    ["3 a b c d"] counts as an object of class 3. A line with fewer tokens
    changes nothing, and a first token that is no integer raises, which ends
    the reading of the file. *)
Theorem count_line_counts_iff (st : line_state) (line : string) :
  let tokens := split line in
  let first := default EmptyString (head tokens) in
  (forall class_id,
     count_line st line = Ok (line_counted class_id st) <->
     (5 <= length tokens)%nat /\ py_int first = Ok class_id) /\
  ((length tokens < 5)%nat -> count_line st line = Ok st) /\
  ((5 <= length tokens)%nat -> py_int first = Raise ValueError ->
   count_line st line = Raise ValueError) /\
  count_line (∅, [], 0%nat) "3 a b c d" = Ok ({[3 := 1%nat]}, [(3, 1%nat)], 1%nat).
Proof.
  intros tokens first. rewrite count_line_tokens. fold tokens. fold first.
  destruct (Nat.leb_spec 5 (length tokens)) as [Hlen|Hlen].
  - split; [|split; [lia | split; [intros _ ->; reflexivity | reflexivity]]].
    intros class_id. destruct (py_int first) as [z|e].
    + split.
      * intros [= Heq]. split; [exact Hlen|]. f_equal.
        destruct st as [[lc fo] total]. unfold line_counted in Heq.
        injection Heq as Hlc _.
        assert (Hz : counter_incr z lc !! z = counter_incr class_id lc !! z) by congruence.
        unfold counter_incr in Hz. rewrite lookup_insert_eq in Hz.
        destruct (decide (class_id = z)) as [->|Hne]; [reflexivity|].
        rewrite lookup_insert_ne in Hz by exact Hne.
        destruct (lc !! z) as [n|]; simpl in Hz; [injection Hz; lia | discriminate].
      * intros [_ [= ->]]. reflexivity.
    + split; [discriminate | intros [_ ?]; discriminate].
  - split; [|split; [reflexivity | split; [lia | reflexivity]]].
    intros class_id. split; [|lia].
    intros [= Heq]. exfalso. exact (line_counted_neq class_id st (eq_sym Heq)).
Qed.

Lemma count_line_locals (lc lc' : gmap Z nat) (fo : odict Z nat) (total : nat)
    (line : string) :
  match count_line (lc, fo, total) line, count_line (lc', fo, total) line with
  | Ok (_, fo1, n1), Ok (_, fo2, n2) => fo1 = fo2 /\ n1 = n2
  | Raise e1, Raise e2 => e1 = e2
  | _, _ => False
  end.
Proof.
  rewrite !count_line_tokens.
  destruct (5 <=? length (split line))%nat; [|split; reflexivity].
  destruct (py_int _); [split; reflexivity | reflexivity].
Qed.

(** The locals at the end of the loop over the lines do not depend on the
    counter of the analyzer the loop starts from. *)
Lemma count_lines_locals (lines : list string) :
  forall lc lc' fo total,
    match snd (count_lines (lc, fo, total) lines),
          snd (count_lines (lc', fo, total) lines) with
    | Ok r1, Ok r2 => r1 = r2
    | Raise e1, Raise e2 => e1 = e2
    | _, _ => False
    end.
Proof.
  induction lines as [|line lines IH]; intros lc lc' fo total; [reflexivity|].
  cbn [count_lines].
  pose proof (count_line_locals lc lc' fo total line) as Hline.
  destruct (count_line (lc, fo, total) line) as [[[lc1 fo1] n1]|e1],
           (count_line (lc', fo, total) line) as [[[lc2 fo2] n2]|e2];
    try contradiction.
  - destruct Hline as [<- <-]. apply IH.
  - simpl. exact Hline.
Qed.

Lemma analyze_file_objects_per_image (a : analyzer) (lines : list string) :
  total_label_files (analyze_file a lines) = total_label_files a /\
  objects_per_image (analyze_file a lines) =
    match objects_in_file lines with
    | Some n => counter_incr n (objects_per_image a)
    | None => objects_per_image a
    end.
Proof.
  unfold analyze_file, objects_in_file.
  pose proof (count_lines_locals lines (labels_counter a) ∅ [] 0%nat) as Hloc.
  unfold line_state, odict in *.
  destruct (count_lines (labels_counter a, [], 0%nat) lines) as [lc [[fo n]|e]],
           (count_lines (∅, [], 0%nat) lines) as [lc' [[fo' n']|e']];
    simpl in *; try contradiction.
  - injection Hloc as <- <-. split; reflexivity.
  - split; reflexivity.
Qed.

Lemma analyze_labels_distribution_fields (a : analyzer) (f : string * list string)
    (txt_files : list (string * list string)) :
  let kept := List.filter (fun f => negb (excluded (fst f))) (f :: txt_files) in
  let a' := fst (analyze_labels_distribution a (f :: txt_files)) in
  total_label_files a' = length kept /\
  objects_per_image a' =
    foldl (fun per_image f =>
             match objects_in_file (snd f) with
             | Some n => counter_incr n per_image
             | None => per_image
             end) (objects_per_image a) kept.
Proof.
  intros kept a'. subst a'. unfold analyze_labels_distribution. fold kept.
  set (a0 := {| labels_counter := labels_counter a; total_objects := total_objects a;
                total_label_files := length kept;
                objects_per_image := objects_per_image a;
                class_objects_per_image := _ |}).
  assert (Hfold : forall (files : list (string * list string)) b,
    total_label_files (foldl (fun a f => analyze_file a (snd f)) b files) =
      total_label_files b /\
    objects_per_image (foldl (fun a f => analyze_file a (snd f)) b files) =
      foldl (fun per_image f =>
               match objects_in_file (snd f) with
               | Some n => counter_incr n per_image
               | None => per_image
               end) (objects_per_image b) files).
  { induction files as [|g files IH]; intros b; simpl; [split; reflexivity|].
    destruct (IH (analyze_file b (snd g))) as [-> ->].
    destruct (analyze_file_objects_per_image b (snd g)) as [-> ->]. split; reflexivity. }
  destruct (Hfold kept a0) as [Hfiles Hper].
  destruct (bool_decide _); simpl; rewrite Hfiles, Hper; split; reflexivity.
Qed.

(** Claim C8. On three label files, none of them a list file, whose object
    counts are 0, 2 and 2 in some order, a fresh analyzer ends with
    [total_label_files = 3] and [objects_per_image = {0: 1, 2: 2}]. *)
Theorem three_files_histogram (f1 f2 f3 : string * list string) (c1 c2 c3 : nat) :
  excluded (fst f1) = false -> excluded (fst f2) = false -> excluded (fst f3) = false ->
  objects_in_file (snd f1) = Some c1 ->
  objects_in_file (snd f2) = Some c2 ->
  objects_in_file (snd f3) = Some c3 ->
  [c1; c2; c3] ≡ₚ [0; 2; 2]%nat ->
  let a := fst (analyze_labels_distribution analyzer_init [f1; f2; f3]) in
  total_label_files a = 3%nat /\
  objects_per_image a = {[0%nat := 1%nat; 2%nat := 2%nat]}.
Proof.
  intros He1 He2 He3 H1 H2 H3 Hperm a.
  destruct (analyze_labels_distribution_fields analyzer_init f1 [f2; f3]) as [Hn Hper].
  fold a in Hn, Hper. cbn [List.filter] in Hn, Hper.
  rewrite He1, He2, He3 in Hn, Hper. cbn [negb foldl] in Hn, Hper.
  rewrite H1, H2, H3 in Hper. split; [exact Hn|]. rewrite Hper. clear - Hperm.
  assert (Hsum : sum_list [c1; c2; c3] = sum_list [0; 2; 2]%nat) by (rewrite Hperm; reflexivity).
  assert (Hin : forall c, c ∈ [c1; c2; c3] -> c = 0%nat \/ c = 2%nat).
  { intros c. rewrite Hperm, !elem_of_cons, elem_of_nil. tauto. }
  destruct (Hin c1 ltac:(left)) as [-> | ->],
           (Hin c2 ltac:(right; left)) as [-> | ->],
           (Hin c3 ltac:(do 2 right; left)) as [-> | ->];
    simpl in Hsum; try lia; reflexivity.
Qed.

Lemma three_files_histogram_witness :
  let f1 := ("labels/a.txt", ["0 0.5 0.5 0.2 0.2"; "1 0.1 0.1 0.1 0.1"]) in
  let f2 := ("labels/b.txt", []) in
  let f3 := ("labels/c.txt", ["2 0.5 0.5 0.2 0.2"; ""; "2 0.3 0.3 0.1 0.1"]) in
  let a := fst (analyze_labels_distribution analyzer_init [f1; f2; f3]) in
  total_label_files a = 3%nat /\
  objects_per_image a = {[0%nat := 1%nat; 2%nat := 2%nat]}.
Proof.
  intros f1 f2 f3.
  apply (three_files_histogram f1 f2 f3 2 0 2); try reflexivity.
  apply perm_swap.
Defined.

(** ** Dataset splitter *)

Section split_dataset_properties.
Variable rng : Type.
Variable rng_seed : Z -> rng.
Variable rng_sample : rng -> list nat -> nat -> list nat * rng.

(** What is assumed of [random.sample]: it returns [k] elements of the
    population. *)
Hypothesis rng_sample_length : forall g population k,
  (k <= length population)%nat -> length (fst (rng_sample g population k)) = k.
Hypothesis rng_sample_elem : forall g population k x,
  x ∈ fst (rng_sample g population k) -> x ∈ population.








End split_dataset_properties.

Lemma rotate_sample_length (g : nat) (population : list nat) (k : nat) :
  (k <= length population)%nat -> length (fst (rotate_sample g population k)) = k.
Proof. intros Hk. simpl. apply length_take_le. rewrite length_rotate. exact Hk. Qed.

Lemma rotate_sample_elem (g : nat) (population : list nat) (k x : nat) :
  x ∈ fst (rotate_sample g population k) -> x ∈ population.
Proof. simpl. intros Hx. apply subseteq_take in Hx. apply elem_of_rotate in Hx. exact Hx. Qed.


(** The same counts with [0.8] read as the double nearest to it: the
    product with 100 is above 80 by less than one, and 0.75 is exact. *)
Example split_counts_double :
  py_int_of_float (inject_Z 100 * (3602879701896397 # 4503599627370496)) = 80 /\
  py_int_of_float (inject_Z 80 * (3 # 4)) = 60.
Proof. split; reflexivity. Qed.

(** ** Configuration errors *)

(** Claim C9. The splitter raises [ValueError] at once when the numbers of
    image and label directories differ or when an images directory does not
    exist; the converter exits in its constructor when it is given neither a
    class directory nor a class list nor a class map; the validator returns
    its failure result, without any report, when its images or labels
    directory does not exist. *)
Theorem configuration_errors_abort :
  (forall rng rng_seed rng_sample fs (g : rng) answer images_dir labels_dir output_dir
          search_strings trainval_percent train_percent use_abs gen random_seed,
     length (images_dir_list images_dir) <> length (labels_dir_list images_dir labels_dir) ->
     split_dataset rng rng_seed rng_sample fs g answer images_dir labels_dir output_dir
       search_strings trainval_percent train_percent use_abs gen random_seed =
     Raise ValueError) /\
  (forall rng rng_seed rng_sample fs (g : rng) answer images_dir labels_dir output_dir
          search_strings trainval_percent train_percent use_abs gen random_seed img_dir,
     img_dir ∈ images_dir_list images_dir -> path_exists fs img_dir = false ->
     split_dataset rng rng_seed rng_sample fs g answer images_dir labels_dir output_dir
       search_strings trainval_percent train_percent use_abs gen random_seed =
     Raise ValueError) /\
  (forall input_dir out_dir class_dir class_list class_map_dist txt_write_mode,
     truthy_str class_dir = false -> truthy_list class_list = false ->
     truthy_dict class_map_dist = false ->
     converter_init input_dir out_dir class_dir class_list class_map_dist txt_write_mode =
     Raise SystemExit) /\
  (forall fs broken_images images_dir labels_dir max_class_id report_path,
     path_exists fs images_dir = false \/ path_exists fs labels_dir = false ->
     exists error,
       validate_yolo_dataset fs broken_images images_dir labels_dir max_class_id report_path =
       Ok (ConfigFailure error, None)).
Proof.
  split; [|split; [|split]].
  - intros rng rng_seed rng_sample fs g answer images_dir labels_dir output_dir
      search_strings trainval_percent train_percent use_abs gen random_seed Hne.
    unfold split_dataset.
    destruct (Nat.eqb_spec (length (images_dir_list images_dir))
                (length (labels_dir_list images_dir labels_dir))); [contradiction | reflexivity].
  - intros rng rng_seed rng_sample fs g answer images_dir labels_dir output_dir
      search_strings trainval_percent train_percent use_abs gen random_seed img_dir Hin Hmiss.
    unfold split_dataset. destruct (negb _); [reflexivity|].
    assert (Hex : existsb (fun d => negb (path_exists fs d)) (images_dir_list images_dir) = true).
    { apply existsb_exists. exists img_dir. split; [apply list_elem_of_In, Hin|].
      rewrite Hmiss. reflexivity. }
    rewrite Hex. reflexivity.
  - intros input_dir out_dir class_dir class_list class_map_dist txt_write_mode H1 H2 H3.
    unfold converter_init. rewrite H1, H2, H3. reflexivity.
  - intros fs broken_images images_dir labels_dir max_class_id report_path Hmiss.
    unfold validate_yolo_dataset.
    destruct (path_exists fs images_dir); simpl; [|eauto].
    destruct Hmiss as [Hmiss|Hmiss]; [discriminate|]. rewrite Hmiss. simpl. eauto.
Qed.

Lemma configuration_errors_abort_witness :
  split_dataset nat counter_seed rotate_sample corpus_fs 0%nat "n"
    (ManyDirs ["images"; "more"]) (Some (OneDir "labels")) None []
    (4 # 5) (3 # 4) true false (Some 42) = Raise ValueError /\
  split_dataset nat counter_seed rotate_sample empty_fs 0%nat "n"
    (OneDir "images") None None [] (4 # 5) (3 # 4) true false (Some 42) =
    Raise ValueError /\
  converter_init "xml" "labels" None None None Overwrite = Raise SystemExit /\
  (exists error,
     validate_yolo_dataset empty_fs [] "images" "labels" (Some 3) None =
     Ok (ConfigFailure error, None)).
Proof.
  destruct configuration_errors_abort as (Hpairs & Hdir & Hinit & Hval).
  split; [|split; [|split]].
  - apply Hpairs. simpl. lia.
  - apply (Hdir nat counter_seed rotate_sample empty_fs 0%nat "n" (OneDir "images")
             None None [] (4 # 5) (3 # 4) true false (Some 42) "images");
      [left | reflexivity].
  - apply Hinit; reflexivity.
  - apply Hval. left. reflexivity.
Defined.

(** * Further properties *)

(** ** Coordinate conversion *)




(** ** Class ids of the converter *)

Lemma existsb_eqb_bool_decide (n : string) (l : list string) :
  existsb (String.eqb n) l = bool_decide (n ∈ l).
Proof.
  induction l as [|y l IH]; simpl; [reflexivity|].
  destruct (String.eqb_spec n y) as [->|Hne]; simpl.
  - symmetry. apply bool_decide_eq_true_2. left.
  - rewrite IH. apply bool_decide_ext. rewrite elem_of_cons.
    split; [auto | intros [?|?]; [contradiction | assumption]].
Qed.

Lemma list_index_spec (x : string) (l : list string) (i : nat) :
  list_index x l = Ok i <->
  l !! i = Some x /\ forall j, (j < i)%nat -> l !! j <> Some x.
Proof.
  revert i. induction l as [|y l IH]; intros i; simpl.
  - split; [discriminate | intros [H _]; discriminate].
  - destruct (String.eqb_spec y x) as [->|Hne].
    + split.
      * intros [= <-]. split; [reflexivity | intros j Hj; lia].
      * intros [Hi Hfirst]. destruct i as [|i]; [reflexivity|].
        exfalso. apply (Hfirst 0%nat); [lia | reflexivity].
    + destruct (list_index x l) as [k|e]; simpl.
      * split.
        -- intros [= <-]. destruct (proj1 (IH k) eq_refl) as [Hk Hfirst].
           split; [exact Hk|].
           intros [|j] Hj; simpl; [congruence | apply Hfirst; lia].
        -- intros [Hi Hfirst]. destruct i as [|i]; simpl in Hi; [congruence|].
           assert (Hk : Ok k = Ok i).
           { apply IH. split; [exact Hi|]. intros j Hj. apply (Hfirst (S j)). lia. }
           congruence.
      * split; [discriminate|]. intros [Hi Hfirst].
        destruct i as [|i]; simpl in Hi; [congruence|].
        assert (Hk : @Raise nat e = Ok i).
        { apply IH. split; [exact Hi|]. intros j Hj. apply (Hfirst (S j)). lia. }
        discriminate.
Qed.

Lemma list_index_raises (x : string) (l : list string) (e : exn) :
  list_index x l = Raise e -> e = ValueError /\ x ∉ l.
Proof.
  induction l as [|y l IH]; simpl.
  - intros [= <-]. split; [reflexivity | apply not_elem_of_nil].
  - destruct (String.eqb_spec y x) as [->|Hne]; [discriminate|].
    destruct (list_index x l) as [k|e'] eqn:Hk; simpl; [discriminate|].
    intros [= <-]. destruct (IH eq_refl) as [-> Hout]. split; [reflexivity|].
    apply not_elem_of_cons. split; [congruence | exact Hout].
Qed.

(** X2. With a class list and no class map, the id of an object is the
    position of the first occurrence of its name in the class list; a name
    that is not in the list is passed over. The lookup never raises. *)
Theorem lookup_class_list_mode (c : converter) (classes : list string) (name : string) :
  truthy_dict (class_map_dist c) = false ->
  class_list c = Some classes -> classes <> [] ->
  (name ∈ classes ->
   exists i, lookup_class c (Some name) = Ok (Bound i) /\
             classes !! i = Some name /\
             forall j, (j < i)%nat -> classes !! j <> Some name) /\
  (name ∉ classes -> lookup_class c (Some name) = Ok Continue).
Proof.
  intros Hmap Hlist Hne. unfold lookup_class. rewrite Hmap, Hlist.
  assert (Ht : truthy_list (Some classes) = true).
  { destruct classes; [congruence | reflexivity]. }
  rewrite Ht. cbn [andb default from_option]. unfold id. rewrite existsb_eqb_bool_decide. split.
  - intros Hin. rewrite bool_decide_true by exact Hin. simpl.
    destruct (list_index_elem_of name classes Hin) as [i Hi]. rewrite Hi. simpl.
    exists i. split; [reflexivity|]. apply list_index_spec, Hi.
  - intros Hout. rewrite bool_decide_false by exact Hout. reflexivity.
Qed.

Lemma lookup_class_list_mode_witness :
  let c := list_converter ["car"; "bus"; "car"] in
  ("car" ∈ ["car"; "bus"; "car"] ->
   exists i, lookup_class c (Some "car") = Ok (Bound i) /\
             ["car"; "bus"; "car"] !! i = Some "car" /\
             forall j, (j < i)%nat -> ["car"; "bus"; "car"] !! j <> Some "car") /\
  ("car" ∉ ["car"; "bus"; "car"] -> lookup_class c (Some "car") = Ok Continue).
Proof.
  intros c.
  apply (lookup_class_list_mode c ["car"; "bus"; "car"] "car");
    [reflexivity | reflexivity | discriminate].
Defined.

(** X3. With a class map and a class list, the id of an object is the
    position in the class list of the class its name maps to; the object is
    passed over exactly when its name is no key of the map, whether or not
    the name itself is in the class list; and the lookup raises [ValueError]
    exactly when the mapped class is missing from the class list. *)
Theorem lookup_class_map_mode (c : converter) (classes : list string)
    (m : gmap string string) (name : string) :
  class_map_dist c = Some m -> m <> ∅ ->
  class_list c = Some classes -> classes <> [] ->
  match m !! name with
  | None => lookup_class c (Some name) = Ok Continue
  | Some new_class_name =>
      (new_class_name ∈ classes ->
       exists i, lookup_class c (Some name) = Ok (Bound i) /\
                 classes !! i = Some new_class_name /\
                 forall j, (j < i)%nat -> classes !! j <> Some new_class_name) /\
      (new_class_name ∉ classes -> lookup_class c (Some name) = Raise ValueError)
  end.
Proof.
  intros Hmap Hm Hlist Hne. unfold lookup_class. rewrite Hmap, Hlist.
  assert (Ht1 : truthy_dict (Some m) = true).
  { simpl. rewrite bool_decide_false by exact Hm. reflexivity. }
  assert (Ht2 : truthy_list (Some classes) = true).
  { destruct classes; [congruence | reflexivity]. }
  rewrite Ht1, Ht2. cbn [andb default from_option mbind option_bind]. unfold id.
  destruct (m !! name) as [new|]; [|reflexivity]. split.
  - intros Hin. destruct (list_index_elem_of new classes Hin) as [i Hi].
    rewrite Hi. simpl. exists i. split; [reflexivity|]. apply list_index_spec, Hi.
  - intros Hout. destruct (list_index new classes) as [i|e] eqn:Hi; simpl.
    + apply list_index_spec in Hi as [Hi _].
      exfalso. apply Hout, list_elem_of_lookup. eauto.
    + apply list_index_raises in Hi as [-> _]. reflexivity.
Qed.

Lemma lookup_class_map_mode_witness :
  let m : gmap string string := {[ "truck" := "M-vehicle"; "tank" := "J-vehicle" ]} in
  let classes := ["J-vehicle"; "M-vehicle"] in
  let c := map_converter classes m in
  match m !! "truck" with
  | None => lookup_class c (Some "truck") = Ok Continue
  | Some new_class_name =>
      (new_class_name ∈ classes ->
       exists i, lookup_class c (Some "truck") = Ok (Bound i) /\
                 classes !! i = Some new_class_name /\
                 forall j, (j < i)%nat -> classes !! j <> Some new_class_name) /\
      (new_class_name ∉ classes -> lookup_class c (Some "truck") = Raise ValueError)
  end.
Proof.
  intros m classes c.
  apply (lookup_class_map_mode c classes m "truck");
    [reflexivity | | reflexivity | discriminate].
  intros Hm. assert (H : m !! "truck" = None) by (rewrite Hm; apply lookup_empty).
  discriminate H.
Defined.

(** ** Text files of the converter *)

Section xml_to_txt_more.
Variable py_float : string -> result Q.

Lemma lookup_class_bound (c : converter) (obj_name : option string) (i : nat) :
  lookup_class c obj_name = Ok (Bound i) ->
  is_Some (default [] (class_list c) !! i).
Proof.
  unfold lookup_class.
  assert (Hidx : forall n, Bound <$> list_index n (default [] (class_list c)) = Ok (Bound i) ->
                           is_Some (default [] (class_list c) !! i)).
  { intros n Hn. destruct (list_index n _) as [k|] eqn:Hk; [|discriminate].
    injection Hn as ->. apply list_index_spec in Hk as [Hk _]. eauto. }
  destruct (truthy_dict (class_map_dist c) && truthy_list (class_list c)).
  - destruct (obj_name ≫= _) as [new|]; [apply Hidx | discriminate].
  - destruct (truthy_list (class_list c)); [|discriminate].
    destruct obj_name as [n|]; [|discriminate].
    destruct (negb _); [discriminate | apply Hidx].
Qed.

Lemma convert_object_appends (c : converter) (imgshape : Z * Z)
    (txtresult txtresult' : list label_line) (obj : element) :
  convert_object py_float c imgshape txtresult obj = Ok txtresult' ->
  txtresult' = txtresult \/
  exists obj_id b, txtresult' = txtresult ++ [(obj_id, b)] /\
                   is_Some (default [] (class_list c) !! obj_id).
Proof.
  unfold convert_object.
  destruct (text_of (find "name" obj)) as [obj_name|]; [|discriminate].
  cbn [mbind result_bind].
  destruct (lookup_class c obj_name) as [lk|] eqn:Hlk; [|discriminate].
  cbn [mbind result_bind].
  destruct lk as [|obj_id|]; [intros [= <-]; left; reflexivity | |].
  - destruct (find "bndbox" obj) as [bbox|]; [|intros [= <-]; left; reflexivity].
    repeat (match goal with
            | |- context [float_field py_float bbox ?f] =>
                destruct (float_field py_float bbox f); [|discriminate];
                cbn [mbind result_bind]
            end).
    destruct (_convert_coordinate _ _) as [b|]; [|discriminate]. cbn [mbind result_bind].
    intros [= <-]. right. exists obj_id, b. split; [reflexivity|].
    eapply lookup_class_bound, Hlk.
  - destruct (find "bndbox" obj) as [bbox|]; [|intros [= <-]; left; reflexivity].
    repeat (match goal with
            | |- context [float_field py_float bbox ?f] =>
                destruct (float_field py_float bbox f); [|discriminate];
                cbn [mbind result_bind]
            end).
    destruct (_convert_coordinate _ _) as [b|]; discriminate.
Qed.

Lemma convert_objects_appends (c : converter) (imgshape : Z * Z) (objs : list element) :
  forall txtresult txtresult',
    convert_objects py_float c imgshape txtresult objs = Ok txtresult' ->
    exists lines,
      txtresult' = txtresult ++ lines /\
      (length lines <= length objs)%nat /\
      Forall (fun line => is_Some (default [] (class_list c) !! fst line)) lines.
Proof.
  induction objs as [|obj objs IH]; intros txt txt'; simpl.
  - intros [= <-]. exists []. rewrite app_nil_r. repeat split; [reflexivity | constructor].
  - destruct (convert_object py_float c imgshape txt obj) as [txt1|] eqn:Hobj; [|discriminate].
    cbn [mbind result_bind]. intros Hrest.
    destruct (IH _ _ Hrest) as (lines & -> & Hlen & Hids).
    destruct (convert_object_appends _ _ _ _ _ Hobj) as [->|(obj_id & b & -> & Hid)].
    + exists lines. repeat split; [cbn [length]; lia | exact Hids].
    + exists ((obj_id, b) :: lines). rewrite <- app_assoc. simpl.
      repeat split; [cbn [length]; lia | constructor; assumption].
Qed.

(** X4. When a file converts, every class id written for it is a position
    of the class list, and there are at most as many lines as the annotation
    has [object] elements. *)
Theorem convert_file_ids_valid (c : converter) (root : element) (lines : list label_line) :
  convert_file py_float c (Document root) = Ok lines ->
  (length lines <= length (findall "object" root))%nat /\
  Forall (fun line => exists name, default [] (class_list c) !! fst line = Some name) lines.
Proof.
  unfold convert_file. cbn [parse mbind result_bind].
  destruct (find_in "width" (find "size" root)) as [w|]; [|discriminate].
  cbn [mbind result_bind].
  destruct (text_of w) as [tw|]; [|discriminate]. cbn [mbind result_bind].
  destruct (int_of_text tw) as [width|]; [|discriminate]. cbn [mbind result_bind].
  destruct (find_in "height" (find "size" root)) as [h|]; [|discriminate].
  cbn [mbind result_bind].
  destruct (text_of h) as [th|]; [|discriminate]. cbn [mbind result_bind].
  destruct (int_of_text th) as [height|]; [|discriminate]. cbn [mbind result_bind].
  intros Hobjs. destruct (convert_objects_appends _ _ _ _ _ Hobjs) as (ls & -> & Hlen & Hids).
  simpl. split; [exact Hlen | exact Hids].
Qed.

(** X5. In overwrite mode, when every file of the list converts, the text
    file of an XML file holds exactly the conversion of that file, provided
    no later file of the list is written to the same path; XML files of
    different folders with the same base name share one text file, and the
    last one wins. *)
Theorem overwrite_last_wins (c : converter) (pre post : list (string * xml_file))
    (path : string) (f : xml_file) (txtresult : list label_line)
    (fs : gmap string (list label_line)) :
  txt_write_mode c = Overwrite ->
  Forall (fun pf => is_ok (convert_file py_float c (snd pf)) = true) (pre ++ (path, f) :: post) ->
  convert_file py_float c f = Ok txtresult ->
  Forall (fun pf => txt_file_path c (fst pf) <> txt_file_path c path) post ->
  fst (_convert_xml_to_txt py_float c (pre ++ (path, f) :: post) fs)
    !! txt_file_path c path = Some txtresult.
Proof.
  intros Hmode Hall Hf Hpost.
  apply Forall_app in Hall as [Hpre Hrest]. apply Forall_cons in Hrest as [_ Hok].
  rewrite convert_xml_to_txt_app.
  destruct (convert_xml_to_txt_all_ok py_float c pre fs Hpre) as (-> & _ & _).
  cbn [_convert_xml_to_txt]. rewrite Hf, Hmode. cbn [write_txt].
  generalize (fst (_convert_xml_to_txt py_float c pre fs)). intros fs1.
  assert (Hkeep : forall fs2,
            fs2 !! txt_file_path c path = Some txtresult ->
            fst (_convert_xml_to_txt py_float c post fs2) !! txt_file_path c path =
              Some txtresult).
  { clear - Hok Hpost Hmode. induction post as [|[p g] post IH]; intros fs2 Hfs2; [exact Hfs2|].
    apply Forall_cons in Hok as [Hg Hok]. apply Forall_cons in Hpost as [Hp Hpost].
    cbn [_convert_xml_to_txt]. simpl in Hg, Hp.
    destruct (convert_file py_float c g) as [txt|]; [|discriminate].
    apply IH; [assumption | assumption|]. rewrite Hmode. cbn [write_txt].
    rewrite lookup_insert_ne by exact Hp. exact Hfs2. }
  apply Hkeep. apply lookup_insert_eq.
Qed.

(** X6. In append mode a run never removes text: whatever a text file held
    before the run is a prefix of what it holds afterwards, also when the run
    ends with an exception. *)
Theorem append_keeps_content (c : converter) (files : list (string * xml_file))
    (fs : gmap string (list label_line)) (path : string) (old : list label_line) :
  txt_write_mode c = Append ->
  fs !! path = Some old ->
  exists more,
    fst (_convert_xml_to_txt py_float c files fs) !! path = Some (old ++ more).
Proof.
  intros Hmode. revert fs old.
  induction files as [|[p f] files IH]; intros fs old Hold; cbn [_convert_xml_to_txt].
  - exists []. rewrite app_nil_r. exact Hold.
  - destruct (convert_file py_float c f) as [txt|]; [|exists []; rewrite app_nil_r; exact Hold].
    rewrite Hmode. cbn [write_txt].
    destruct (decide (txt_file_path c p = path)) as [<-|Hne].
    + destruct (IH (<[txt_file_path c p := default [] (fs !! txt_file_path c p) ++ txt]> fs)
                  (old ++ txt)) as [more Hmore].
      { rewrite lookup_insert_eq, Hold. reflexivity. }
      exists (txt ++ more). rewrite app_assoc. exact Hmore.
    + apply IH. rewrite lookup_insert_ne by exact Hne. exact Hold.
Qed.
End xml_to_txt_more.

Lemma convert_file_ids_valid_witness :
  let c := list_converter ["a"; "b"] in
  let root := Element "annotation" None (size_8x8 :: map object_named ["b"; "zzz"; "a"]) in
  exists lines,
    convert_file decimal_float c (Document root) = Ok lines /\
    (length lines <= length (findall "object" root))%nat /\
    Forall (fun line => exists name, default [] (class_list c) !! fst line = Some name) lines.
Proof.
  intros c root. eexists. split; [vm_compute; reflexivity|].
  apply (convert_file_ids_valid decimal_float c root). vm_compute. reflexivity.
Defined.

Lemma overwrite_last_wins_witness :
  let c := list_converter ["a"; "b"] in
  exists txtresult,
    convert_file decimal_float c (annotation ["b"]) = Ok txtresult /\
    fst (_convert_xml_to_txt decimal_float c
           ([("xml/day1/img.xml", annotation ["a"])] ++
            ("xml/day2/img.xml", annotation ["b"]) :: [("xml/day2/other.xml", annotation ["a"])])
           ∅) !! txt_file_path c "xml/day2/img.xml" = Some txtresult.
Proof.
  intros c. eexists. split; [vm_compute; reflexivity|].
  apply (overwrite_last_wins decimal_float c).
  - reflexivity.
  - repeat constructor.
  - vm_compute. reflexivity.
  - repeat constructor. vm_compute. discriminate.
Defined.

Lemma append_keeps_content_witness :
  let c := {| input_dir := "xml"; out_dir := "labels"; class_dir := None;
              class_list := Some ["a"]; class_map_dist := None;
              txt_write_mode := Append |} in
  let old := [(0%nat, (0, 0, 0, 0)%Q)] in
  exists more,
    fst (_convert_xml_to_txt decimal_float c [("xml/img.xml", annotation ["a"])]
           {[ "labels/img.txt" := old ]}) !! "labels/img.txt" = Some (old ++ more).
Proof.
  intros c old.
  apply (append_keeps_content decimal_float c); reflexivity.
Defined.

Lemma list_ascii_of_string_app (a b : string) :
  list_ascii_of_string (a +:+ b) = list_ascii_of_string a ++ list_ascii_of_string b.
Proof. induction a as [|c a IH]; simpl; [reflexivity | rewrite IH; reflexivity]. Qed.

Lemma basename_chars_no_slash (s cur : list ascii) :
  Forall (fun ch => is_slash ch = false) s -> basename_chars cur s = rev cur ++ s.
Proof.
  intros Hs. revert cur. induction Hs as [|ch s Hch _ IH]; intros cur; simpl.
  - rewrite app_nil_r. reflexivity.
  - unfold is_slash in Hch. rewrite Hch, IH. simpl. rewrite <- app_assoc. reflexivity.
Qed.

Lemma basename_chars_after_slash (l s cur : list ascii) :
  Forall (fun ch => is_slash ch = false) s ->
  basename_chars cur (l ++ "/"%char :: s) = s.
Proof.
  intros Hs. revert cur. induction l as [|ch l IH]; intros cur; simpl.
  - apply (basename_chars_no_slash s []), Hs.
  - destruct (Ascii.eqb ch "/"); apply IH.
Qed.

Lemma replace_xml_txt_other (ch : ascii) (s : string) :
  is_dot ch = false -> replace_xml_txt (String ch s) = String ch (replace_xml_txt s).
Proof.
  unfold is_dot. intros Hch.
  destruct ch as [[] [] [] [] [] [] [] []]; try reflexivity; discriminate.
Qed.

Lemma replace_xml_txt_name (name : string) :
  Forall (fun ch => is_dot ch = false) (list_ascii_of_string name) ->
  replace_xml_txt (name +:+ ".xml") = name +:+ ".txt".
Proof.
  induction name as [|ch name IH]; intros Hname; [reflexivity|].
  apply Forall_cons in Hname as [Hch Hname].
  change (String ch name +:+ ".xml") with (String ch (name +:+ ".xml")).
  rewrite replace_xml_txt_other by exact Hch. rewrite IH by exact Hname. reflexivity.
Qed.

(** X7. The text file of [dir/name.xml] is [name.txt] in the output
    directory, whatever the folder [dir] of the XML file, for a name without
    slash and without dot: the base name is kept and the folder is dropped. *)
Theorem txt_file_path_name (c : converter) (dir name : string) :
  Forall (fun ch => is_slash ch = false /\ is_dot ch = false) (list_ascii_of_string name) ->
  txt_file_path c (dir +:+ "/" +:+ name +:+ ".xml") =
    path_join (out_dir c) (name +:+ ".txt").
Proof.
  intros Hname. unfold txt_file_path, basename. f_equal.
  rewrite list_ascii_of_string_app.
  change (list_ascii_of_string ("/" +:+ name +:+ ".xml"))
    with ("/"%char :: list_ascii_of_string (name +:+ ".xml")).
  rewrite basename_chars_after_slash.
  - rewrite string_of_list_ascii_of_string. apply replace_xml_txt_name.
    eapply Forall_impl; [exact Hname | intros ch [_ H]; exact H].
  - rewrite list_ascii_of_string_app. apply Forall_app. split.
    + eapply Forall_impl; [exact Hname | intros ch [H _]; exact H].
    + repeat constructor.
Qed.

Lemma txt_file_path_name_witness :
  txt_file_path (list_converter ["a"]) ("xml/day1" +:+ "/" +:+ "img_0001" +:+ ".xml") =
    path_join "labels" ("img_0001" +:+ ".txt").
Proof.
  apply (txt_file_path_name (list_converter ["a"]) "xml/day1" "img_0001").
  repeat constructor.
Defined.

(** ** Counts of the label summarizer *)

(** X8. After a scan that succeeds, [name_count] holds for every name the
    number of [object] elements seen with that name (stripped), at any depth
    of the documents; a name that was not seen has no entry. *)
Theorem name_count_occurrences (files : list xml_file) (labels : gset (option string))
    (name_count : odict string nat) :
  summarize_labels files ∅ [] = Ok (labels, name_count) ->
  forall name,
    odict_get name_count name =
      match occurrences (Some name) (seen_in_files files) with
      | O => None
      | n => Some n
      end.
Proof.
  intros Hscan name.
  destruct (summarize_labels_seen _ _ _ _ _ Hscan) as (names & -> & ->).
  rewrite occurrences_Some.
  pose proof (count_of_foldl names name) as Hcount.
  destruct (keys_foldl names) as (_ & Hdom & _). cbv zeta in Hdom.
  unfold count_of in Hcount.
  destruct (odict_get (foldl count_name [] names) name) as [n|] eqn:Hget; simpl in Hcount.
  - assert (Hin : name ∈ names).
    { apply Hdom. unfold odict_keys. clear - Hget.
      induction (foldl count_name [] names) as [|[k v] d IH]; simpl in *; [discriminate|].
      destruct (decide (k = name)) as [->|]; [left | right; apply IH, Hget]. }
    rewrite <- Hcount. destruct n as [|n]; [|reflexivity].
    exfalso. clear - Hin Hcount. induction names as [|y names IH]; [inversion Hin|].
    simpl in Hcount. destruct (decide (y = name)); [discriminate|].
    apply elem_of_cons in Hin as [->|Hin]; [congruence | apply IH; assumption].
  - rewrite <- Hcount. reflexivity.
Qed.

Lemma name_count_occurrences_witness :
  let files := [annotation ["b"; "a"; "c"]; annotation ["a"; "c"]] in
  odict_get [("b", 1%nat); ("a", 2%nat); ("c", 2%nat)] "a" =
    match occurrences (Some "a") (seen_in_files files) with
    | O => None
    | n => Some n
    end /\
  odict_get [("b", 1%nat); ("a", 2%nat); ("c", 2%nat)] "d" =
    match occurrences (Some "d") (seen_in_files files) with
    | O => None
    | n => Some n
    end.
Proof.
  intros files.
  split; apply (name_count_occurrences files {[Some "a"; Some "b"; Some "c"]});
    vm_compute; reflexivity.
Defined.

(** ** Lines accepted by the validator *)

Lemma span_app (p : ascii -> bool) (a b : list ascii) :
  Forall (fun ch => p ch = true) a ->
  match b with [] => True | ch :: _ => p ch = false end ->
  span p (a ++ b) = (a, b).
Proof.
  intros Ha Hb. induction Ha as [|ch a Hch _ IH]; simpl.
  - destruct b as [|ch b]; [reflexivity | simpl; rewrite Hb; reflexivity].
  - rewrite Hch, IH. reflexivity.
Qed.

Lemma span_stops (p : ascii -> bool) (l : list ascii) :
  match snd (span p l) with [] => True | ch :: _ => p ch = false end.
Proof.
  induction l as [|ch l IH]; simpl; [exact I|].
  destruct (p ch) eqn:Hch; [|simpl; exact Hch].
  destruct (span p l) as [a b]. exact IH.
Qed.

Lemma span1_app (p : ascii -> bool) (a b : list ascii) :
  a <> [] -> Forall (fun ch => p ch = true) a ->
  match b with [] => True | ch :: _ => p ch = false end ->
  span1 p (a ++ b) = Some (a, b).
Proof.
  intros Hne Ha Hb. unfold span1. rewrite span_app by assumption.
  destruct a; [congruence | reflexivity].
Qed.

Lemma span1_inv (p : ascii -> bool) (l a b : list ascii) :
  span1 p l = Some (a, b) ->
  l = a ++ b /\ a <> [] /\ Forall (fun ch => p ch = true) a /\
  match b with [] => True | ch :: _ => p ch = false end.
Proof.
  intros H. pose proof (span1_spec p l a b H) as [Hne Hall].
  unfold span1 in H. pose proof (span_spec p l) as [_ Happ].
  pose proof (span_stops p l) as Hstop.
  destruct (span p l) as [[|ch a'] b']; [discriminate|].
  injection H as <- <-. simpl in *. repeat split; assumption.
Qed.

Lemma space_not_digit_or_dot (ch : ascii) : py_isspace ch = true -> digit_or_dot ch = false.
Proof.
  intros Hs. unfold digit_or_dot.
  destruct (py_isdigit ch) eqn:Hd; [apply digit_not_space in Hd; congruence|].
  destruct (Ascii.eqb_spec ch ".") as [->|]; [discriminate | reflexivity].
Qed.

Lemma digit_or_dot_not_space (ch : ascii) : digit_or_dot ch = true -> py_isspace ch = false.
Proof.
  intros Hd. destruct (py_isspace ch) eqn:Hs; [|reflexivity].
  apply space_not_digit_or_dot in Hs. congruence.
Qed.

Lemma space_not_digit (ch : ascii) : py_isspace ch = true -> py_isdigit ch = false.
Proof.
  intros Hs. destruct (py_isdigit ch) eqn:Hd; [|reflexivity].
  apply digit_not_space in Hd. congruence.
Qed.

(** X9. The pattern of a label line accepts exactly the texts made of a
    non-empty run of digits and four non-empty runs of digits and dots,
    separated by non-empty whitespace, with optional whitespace around; the
    groups are these five runs. In particular a sign, an exponent or a sixth
    field is never accepted. *)
Theorem yolo_line_pattern_iff (line g1 g2 g3 g4 g5 : list ascii) :
  yolo_line_pattern line = Some (g1, g2, g3, g4, g5) <->
  exists w0 w1 w2 w3 w4 w5,
    line = w0 ++ g1 ++ w1 ++ g2 ++ w2 ++ g3 ++ w3 ++ g4 ++ w4 ++ g5 ++ w5 /\
    Forall (fun ws => Forall (fun ch => py_isspace ch = true) ws) [w0; w1; w2; w3; w4; w5] /\
    Forall (fun ws => ws <> []) [w1; w2; w3; w4] /\
    g1 <> [] /\ Forall (fun ch => py_isdigit ch = true) g1 /\
    Forall (fun g => g <> [] /\ Forall (fun ch => digit_or_dot ch = true) g) [g2; g3; g4; g5].
Proof.
  split.
  - unfold yolo_line_pattern. intros Hm.
    pose proof (span_spec py_isspace line) as [Hw0 Hline].
    destruct (span py_isspace line) as [w0 r0]. simpl in Hw0, Hline.
    destruct (span1 py_isdigit r0) as [[a1 r1]|] eqn:H1; [|discriminate].
    cbn [mbind option_bind] in Hm.
    destruct (span1 py_isspace r1) as [[w1 r2]|] eqn:H2; [|discriminate].
    cbn [mbind option_bind] in Hm.
    destruct (span1 digit_or_dot r2) as [[a2 r3]|] eqn:H3; [|discriminate].
    cbn [mbind option_bind] in Hm.
    destruct (span1 py_isspace r3) as [[w2 r4]|] eqn:H4; [|discriminate].
    cbn [mbind option_bind] in Hm.
    destruct (span1 digit_or_dot r4) as [[a3 r5]|] eqn:H5; [|discriminate].
    cbn [mbind option_bind] in Hm.
    destruct (span1 py_isspace r5) as [[w3 r6]|] eqn:H6; [|discriminate].
    cbn [mbind option_bind] in Hm.
    destruct (span1 digit_or_dot r6) as [[a4 r7]|] eqn:H7; [|discriminate].
    cbn [mbind option_bind] in Hm.
    destruct (span1 py_isspace r7) as [[w4 r8]|] eqn:H8; [|discriminate].
    cbn [mbind option_bind] in Hm.
    destruct (span1 digit_or_dot r8) as [[a5 r9]|] eqn:H9; [|discriminate].
    cbn [mbind option_bind] in Hm.
    pose proof (span_spec py_isspace r9) as [Hw5 Hr9].
    destruct (span py_isspace r9) as [w5 r10]. simpl in Hw5, Hr9.
    destruct r10; [|discriminate]. injection Hm as <- <- <- <- <-.
    apply span1_inv in H1 as (-> & ? & ? & _). apply span1_inv in H2 as (-> & ? & ? & _).
    apply span1_inv in H3 as (-> & ? & ? & _). apply span1_inv in H4 as (-> & ? & ? & _).
    apply span1_inv in H5 as (-> & ? & ? & _). apply span1_inv in H6 as (-> & ? & ? & _).
    apply span1_inv in H7 as (-> & ? & ? & _). apply span1_inv in H8 as (-> & ? & ? & _).
    apply span1_inv in H9 as (-> & ? & ? & _).
    rewrite app_nil_r in Hr9. subst r9.
    exists w0, w1, w2, w3, w4, w5. split; [exact Hline|].
    repeat (split || constructor); assumption.
  - intros (w0 & w1 & w2 & w3 & w4 & w5 & -> & Hws & Hne & Hg1ne & Hg1 & Hgs).
    apply Forall_cons in Hws as [Hw0 Hws]. apply Forall_cons in Hws as [Hw1 Hws].
    apply Forall_cons in Hws as [Hw2 Hws]. apply Forall_cons in Hws as [Hw3 Hws].
    apply Forall_cons in Hws as [Hw4 Hws]. apply Forall_cons in Hws as [Hw5 _].
    apply Forall_cons in Hne as [Hn1 Hne]. apply Forall_cons in Hne as [Hn2 Hne].
    apply Forall_cons in Hne as [Hn3 Hne]. apply Forall_cons in Hne as [Hn4 _].
    apply Forall_cons in Hgs as [[Hg2ne Hg2] Hgs]. apply Forall_cons in Hgs as [[Hg3ne Hg3] Hgs].
    apply Forall_cons in Hgs as [[Hg4ne Hg4] Hgs]. apply Forall_cons in Hgs as [[Hg5ne Hg5] _].
    assert (Hhead : forall (p q : ascii -> bool) (a rest : list ascii),
              a <> [] -> Forall (fun ch => q ch = true) a ->
              (forall ch, q ch = true -> p ch = false) ->
              match a ++ rest with [] => True | ch :: _ => p ch = false end).
    { intros p q a rest Ha Hq Hpq. destruct a as [|ch a]; [congruence|]. simpl.
      apply Hpq. inversion Hq; assumption. }
    unfold yolo_line_pattern.
    rewrite (span_app py_isspace w0) by
      (try assumption; apply (Hhead py_isspace py_isdigit); auto using digit_not_space).
    rewrite (span1_app py_isdigit g1) by
      (try assumption; apply (Hhead py_isdigit py_isspace); auto using space_not_digit).
    cbn [mbind option_bind].
    rewrite (span1_app py_isspace w1) by
      (try assumption; apply (Hhead py_isspace digit_or_dot); auto using digit_or_dot_not_space).
    cbn [mbind option_bind].
    rewrite (span1_app digit_or_dot g2) by
      (try assumption; apply (Hhead digit_or_dot py_isspace); auto using space_not_digit_or_dot).
    cbn [mbind option_bind].
    rewrite (span1_app py_isspace w2) by
      (try assumption; apply (Hhead py_isspace digit_or_dot); auto using digit_or_dot_not_space).
    cbn [mbind option_bind].
    rewrite (span1_app digit_or_dot g3) by
      (try assumption; apply (Hhead digit_or_dot py_isspace); auto using space_not_digit_or_dot).
    cbn [mbind option_bind].
    rewrite (span1_app py_isspace w3) by
      (try assumption; apply (Hhead py_isspace digit_or_dot); auto using digit_or_dot_not_space).
    cbn [mbind option_bind].
    rewrite (span1_app digit_or_dot g4) by
      (try assumption; apply (Hhead digit_or_dot py_isspace); auto using space_not_digit_or_dot).
    cbn [mbind option_bind].
    rewrite (span1_app py_isspace w4) by
      (try assumption; apply (Hhead py_isspace digit_or_dot); auto using digit_or_dot_not_space).
    cbn [mbind option_bind].
    assert (Hw5' : match w5 with [] => True | ch :: _ => digit_or_dot ch = false end).
    { destruct Hw5 as [|ch w5 Hch _]; [exact I | apply space_not_digit_or_dot, Hch]. }
    rewrite (span1_app digit_or_dot g5) by assumption.
    cbn [mbind option_bind].
    rewrite <- (app_nil_r w5). rewrite (span_app py_isspace w5 []) by (assumption || exact I).
    reflexivity.
Qed.




(** ** Result of the validator *)

Lemma warning_lines_zero (n : nat) : warning_lines n = 0%nat <-> n = 0%nat.
Proof. destruct n; simpl; [tauto | split; discriminate]. Qed.

Lemma warning_lines_le (n : nat) : (warning_lines n <= 6)%nat.
Proof.
  destruct n as [|n]; [simpl; lia|].
  change (warning_lines (S n)) with (1 + Nat.min 5 (S n))%nat.
  pose proof (Nat.le_min_l 5 (S n)). lia.
Qed.

Lemma size_list_to_set_le (l : list string) :
  (size (list_to_set l : gset string) <= length l)%nat.
Proof.
  induction l as [|x l IH].
  - rewrite list_to_set_nil, size_empty. reflexivity.
  - rewrite list_to_set_cons, size_union_alt, size_singleton. cbn [length].
    assert (Hsub : (list_to_set l : gset string) ∖ {[x]} ⊆ list_to_set l)
      by (apply subseteq_difference_l; reflexivity).
    apply subseteq_size in Hsub. lia.
Qed.

(** X11. A full run of the validator reports success exactly when it found
    no image without label, no label without image, no broken image and no
    invalid annotation; its error count never exceeds 24, since each of the
    four groups contributes one warning and at most five details. *)
Theorem validate_success_iff (fs : filesystem) (broken_images : list string)
    (images_dir labels_dir : string) (max_class_id : option Z) (report_path : option string)
    (success : bool) (path : string) (info : correspondence) (error_count : nat)
    (invalid : list annotation_problem) (report : option (string * validation_result)) :
  validate_yolo_dataset fs broken_images images_dir labels_dir max_class_id report_path =
    Ok (Validated success path info error_count invalid, report) ->
  (success = true <->
   images_without_label info = ∅ /\ labels_without_image info = ∅ /\
   broken_images = [] /\ invalid = []) /\
  (error_count <= 24)%nat /\
  report = Some (path, Validated success path info error_count invalid).
Proof.
  unfold validate_yolo_dataset.
  destruct (negb (path_exists fs images_dir)); [discriminate|].
  destruct (negb (path_exists fs labels_dir)); [discriminate|].
  destruct (listdir fs images_dir) as [images|]; [|discriminate].
  destruct (listdir fs labels_dir) as [labels|]; [|discriminate].
  cbn [mbind result_bind]. intros [= <- <- <- <- <- <-].
  cbn [images_without_label labels_without_image].
  set (iwl := _ ∖ _). set (lwi := _ ∖ _). set (inv := foldl _ _ _).
  split; [|split; [|reflexivity]].
  - rewrite Nat.eqb_eq.
    assert (Hi : iwl = ∅ <-> warning_lines (size iwl) = 0%nat).
    { rewrite warning_lines_zero, size_empty_iff. unfold_leibniz. reflexivity. }
    assert (Hl : lwi = ∅ <-> warning_lines (size lwi) = 0%nat).
    { rewrite warning_lines_zero, size_empty_iff. unfold_leibniz. reflexivity. }
    assert (Hb : broken_images = [] <-> warning_lines (length broken_images) = 0%nat).
    { rewrite warning_lines_zero. split; [intros ->; reflexivity | apply nil_length_inv]. }
    assert (Hv : inv = [] <-> warning_lines (length inv) = 0%nat).
    { rewrite warning_lines_zero. split; [intros ->; reflexivity | apply nil_length_inv]. }
    rewrite Hi, Hl, Hb, Hv. lia.
  - pose proof (warning_lines_le (size iwl)). pose proof (warning_lines_le (size lwi)).
    pose proof (warning_lines_le (length broken_images)).
    pose proof (warning_lines_le (length inv)). lia.
Qed.

(** X12. In the correspondence summary of a full run, matched pairs and
    images without label together never exceed the number of image files, and
    matched pairs and labels without image together never exceed the number
    of label files: base names are compared as sets, so two images that
    differ in the extension only count once. No base name is reported both
    as an image without label and as a label without image. *)
Theorem validate_correspondence (fs : filesystem) (broken_images : list string)
    (images_dir labels_dir : string) (max_class_id : option Z) (report_path : option string)
    (success : bool) (path : string) (info : correspondence) (error_count : nat)
    (invalid : list annotation_problem) (report : option (string * validation_result)) :
  validate_yolo_dataset fs broken_images images_dir labels_dir max_class_id report_path =
    Ok (Validated success path info error_count invalid, report) ->
  (matched_pairs info + size (images_without_label info) <= total_images info)%nat /\
  (matched_pairs info + size (labels_without_image info) <= total_labels info)%nat /\
  images_without_label info ## labels_without_image info.
Proof.
  unfold validate_yolo_dataset.
  destruct (negb (path_exists fs images_dir)); [discriminate|].
  destruct (negb (path_exists fs labels_dir)); [discriminate|].
  destruct (listdir fs images_dir) as [images|]; [|discriminate].
  destruct (listdir fs labels_dir) as [labels|]; [|discriminate].
  cbn [mbind result_bind]. intros [= <- <- <- <- <- <-].
  cbn [images_without_label labels_without_image matched_pairs total_images total_labels].
  set (il := List.filter _ images). set (ll := List.filter _ labels).
  set (A := list_to_set (map _ il) : gset string).
  set (B := list_to_set (map _ ll) : gset string).
  assert (HA : (size (A ∩ B) + size (A ∖ B) = size A)%nat).
  { rewrite <- size_union
      by (apply elem_of_disjoint; intros x;
          rewrite elem_of_intersection, elem_of_difference; tauto).
    f_equal. apply set_eq. intros x.
    rewrite elem_of_union, elem_of_intersection, elem_of_difference.
    destruct (decide (x ∈ B)); tauto. }
  assert (HB : (size (A ∩ B) + size (B ∖ A) = size B)%nat).
  { rewrite <- size_union
      by (apply elem_of_disjoint; intros x;
          rewrite elem_of_intersection, elem_of_difference; tauto).
    f_equal. apply set_eq. intros x.
    rewrite elem_of_union, elem_of_intersection, elem_of_difference.
    destruct (decide (x ∈ A)); tauto. }
  pose proof (size_list_to_set_le (map (fun f => fst (splitext f)) il)) as HlA.
  pose proof (size_list_to_set_le (map (fun f => fst (splitext f)) ll)) as HlB.
  rewrite length_map in HlA, HlB. fold A in HlA. fold B in HlB.
  split; [lia|]. split; [lia|].
  apply elem_of_disjoint. intros x. rewrite !elem_of_difference. tauto.
Qed.

Import MoreExamples.

Lemma validate_success_iff_witness :
  exists success path info error_count invalid report,
    validate_yolo_dataset dataset_fs ["b.jpg"] "data/images" "data/labels" (Some 3) None =
      Ok (Validated success path info error_count invalid, report) /\
    (success = true <->
     images_without_label info = ∅ /\ labels_without_image info = ∅ /\
     ["b.jpg"] = [] /\ invalid = []) /\
    (error_count <= 24)%nat /\
    report = Some (path, Validated success path info error_count invalid).
Proof.
  do 6 eexists. split; [vm_compute; reflexivity|].
  eapply (validate_success_iff dataset_fs ["b.jpg"] "data/images" "data/labels" (Some 3) None).
  vm_compute. reflexivity.
Defined.

Lemma validate_correspondence_witness :
  exists success path info error_count invalid report,
    validate_yolo_dataset dataset_fs [] "data/images" "data/labels" (Some 3) None =
      Ok (Validated success path info error_count invalid, report) /\
    (matched_pairs info + size (images_without_label info) <= total_images info)%nat /\
    (matched_pairs info + size (labels_without_image info) <= total_labels info)%nat /\
    images_without_label info ## labels_without_image info.
Proof.
  do 6 eexists. split; [vm_compute; reflexivity|].
  eapply (validate_correspondence dataset_fs [] "data/images" "data/labels" (Some 3) None).
  vm_compute. reflexivity.
Defined.

(** ** Statistics of the analyzer *)

Lemma counter_sum_insert {K : Type} `{Countable K} (k : K) (n : nat) (c : gmap K nat) :
  (counter_sum (<[k := n]> c) + default 0 (c !! k) = counter_sum c + n)%nat.
Proof.
  unfold counter_sum.
  destruct (c !! k) as [v|] eqn:Hv; simpl.
  - rewrite <- (insert_delete_eq c k n).
    rewrite (map_fold_insert_L _ 0%nat k n (delete k c));
      [|intros; lia | apply lookup_delete_eq].
    rewrite <- (insert_delete_id c k v Hv) at 2.
    rewrite (map_fold_insert_L _ 0%nat k v (delete k c));
      [|intros; lia | apply lookup_delete_eq].
    lia.
  - rewrite (map_fold_insert_L _ 0%nat k n c); [|intros; lia | exact Hv]. lia.
Qed.

Lemma counter_sum_incr {K : Type} `{Countable K} (k : K) (c : gmap K nat) :
  counter_sum (counter_incr k c) = S (counter_sum c).
Proof.
  unfold counter_incr. pose proof (counter_sum_insert k (S (default 0%nat (c !! k))) c). lia.
Qed.

Lemma counter_total_sum (c : gmap Z nat) : counter_total c = counter_sum c.
Proof. reflexivity. Qed.

(** What the loop over the lines of one file does to the counter of the
    analyzer and to the local total. *)
Lemma count_lines_totals (lines : list string) :
  forall lc fo n,
    match count_lines (lc, fo, n) lines with
    | (lc', Ok (_, n')) =>
        (counter_sum lc' + n = counter_sum lc + n')%nat /\
        ((n' = n /\ lc' = lc) \/ (n < n')%nat)
    | (lc', Raise _) => (counter_sum lc <= counter_sum lc')%nat
    end.
Proof.
  induction lines as [|line lines IH]; intros lc fo n.
  - simpl. split; [lia | left; split; reflexivity].
  - cbn [count_lines]. rewrite count_line_tokens.
    destruct (5 <=? length (split line))%nat.
    + destruct (py_int _) as [class_id|e]; [|simpl; lia].
      cbn [line_counted]. specialize (IH (counter_incr class_id lc)
                                        (ocounter_incr class_id fo) (S n)).
      destruct (count_lines _ lines) as [lc' [[fo' n']|e]];
        rewrite counter_sum_incr in IH.
      * destruct IH as [Hsum Hcase]. split; [lia|]. right.
        destruct Hcase as [[-> _]|Hlt]; lia.
      * lia.
    + apply IH.
Qed.

Lemma objects_in_file_lines (a : analyzer) (lines : list string) (n : nat) :
  objects_in_file lines = Some n ->
  counter_sum (labels_counter (analyze_file a lines)) = (counter_sum (labels_counter a) + n)%nat /\
  (n = 0%nat -> labels_counter (analyze_file a lines) = labels_counter a).
Proof.
  unfold objects_in_file, analyze_file. intros Hn.
  pose proof (count_lines_locals lines (labels_counter a) ∅ [] 0%nat) as Hloc.
  pose proof (count_lines_totals lines (labels_counter a) [] 0%nat) as Htot.
  unfold line_state, odict in *.
  destruct (count_lines (labels_counter a, [], 0%nat) lines) as [lc [[fo m]|e]],
           (count_lines (∅, [], 0%nat) lines) as [lc' [[fo' m']|e']];
    simpl in *; try contradiction; try discriminate.
  injection Hloc as <- <-. injection Hn as <-.
  destruct Htot as [Hsum Hcase]. split; [lia|].
  intros ->. destruct Hcase as [[_ ->]|Hlt]; [reflexivity | lia].
Qed.

Lemma analyze_files_clean (files : list (string * list string)) :
  Forall (fun f => is_Some (objects_in_file (snd f))) files ->
  forall a,
    let a' := foldl (fun a f => analyze_file a (snd f)) a files in
    counter_sum (labels_counter a') =
      (counter_sum (labels_counter a) + sum_list (omap (fun f => objects_in_file (snd f)) files))%nat /\
    counter_sum (objects_per_image a') = (counter_sum (objects_per_image a) + length files)%nat /\
    (sum_list (omap (fun f => objects_in_file (snd f)) files) = 0%nat ->
     labels_counter a' = labels_counter a).
Proof.
  induction 1 as [|f files [n Hn] _ IH]; intros a; cbn [foldl omap list_omap].
  - simpl. repeat split; lia.
  - rewrite Hn. cbn [sum_list sum_list_with length]. unfold id.
    destruct (IH (analyze_file a (snd f))) as (Hlc & Hopi & Hzero). cbv zeta in *.
    destruct (objects_in_file_lines a (snd f) n Hn) as [Hsum Hsame].
    destruct (analyze_file_objects_per_image a (snd f)) as [_ Hper].
    rewrite Hn in Hper. rewrite Hlc, Hopi, Hsum, Hper, counter_sum_incr.
    split; [symmetry; apply Nat.add_assoc|]. split; [rewrite Nat.add_succ_r; reflexivity|].
    intros H0. apply Nat.eq_add_0 in H0 as [-> H0].
    rewrite Hzero by exact H0. apply Hsame. reflexivity.
Qed.

(** X13. Run on a fresh analyzer over label files none of whose lines has
    five tokens and a first token that is no integer, the analysis ends with
    [total_objects] equal to the sum of the object counts of the files kept,
    with the image counts of [objects_per_image] adding up to
    [total_label_files], and it returns [True] exactly when at least one
    object was counted. *)
Theorem analysis_totals (txt_files : list (string * list string)) :
  let kept := List.filter (fun f => negb (excluded (fst f))) txt_files in
  let counts := omap (fun f => objects_in_file (snd f)) kept in
  Forall (fun f => is_Some (objects_in_file (snd f))) kept ->
  let a := fst (analyze_labels_distribution analyzer_init txt_files) in
  total_objects a = sum_list counts /\
  (txt_files <> [] -> counter_sum (objects_per_image a) = total_label_files a) /\
  (snd (analyze_labels_distribution analyzer_init txt_files) = true <->
   (0 < sum_list counts)%nat).
Proof.
  intros kept counts Hclean a. subst a counts.
  destruct txt_files as [|f0 files].
  { simpl. split; [reflexivity|]. split; [congruence|]. split; [discriminate | lia]. }
  unfold analyze_labels_distribution. cbv iota. fold kept.
  set (a0 := {| labels_counter := labels_counter analyzer_init;
                total_objects := total_objects analyzer_init;
                total_label_files := length kept;
                objects_per_image := objects_per_image analyzer_init;
                class_objects_per_image := _ |}).
  destruct (analyze_files_clean kept Hclean a0) as (Hlc & Hopi & Hzero). cbv zeta in *.
  change (counter_sum (labels_counter a0)) with 0%nat in Hlc.
  change (counter_sum (objects_per_image a0)) with 0%nat in Hopi.
  change (labels_counter a0) with (∅ : gmap Z nat) in Hzero.
  set (a1 := foldl (fun a f => analyze_file a (snd f)) a0 kept) in *.
  assert (Hfiles1 : total_label_files a1 = length kept).
  { assert (H : forall l b, total_label_files
              (foldl (fun a (f : string * list string) => analyze_file a (snd f)) b l) =
              total_label_files b).
    { induction l as [|g l IH]; intros b'; simpl; [reflexivity|].
      rewrite IH. apply analyze_file_objects_per_image. }
    subst a1. rewrite H. reflexivity. }
  destruct (bool_decide (labels_counter a1 = ∅)) eqn:Hempty; cbn [fst snd total_objects
    objects_per_image total_label_files].
  - apply bool_decide_eq_true in Hempty. rewrite Hempty in Hlc.
    change (counter_sum (∅ : gmap Z nat)) with 0%nat in Hlc.
    split; [change (total_objects a1) with (total_objects a1)|].
    + assert (Ht : forall l b, total_objects
                (foldl (fun a (f : string * list string) => analyze_file a (snd f)) b l) =
                total_objects b).
      { induction l as [|g l IH]; intros b'; simpl; [reflexivity|].
        rewrite IH. unfold analyze_file.
        destruct (count_lines _ _) as [? [[? ?]|?]]; reflexivity. }
      subst a1. rewrite Ht. simpl. lia.
    + split; [intros _; lia|]. split; [discriminate | lia].
  - apply bool_decide_eq_false in Hempty.
    split; [rewrite counter_total_sum; lia|].
    split; [intros _; lia|]. split; [intros _|reflexivity].
    destruct (sum_list _) as [|s] eqn:Hs; [|lia].
    exfalso. apply Hempty, Hzero. reflexivity.
Qed.

Lemma analysis_totals_witness :
  let txt_files :=
    [("labels/a.txt", ["0 0.5 0.5 0.2 0.2"; "1 0.1 0.1 0.1 0.1"]);
     ("labels/classes.txt", ["car"; "bus"]);
     ("labels/b.txt", []);
     ("labels/c.txt", ["1 0.5 0.5 0.2 0.2"; "too short"; "1 0.3 0.3 0.1 0.1"])] in
  let a := fst (analyze_labels_distribution analyzer_init txt_files) in
  total_objects a = 4%nat /\
  (txt_files <> [] -> counter_sum (objects_per_image a) = total_label_files a) /\
  (snd (analyze_labels_distribution analyzer_init txt_files) = true <-> (0 < 4)%nat).
Proof.
  intros txt_files.
  apply (analysis_totals txt_files).
  repeat constructor; eexists; vm_compute; reflexivity.
Defined.

Lemma add_class_counts_dom (items : list (Z * nat)) :
  forall per_class k,
    is_Some (fst (add_class_counts items per_class) !! k) <-> is_Some (per_class !! k).
Proof.
  induction items as [|[class_id count] items IH]; intros per_class k; simpl; [reflexivity|].
  destruct (per_class !! class_id) as [c|] eqn:Hc; simpl; [|reflexivity].
  rewrite IH. destruct (decide (class_id = k)) as [->|Hne].
  - rewrite lookup_insert_eq, Hc. split; eauto.
  - rewrite lookup_insert_ne by exact Hne. reflexivity.
Qed.

Lemma analyze_file_dom (a : analyzer) (lines : list string) (k : Z) :
  is_Some (class_objects_per_image (analyze_file a lines) !! k) <->
  is_Some (class_objects_per_image a !! k).
Proof.
  unfold analyze_file. destruct (count_lines _ lines) as [lc [[fo n]|e]]; simpl; [|reflexivity].
  apply add_class_counts_dom.
Qed.

(** X14. After an analysis by a fresh analyzer, the per-class histogram
    [class_objects_per_image] only has class ids from 0 to 99 that also occur
    in [labels_counter]: a class id of 100 or more, or a negative one, never
    gets a per-class histogram. *)
Theorem class_histogram_ids (txt_files : list (string * list string)) (k : Z) :
  let a := fst (analyze_labels_distribution analyzer_init txt_files) in
  is_Some (class_objects_per_image a !! k) ->
  0 <= k < 100 /\ is_Some (labels_counter a !! k).
Proof.
  intros a. subst a. destruct txt_files as [|f0 files].
  { simpl. rewrite lookup_empty. intros [? ?]; discriminate. }
  unfold analyze_labels_distribution. cbv iota.
  set (kept := List.filter _ (f0 :: files)).
  set (a0 := {| labels_counter := labels_counter analyzer_init;
                total_objects := total_objects analyzer_init;
                total_label_files := length kept;
                objects_per_image := objects_per_image analyzer_init;
                class_objects_per_image := _ |}).
  set (a1 := foldl (fun a f => analyze_file a (snd f)) a0 kept).
  assert (Hdom : is_Some (class_objects_per_image a1 !! k) ->
                 is_Some (class_objects_per_image a0 !! k)).
  { subst a1. generalize a0. clear. induction kept as [|g kept IH]; intros b; simpl; [auto|].
    intros H. apply IH in H. apply analyze_file_dom in H. exact H. }
  assert (Hinit : is_Some (class_objects_per_image a0 !! k) -> 0 <= k < 100).
  { cbn [class_objects_per_image a0 analyzer_init].
    assert (H : forall l (m : gmap Z (gmap nat nat)),
              is_Some (foldl (fun m (class_id : nat) => <[Z.of_nat class_id := ∅]> m) m l !! k) ->
              is_Some (m !! k) \/ exists i, i ∈ l /\ k = Z.of_nat i).
    { induction l as [|i l IH]; intros m; simpl; [auto|].
      intros H. apply IH in H as [H|(j & Hj & ->)].
      - destruct (decide (Z.of_nat i = k)) as [<-|Hne].
        + right. exists i. split; [left | reflexivity].
        + rewrite lookup_insert_ne in H by exact Hne. auto.
      - right. exists j. split; [right; exact Hj | reflexivity]. }
    intros Hk. apply H in Hk as [Hk|(i & Hi & ->)].
    - rewrite lookup_empty in Hk. destruct Hk; discriminate.
    - apply elem_of_seq in Hi. lia. }
  assert (Hfilter : forall m : gmap Z (gmap nat nat),
            is_Some (filter (fun kv : Z * gmap nat nat =>
                               snd kv <> ∅ /\ is_Some (labels_counter a1 !! fst kv)) m !! k) ->
            is_Some (m !! k) /\ is_Some (labels_counter a1 !! k)).
  { intros m [v Hv]. apply map_lookup_filter_Some in Hv as [Hv [_ Hl]]. eauto. }
  destruct (bool_decide (labels_counter a1 = ∅)); cbn [fst class_objects_per_image labels_counter];
    intros Hk; apply Hfilter in Hk as [Hk Hl]; (split; [apply Hinit, Hdom, Hk | exact Hl]).
Qed.

Lemma class_histogram_ids_witness :
  let txt_files := [("labels/a.txt", ["3 0.5 0.5 0.2 0.2"; "100 0.1 0.1 0.1 0.1"])] in
  let a := fst (analyze_labels_distribution analyzer_init txt_files) in
  is_Some (labels_counter a !! 100) /\ class_objects_per_image a !! 100 = None /\
  0 <= 3 < 100 /\ is_Some (labels_counter a !! 3).
Proof.
  intros txt_files a.
  split; [eexists; vm_compute; reflexivity|]. split; [vm_compute; reflexivity|].
  apply (class_histogram_ids txt_files 3). eexists. vm_compute. reflexivity.
Defined.

(** ** Class names of the analyzer *)

Lemma load_class_lines_lookup (lines : list string) :
  forall i class_names k,
    load_class_lines i lines class_names !! k =
      match (if decide (i <= k)%nat then lines !! (k - i)%nat else None) with
      | Some line =>
          match strip line with
          | EmptyString => class_names !! k
          | name => Some name
          end
      | None => class_names !! k
      end.
Proof.
  induction lines as [|line lines IH]; intros i class_names k; cbn [load_class_lines].
  - destruct (decide (i <= k)%nat); reflexivity.
  - rewrite IH. destruct (decide (S i <= k)%nat) as [Hle|Hgt].
    + rewrite decide_True by lia.
      replace (k - i)%nat with (S (k - S i)) by lia. cbn [lookup list_lookup].
      destruct (lines !! (k - S i)%nat) as [l|] eqn:Hl.
      * destruct (strip l); [|reflexivity].
        destruct (strip line); [reflexivity | apply lookup_insert_ne; lia].
      * assert (Hnone : (line :: lines) !! S (k - S i) = None) by exact Hl.
        destruct (strip line); [reflexivity | apply lookup_insert_ne; lia].
    + destruct (decide (i <= k)%nat) as [Hle|Hgt'].
      * assert (k = i) by lia. subst k. rewrite Nat.sub_diag. cbn [lookup list_lookup].
        destruct (strip line); [reflexivity | apply lookup_insert_eq].
      * destruct (strip line); [reflexivity | apply lookup_insert_ne; lia].
Qed.

(** X15. In the class names loaded from a [classes.txt], the class id is the
    number of the line, counted from 0 and counting blank lines: class [k]
    has the stripped text of line [k] as its name if that line is not blank,
    and no name otherwise; blank lines leave gaps but do not shift later
    ids. A file that cannot be read gives no names at all. *)
Theorem load_classes_from_txt_lookup (content : result (list string)) (k : nat) :
  _load_classes_from_txt content !! k =
    match content with
    | Ok lines =>
        match strip <$> lines !! k with
        | Some (String c s) => Some (String c s)
        | _ => None
        end
    | Raise _ => None
    end.
Proof.
  destruct content as [lines|e]; simpl; [|apply lookup_empty].
  rewrite load_class_lines_lookup, decide_True by lia. rewrite Nat.sub_0_r, lookup_empty.
  destruct (lines !! k) as [line|]; simpl; [|reflexivity].
  destruct (strip line); reflexivity.
Qed.

(** ** Searching and checking image files ([split_dataset.py]) *)

Lemma starts_with_spec (pre l : list ascii) :
  starts_with pre l = true <-> exists post, l = pre ++ post.
Proof.
  revert l. induction pre as [|c pre IH]; intros l; simpl.
  - split; [intros _; exists l; reflexivity | reflexivity].
  - destruct l as [|d l].
    + split; [discriminate | intros [post H]; discriminate].
    + rewrite andb_true_iff, IH. split.
      * intros [Hc [post ->]]. apply Ascii.eqb_eq in Hc as ->. eauto.
      * intros [post [= -> ->]]. split; [apply Ascii.eqb_refl | eauto].
Qed.

Lemma contains_chars_spec (needle hay : list ascii) :
  contains_chars needle hay = true <-> exists pre post, hay = pre ++ needle ++ post.
Proof.
  induction hay as [|d hay IH]; simpl.
  - rewrite orb_false_r, starts_with_spec. split.
    + intros [post H]. exists [], post. exact H.
    + intros (pre & post & H). destruct pre; [|discriminate]. eauto.
  - rewrite orb_true_iff, IH.
    rewrite (starts_with_spec needle (d :: hay)). split.
    + intros [[post H]|(pre & post & ->)].
      * exists [], post. exact H.
      * exists (d :: pre), post. reflexivity.
    + intros (pre & post & H). destruct pre as [|c pre].
      * left. exists post. exact H.
      * right. injection H as _ ->. eauto.
Qed.

Lemma contains_spec (needle hay : string) :
  contains needle hay = true <-> exists pre post, hay = pre +:+ needle +:+ post.
Proof.
  unfold contains. rewrite contains_chars_spec. split.
  - intros (pre & post & H).
    exists (string_of_list_ascii pre), (string_of_list_ascii post).
    rewrite <- (string_of_list_ascii_of_string hay), H.
    rewrite <- (string_of_list_ascii_of_string
                  (string_of_list_ascii pre +:+ needle +:+ string_of_list_ascii post)).
    rewrite !list_ascii_of_string_app, !list_ascii_of_string_of_list_ascii. reflexivity.
  - intros (pre & post & ->).
    exists (list_ascii_of_string pre), (list_ascii_of_string post).
    rewrite !list_ascii_of_string_app. reflexivity.
Qed.

(** X16. The search by strings returns, in the order of the directory
    listing, exactly the image files that [get_all_image_files] returns and
    whose name has one of the search strings as a substring; with no search
    string it returns all of them. *)
Theorem find_image_files_spec (fs : filesystem) (directory : string)
    (search_strings : list string) :
  find_image_files_with_strings fs directory search_strings =
    List.filter (fun filename =>
                   match search_strings with
                   | [] => true
                   | _ => existsb (fun s => contains s filename) search_strings
                   end) (get_all_image_files fs directory) /\
  find_image_files_with_strings fs directory [] = get_all_image_files fs directory /\
  forall filename,
    filename ∈ find_image_files_with_strings fs directory search_strings <->
    filename ∈ get_all_image_files fs directory /\
    (search_strings = [] \/
     exists s pre post, s ∈ search_strings /\ filename = pre +:+ s +:+ post).
Proof.
  assert (Hfilter : forall ss,
            find_image_files_with_strings fs directory ss =
            List.filter (fun filename =>
                           match ss with
                           | [] => true
                           | _ => existsb (fun s => contains s filename) ss
                           end) (get_all_image_files fs directory)).
  { intros ss. unfold find_image_files_with_strings, get_all_image_files.
    destruct (listdir fs directory) as [names|e]; [|reflexivity].
    induction names as [|n names IH]; simpl; [reflexivity|].
    destruct (is_image_file fs directory n); simpl; [|exact IH].
    destruct (match ss with [] => true | _ => _ end); [f_equal|]; exact IH. }
  split; [apply Hfilter|]. split.
  { rewrite Hfilter. generalize (get_all_image_files fs directory). clear.
    induction l as [|n l IH]; simpl; [reflexivity | f_equal; exact IH]. }
  intros filename. rewrite Hfilter, list_elem_of_In, filter_In, <- list_elem_of_In.
  apply and_iff_compat_l. destruct search_strings as [|s0 ss].
  - split; [intros _; left; reflexivity | reflexivity].
  - rewrite existsb_exists. split.
    + intros (s & Hs & Hc). right. apply contains_spec in Hc as (pre & post & Hc).
      exists s, pre, post. split; [apply list_elem_of_In, Hs | exact Hc].
    + intros [H|(s & pre & post & Hs & Hc)]; [discriminate|].
      exists s. split; [apply list_elem_of_In, Hs | apply contains_spec; eauto].
Qed.

Lemma check_label_files_exist_foldl (fs : filesystem) (labels_dir : string)
    (image_files valid missing : list string) :
  foldl (fun '(valid_images, missing_labels) image_file =>
           let base_name := fst (splitext image_file) in
           let label_file := path_join labels_dir (base_name +:+ ".txt") in
           if path_exists fs label_file
           then (valid_images ++ [image_file], missing_labels)
           else (valid_images, missing_labels ++ [image_file]))
        (valid, missing) image_files =
  (valid ++ List.filter (fun f => path_exists fs
                                    (path_join labels_dir (fst (splitext f) +:+ ".txt")))
                        image_files,
   missing ++ List.filter (fun f => negb (path_exists fs
                                    (path_join labels_dir (fst (splitext f) +:+ ".txt"))))
                          image_files).
Proof.
  revert valid missing. induction image_files as [|f l IH]; intros valid missing; simpl.
  - rewrite !app_nil_r. reflexivity.
  - destruct (path_exists fs _); simpl; rewrite IH, <- ?app_assoc; reflexivity.
Qed.

(** X17. [check_label_files_exist] splits the image files in two: the first
    list has, in their order, the images whose label file
    [labels_dir/<name without extension>.txt] exists, the second one the
    others; every image is in exactly one of the two, and [images_dir] plays
    no part. *)
Theorem check_label_files_exist_partition (fs : filesystem) (image_files : list string)
    (images_dir labels_dir : string) :
  let labelled f := path_exists fs (path_join labels_dir (fst (splitext f) +:+ ".txt")) in
  let '(valid_images, missing_labels) :=
    check_label_files_exist fs image_files images_dir labels_dir in
  valid_images = List.filter labelled image_files /\
  missing_labels = List.filter (fun f => negb (labelled f)) image_files /\
  valid_images ++ missing_labels ≡ₚ image_files /\
  (length valid_images + length missing_labels = length image_files)%nat.
Proof.
  intros labelled. unfold check_label_files_exist.
  rewrite check_label_files_exist_foldl. cbn [app]. fold labelled.
  assert (Hperm : List.filter labelled image_files ++
                  List.filter (fun f => negb (labelled f)) image_files ≡ₚ image_files).
  { induction image_files as [|f l IH]; simpl; [reflexivity|].
    destruct (labelled f); simpl.
    - constructor. exact IH.
    - rewrite <- Permutation_middle. constructor. exact IH. }
  split; [reflexivity|]. split; [reflexivity|]. split; [exact Hperm|].
  rewrite <- length_app. apply Permutation_length, Hperm.
Qed.

(** ** Class ids through both converters *)




(** ** The partition made by the splitter *)

Lemma append_inj_r (p a b : string) : p +:+ a = p +:+ b -> a = b.
Proof. induction p as [|c p IH]; simpl; [auto | intros [= H]; auto]. Qed.

Lemma append_assoc (a b c : string) : (a +:+ b) +:+ c = a +:+ b +:+ c.
Proof.
  induction a as [|x a IH]; [reflexivity|].
  change (String x ((a +:+ b) +:+ c) = String x (a +:+ b +:+ c)). f_equal. exact IH.
Qed.

Lemma path_join_plain (a : string) :
  exists prefix, forall c b, c <> "/"%char -> path_join a (String c b) = prefix +:+ String c b.
Proof.
  unfold path_join. destruct (rev (list_ascii_of_string a)) as [|d r].
  - exists EmptyString. intros c b Hc.
    destruct c as [[] [] [] [] [] [] [] []]; reflexivity.
  - destruct (Ascii.eqb d "/").
    + exists a. intros c b Hc.
      destruct c as [[] [] [] [] [] [] [] []]; try reflexivity. contradiction Hc. reflexivity.
    + exists (a +:+ "/"). intros c b Hc. rewrite append_assoc.
      destruct c as [[] [] [] [] [] [] [] []]; try reflexivity. contradiction Hc. reflexivity.
Qed.

Lemma path_join_plain_inj (a : string) (c c' : ascii) (b b' : string) :
  c <> "/"%char -> c' <> "/"%char ->
  path_join a (String c b) = path_join a (String c' b') -> String c b = String c' b'.
Proof.
  intros Hc Hc'. destruct (path_join_plain a) as [prefix Hp].
  rewrite (Hp c b Hc), (Hp c' b' Hc'). apply append_inj_r.
Qed.

Ltac list_file_ne :=
  let E := fresh in
  intros E; apply path_join_plain_inj in E; discriminate.

Lemma get_file_path_lookup (fs : filesystem) (all_image_info : list image_info)
    (use_abs : bool) (idx : nat) (path : string) :
  get_file_path fs all_image_info use_abs idx = Ok path ->
  (idx < length all_image_info)%nat /\
  path = default EmptyString (image_path fs use_abs <$> all_image_info !! idx).
Proof.
  unfold get_file_path.
  destruct (all_image_info !! idx) as [[[f d] l]|] eqn:E; [|discriminate].
  intros [= <-]. split; [|reflexivity].
  apply lookup_lt_Some in E. exact E.
Qed.

Lemma map_result_get_file_path (fs : filesystem) (all_image_info : list image_info)
    (use_abs : bool) (idxs : list nat) (paths : list string) :
  map_result (get_file_path fs all_image_info use_abs) idxs = Ok paths ->
  paths = map (fun idx => default EmptyString
                            (image_path fs use_abs <$> all_image_info !! idx)) idxs.
Proof.
  revert paths. induction idxs as [|i idxs IH]; intros paths; simpl.
  - intros [= <-]. reflexivity.
  - destruct (get_file_path fs all_image_info use_abs i) as [p|e] eqn:Ep; [|discriminate].
    cbn [mbind result_bind].
    destruct (map_result (get_file_path fs all_image_info use_abs) idxs) as [ps|e];
      [|discriminate].
    cbn [mbind result_bind]. intros [= <-].
    apply get_file_path_lookup in Ep as [_ ->]. rewrite (IH ps eq_refl). reflexivity.
Qed.

Lemma map_image_path_seq (fs : filesystem) (all_image_info : list image_info)
    (use_abs : bool) :
  map (fun idx => default EmptyString (image_path fs use_abs <$> all_image_info !! idx))
      (seq 0 (length all_image_info)) =
  map (image_path fs use_abs) all_image_info.
Proof.
  apply list_eq. intros i.
  change (map ?f ?l) with (f <$> l). rewrite !list_lookup_fmap.
  destruct (all_image_info !! i) as [info|] eqn:E.
  - rewrite lookup_seq_lt by (apply lookup_lt_Some in E; exact E).
    simpl. rewrite E. reflexivity.
  - rewrite lookup_seq_ge by (apply lookup_ge_None in E; exact E). reflexivity.
Qed.

Lemma write_file_sets_step (fs : filesystem) (all_image_info : list image_info)
    (out : string) (use_abs gen : bool) (name : string) (idxs : list nat)
    (rest : list (string * list nat)) (written written' : gmap string (list string)) :
  path_join out (name +:+ ".txt") <> path_join out (name +:+ "_labels.txt") ->
  write_file_sets fs all_image_info out use_abs gen ((name, idxs) :: rest) written =
    Ok written' ->
  exists paths written1,
    map_result (get_file_path fs all_image_info use_abs) idxs = Ok paths /\
    written1 !! path_join out (name +:+ ".txt") = Some paths /\
    (forall k, k <> path_join out (name +:+ ".txt") ->
               k <> path_join out (name +:+ "_labels.txt") ->
               written1 !! k = written !! k) /\
    write_file_sets fs all_image_info out use_abs gen rest written1 = Ok written'.
Proof.
  intros Hkeys. cbn [write_file_sets].
  destruct (map_result (get_file_path fs all_image_info use_abs) idxs) as [paths|e];
    [|discriminate].
  cbn [mbind result_bind]. destruct gen.
  - destruct (map_result (get_label_path fs all_image_info use_abs) idxs) as [lps|e];
      [|discriminate].
    cbn [mbind result_bind]. intros H. eexists paths, _.
    split; [reflexivity|]. split; [|split; [|exact H]].
    + rewrite lookup_insert_ne by congruence. apply lookup_insert_eq.
    + intros k Hk Hl. rewrite !lookup_insert_ne by congruence. reflexivity.
  - cbn [mbind result_bind]. intros H. eexists paths, _.
    split; [reflexivity|]. split; [|split; [|exact H]].
    + apply lookup_insert_eq.
    + intros k Hk Hl. rewrite lookup_insert_ne by congruence. reflexivity.
Qed.

Lemma random_sample_inv (rng : Type) (rng_sample : rng -> list nat -> nat -> list nat * rng)
    (g g' : rng) (population sample : list nat) (k : Z) :
  random_sample rng rng_sample g population k = Ok (sample, g') ->
  0 <= k <= Z.of_nat (length population) /\
  rng_sample g population (Z.to_nat k) = (sample, g').
Proof.
  unfold random_sample.
  destruct (Z.ltb_spec k 0); [discriminate|].
  destruct (Z.ltb_spec (Z.of_nat (length population)) k); [discriminate|].
  simpl. intros [= Hs]. split; [lia | exact Hs].
Qed.

Section split_partition.
Variable rng : Type.
Variable rng_seed : Z -> rng.
Variable rng_sample : rng -> list nat -> nat -> list nat * rng.

(** A run of [split_dataset] that returns went through the sampling and
    the writing with the images selected. *)
Lemma split_dataset_inv (fs : filesystem) (g : rng) (answer : string)
    (images_dir : dirs) (labels_dir : option dirs) (output : option string)
    (search_strings : list string) (trainval_percent train_percent : Q)
    (use_abs gen : bool) (random_seed : option Z)
    (stats : split_stats) (written : gmap string (list string)) (g' : rng) :
  split_dataset rng rng_seed rng_sample fs g answer images_dir labels_dir output
    search_strings trainval_percent train_percent use_abs gen random_seed =
    Ok (stats, written, g') ->
  let collected := collect_image_info fs search_strings (images_dir_list images_dir)
                     (labels_dir_list images_dir labels_dir) in
  exists selected train_indices val_indices test_indices trainval_indices g0,
    collected <> [] /\
    selected = (if String.eqb (lower answer) "y"
                then List.filter (has_label fs) collected else collected) /\
    total stats = Z.of_nat (length selected) /\
    trainval stats = py_int_of_float (inject_Z (total stats) * trainval_percent) /\
    train stats = py_int_of_float (inject_Z (trainval stats) * train_percent) /\
    val stats = trainval stats - train stats /\
    test stats = total stats - trainval stats /\
    split_indices rng rng_sample g0 (length selected) (trainval stats) (train stats) =
      Ok (train_indices, val_indices, test_indices, trainval_indices, g') /\
    write_file_sets fs selected (output_dir stats) use_abs gen
      [("train", train_indices); ("val", val_indices);
       ("test", test_indices); ("trainval", trainval_indices)] ∅ = Ok written.
Proof.
  intros H collected. subst collected. unfold split_dataset in H.
  remember (images_dir_list images_dir) as images eqn:Himages.
  remember (labels_dir_list images_dir labels_dir) as labels eqn:Hlabs.
  clear Himages Hlabs.
  destruct (negb (length images =? length labels)%nat); [discriminate|].
  destruct (existsb _ images); [discriminate|].
  destruct (match output with Some o => Ok o | None => _ end) as [out|e];
    [|discriminate].
  cbn [mbind result_bind] in H.
  remember (collect_image_info fs search_strings images labels) as collected eqn:Hc.
  clear Hc.
  destruct collected as [|info0 infos] eqn:Hcoll; [discriminate|].
  rewrite <- Hcoll in *.
  assert (Hne : collected <> []) by (rewrite Hcoll; discriminate).
  clear Hcoll info0 infos.
  set (selected := if String.eqb (lower answer) "y"
                   then List.filter (has_label fs) collected else collected).
  assert (Hsel : match List.filter (fun info => negb (has_label fs info)) collected with
                 | [] => collected
                 | _ => if String.eqb (lower answer) "y"
                        then List.filter (has_label fs) collected else collected
                 end = selected).
  { subst selected.
    destruct (List.filter (fun info => negb (has_label fs info)) collected) eqn:Hmiss;
      [|reflexivity].
    destruct (String.eqb (lower answer) "y"); [|reflexivity].
    clear - Hmiss. induction collected as [|x l IH]; simpl in *; [reflexivity|].
    destruct (has_label fs x); simpl in Hmiss; [|discriminate].
    f_equal. apply IH, Hmiss. }
  rewrite Hsel in H. clearbody selected.
  set (num_total := Z.of_nat (length selected)) in *.
  set (num_trainval := py_int_of_float (inject_Z num_total * trainval_percent)) in *.
  set (num_train := py_int_of_float (inject_Z num_trainval * train_percent)) in *.
  set (g0 := match random_seed with Some n => rng_seed n | None => g end) in *.
  destruct (random_sample rng rng_sample g0 (seq 0 (length selected)) num_trainval)
    as [[trainval_indices g1]|e] eqn:Htv; [|discriminate].
  cbn [mbind result_bind] in H.
  destruct (random_sample rng rng_sample g1 trainval_indices num_train)
    as [[train_indices g2]|e] eqn:Htr; [|discriminate].
  cbn [mbind result_bind] in H.
  destruct (write_file_sets _ _ _ _ _ _ _) as [w|e] eqn:Hw; [|discriminate].
  cbn [mbind result_bind] in H. injection H as <- <- <-.
  cbn [total trainval train val test output_dir].
  exists selected, train_indices,
    (List.filter (fun i => negb (bool_decide (i ∈ train_indices))) trainval_indices),
    (List.filter (fun i => negb (bool_decide (i ∈ trainval_indices)))
       (seq 0 (length selected))),
    trainval_indices, g0.
  split; [exact Hne|]. repeat (split; [reflexivity|]).
  split; [|exact Hw].
  unfold split_indices. fold num_total num_trainval num_train.
  rewrite Htv. cbn [mbind result_bind]. rewrite Htr. reflexivity.
Qed.

(** What is assumed of [random.sample]: it returns [k] elements of the
    population, taken at distinct positions. *)
Hypothesis rng_sample_length : forall g population k,
  (k <= length population)%nat -> length (fst (rng_sample g population k)) = k.
Hypothesis rng_sample_elem : forall g population k x,
  x ∈ fst (rng_sample g population k) -> x ∈ population.
Hypothesis rng_sample_NoDup : forall g population k,
  NoDup population -> NoDup (fst (rng_sample g population k)).

Lemma NoDup_list_filter {A : Type} (f : A -> bool) (l : list A) :
  NoDup l -> NoDup (List.filter f l).
Proof.
  induction 1 as [|x l Hx _ IH]; simpl; [constructor|].
  destruct (f x); [|exact IH]. constructor; [|exact IH].
  intros Hin. apply list_elem_of_In, filter_In in Hin as [Hin _].
  apply Hx, list_elem_of_In, Hin.
Qed.

Lemma sample_rest_partition (sample population : list nat) :
  NoDup sample -> NoDup population -> (forall x, x ∈ sample -> x ∈ population) ->
  sample ++ List.filter (fun i => negb (bool_decide (i ∈ sample))) population ≡ₚ population.
Proof.
  intros Hs Hp Hsub. apply NoDup_Permutation; [|exact Hp|].
  - apply NoDup_app. split; [exact Hs|]. split; [|apply NoDup_list_filter, Hp].
    intros x Hx Hf. apply list_elem_of_In, filter_In in Hf as [_ Hf].
    rewrite bool_decide_true in Hf by exact Hx. discriminate.
  - intros x. rewrite elem_of_app. split.
    + intros [Hx|Hx]; [apply Hsub, Hx|].
      apply list_elem_of_In, filter_In in Hx as [Hx _]. apply list_elem_of_In, Hx.
    + intros Hx. destruct (decide (x ∈ sample)) as [Hin|Hout]; [left; exact Hin|].
      right. apply list_elem_of_In, filter_In. split; [apply list_elem_of_In, Hx|].
      rewrite bool_decide_false by exact Hout. reflexivity.
Qed.

Lemma split_indices_partition (g g' : rng) (num_total : nat) (num_trainval num_train : Z)
    (train_indices val_indices test_indices trainval_indices : list nat) :
  split_indices rng rng_sample g num_total num_trainval num_train =
    Ok (train_indices, val_indices, test_indices, trainval_indices, g') ->
  0 <= num_train <= num_trainval /\ num_trainval <= Z.of_nat num_total /\
  Z.of_nat (length train_indices) = num_train /\
  Z.of_nat (length trainval_indices) = num_trainval /\
  train_indices ++ val_indices ≡ₚ trainval_indices /\
  trainval_indices ++ test_indices ≡ₚ seq 0 num_total.
Proof.
  unfold split_indices.
  destruct (random_sample rng rng_sample g (seq 0 num_total) num_trainval)
    as [[tv g1]|e] eqn:Htv; [|discriminate].
  cbn [mbind result_bind].
  destruct (random_sample rng rng_sample g1 tv num_train)
    as [[tr g2]|e] eqn:Htr; [|discriminate].
  cbn [mbind result_bind]. intros [= <- <- <- <- <-].
  apply random_sample_inv in Htv as [Hk1 Hs1], Htr as [Hk2 Hs2].
  rewrite length_seq in Hk1.
  pose proof (rng_sample_length g (seq 0 num_total) (Z.to_nat num_trainval)) as Hl1.
  pose proof (rng_sample_elem g (seq 0 num_total) (Z.to_nat num_trainval)) as He1.
  pose proof (rng_sample_NoDup g (seq 0 num_total) (Z.to_nat num_trainval)
                (NoDup_seq 0 num_total)) as Hn1.
  rewrite Hs1 in Hl1, He1, Hn1. cbn [fst] in Hl1, He1, Hn1.
  rewrite length_seq in Hl1. specialize (Hl1 ltac:(lia)).
  pose proof (rng_sample_length g1 tv (Z.to_nat num_train)) as Hl2.
  pose proof (rng_sample_elem g1 tv (Z.to_nat num_train)) as He2.
  pose proof (rng_sample_NoDup g1 tv (Z.to_nat num_train) Hn1) as Hn2.
  rewrite Hs2 in Hl2, He2, Hn2. cbn [fst] in Hl2, He2, Hn2.
  specialize (Hl2 ltac:(lia)).
  split; [lia|]. split; [lia|]. split; [lia|]. split; [lia|]. split.
  - apply sample_rest_partition; assumption.
  - apply sample_rest_partition; [assumption | apply NoDup_seq | assumption].
Qed.

(** X19. The counts that [split_dataset] returns: [total] is the number of
    images selected (those with a label file when the answer to the prompt
    lowercases to [y], all the images collected otherwise), the counts are
    not negative, [train + val = trainval] and [train + val + test = total].
    A run whose percentages would give a count outside these bounds does
    not return. *)
Theorem split_counts (fs : filesystem) (g : rng) (answer : string)
    (images_dir : dirs) (labels_dir : option dirs) (output : option string)
    (search_strings : list string) (trainval_percent train_percent : Q)
    (use_abs gen : bool) (random_seed : option Z)
    (stats : split_stats) (written : gmap string (list string)) (g' : rng) :
  split_dataset rng rng_seed rng_sample fs g answer images_dir labels_dir output
    search_strings trainval_percent train_percent use_abs gen random_seed =
    Ok (stats, written, g') ->
  let collected := collect_image_info fs search_strings (images_dir_list images_dir)
                     (labels_dir_list images_dir labels_dir) in
  total stats = Z.of_nat (length (if String.eqb (lower answer) "y"
                                  then List.filter (has_label fs) collected
                                  else collected)) /\
  0 <= train stats /\ 0 <= val stats /\ 0 <= test stats /\
  train stats + val stats = trainval stats /\
  train stats + val stats + test stats = total stats.
Proof.
  intros H collected.
  destruct (split_dataset_inv _ _ _ _ _ _ _ _ _ _ _ _ _ _ _ H)
    as (selected & tr & va & te & tv & g0 & _ & Hsel & Htotal & _ & _ & Hval & Htest & Hidx & _).
  apply split_indices_partition in Hidx as (Htrain & Htv & _).
  fold collected in Hsel. rewrite <- Hsel. split; [exact Htotal|]. lia.
Qed.

(** X20. The list files that [split_dataset] writes: [train.txt],
    [val.txt] and [test.txt] have [train], [val] and [test] lines, and
    together they list the path of every image selected exactly as often as
    the image was collected, so no image is in two of the three sets and
    none is left out; [trainval.txt] lists the lines of [train.txt] and
    [val.txt]. *)
Theorem split_lists_partition (fs : filesystem) (g : rng) (answer : string)
    (images_dir : dirs) (labels_dir : option dirs) (output : option string)
    (search_strings : list string) (trainval_percent train_percent : Q)
    (use_abs gen : bool) (random_seed : option Z)
    (stats : split_stats) (written : gmap string (list string)) (g' : rng) :
  split_dataset rng rng_seed rng_sample fs g answer images_dir labels_dir output
    search_strings trainval_percent train_percent use_abs gen random_seed =
    Ok (stats, written, g') ->
  let collected := collect_image_info fs search_strings (images_dir_list images_dir)
                     (labels_dir_list images_dir labels_dir) in
  let selected := if String.eqb (lower answer) "y"
                  then List.filter (has_label fs) collected else collected in
  exists train_list val_list test_list trainval_list,
    written !! path_join (output_dir stats) "train.txt" = Some train_list /\
    written !! path_join (output_dir stats) "val.txt" = Some val_list /\
    written !! path_join (output_dir stats) "test.txt" = Some test_list /\
    written !! path_join (output_dir stats) "trainval.txt" = Some trainval_list /\
    Z.of_nat (length train_list) = train stats /\
    Z.of_nat (length val_list) = val stats /\
    Z.of_nat (length test_list) = test stats /\
    train_list ++ val_list ++ test_list ≡ₚ map (image_path fs use_abs) selected /\
    trainval_list ≡ₚ train_list ++ val_list.
Proof.
  intros H collected selected.
  destruct (split_dataset_inv _ _ _ _ _ _ _ _ _ _ _ _ _ _ _ H)
    as (sel & tr & va & te & tv & g0 & _ & Hsel & Htotal & _ & _ & Hval & Htest & Hidx & Hw).
  fold collected in Hsel. fold selected in Hsel. subst sel.
  apply split_indices_partition in Hidx as (Hb1 & Hb2 & Hltr & Hltv & Hp1 & Hp2).
  set (out := output_dir stats) in *.
  set (path_of := fun idx => default EmptyString
                               (image_path fs use_abs <$> selected !! idx)).
  apply write_file_sets_step in Hw as (ptr & w1 & Mtr & Ltr & K1 & Hw); [|list_file_ne].
  apply write_file_sets_step in Hw as (pva & w2 & Mva & Lva & K2 & Hw); [|list_file_ne].
  apply write_file_sets_step in Hw as (pte & w3 & Mte & Lte & K3 & Hw); [|list_file_ne].
  apply write_file_sets_step in Hw as (ptv & w4 & Mtv & Ltv & K4 & Hw); [|list_file_ne].
  cbn [write_file_sets] in Hw. injection Hw as ->.
  apply map_result_get_file_path in Mtr, Mva, Mte, Mtv. fold path_of in Mtr, Mva, Mte, Mtv.
  exists ptr, pva, pte, ptv.
  split. { rewrite K4, K3, K2 by list_file_ne. exact Ltr. }
  split. { rewrite K4, K3 by list_file_ne. exact Lva. }
  split. { rewrite K4 by list_file_ne. exact Lte. }
  split; [exact Ltv|].
  assert (Hlen : (length tr + length va = length tv)%nat).
  { rewrite <- length_app. apply Permutation_length, Hp1. }
  assert (Hlen2 : (length tv + length te = length selected)%nat).
  { rewrite <- length_app, (Permutation_length Hp2). apply length_seq. }
  subst ptr pva pte ptv. rewrite !length_map.
  split; [lia|]. split; [lia|]. split; [lia|]. split.
  - rewrite <- (map_image_path_seq fs selected use_abs). fold path_of.
    rewrite <- !map_app. apply Permutation_map.
    rewrite app_assoc, Hp1. exact Hp2.
  - rewrite <- map_app. apply Permutation_map. symmetry. exact Hp1.
Qed.
End split_partition.

Lemma rotate_sample_NoDup (g : nat) (population : list nat) (k : nat) :
  NoDup population -> NoDup (fst (rotate_sample g population k)).
Proof.
  intros Hp. simpl. eapply sublist_NoDup; [|apply sublist_take].
  unfold rotate. rewrite <- (take_drop (g `mod` length population) population) in Hp.
  apply NoDup_app in Hp as (Ht & Hd & Hdr). apply NoDup_app.
  split; [exact Hdr|]. split; [|exact Ht].
  intros x Hx Hx'. exact (Hd x Hx' Hx).
Qed.

Lemma split_counts_witness :
  exists stats written g',
    split_dataset nat counter_seed rotate_sample dataset_fs 0%nat "Y"
      (OneDir "data/images") (Some (OneDir "data/labels")) None []
      (1 # 2) 1 true false (Some 3) = Ok (stats, written, g') /\
    total stats =
      Z.of_nat (length (List.filter (has_label dataset_fs)
                          (collect_image_info dataset_fs [] ["data/images"] ["data/labels"]))) /\
    0 <= train stats /\ 0 <= val stats /\ 0 <= test stats /\
    train stats + val stats = trainval stats /\
    train stats + val stats + test stats = total stats.
Proof.
  assert (Hok : is_ok (split_dataset nat counter_seed rotate_sample dataset_fs 0%nat "Y"
                         (OneDir "data/images") (Some (OneDir "data/labels")) None []
                         (1 # 2) 1 true false (Some 3)) = true)
    by (vm_compute; reflexivity).
  destruct (split_dataset nat counter_seed rotate_sample dataset_fs 0%nat "Y"
              (OneDir "data/images") (Some (OneDir "data/labels")) None []
              (1 # 2) 1 true false (Some 3)) as [[[stats written] g']|e] eqn:Hrun.
  - exists stats, written, g'. split; [reflexivity|].
    exact (split_counts nat counter_seed rotate_sample rotate_sample_length
             rotate_sample_elem rotate_sample_NoDup dataset_fs 0%nat "Y"
             (OneDir "data/images") (Some (OneDir "data/labels")) None []
             (1 # 2) 1 true false (Some 3) stats written g' Hrun).
  - discriminate Hok.
Defined.

Lemma split_lists_partition_witness :
  exists stats written g' train_list val_list test_list trainval_list,
    split_dataset nat counter_seed rotate_sample dataset_fs 0%nat "n"
      (OneDir "data/images") (Some (OneDir "data/labels")) (Some "lists") []
      (2 # 3) (1 # 2) false true None = Ok (stats, written, g') /\
    written !! path_join (output_dir stats) "train.txt" = Some train_list /\
    written !! path_join (output_dir stats) "val.txt" = Some val_list /\
    written !! path_join (output_dir stats) "test.txt" = Some test_list /\
    written !! path_join (output_dir stats) "trainval.txt" = Some trainval_list /\
    Z.of_nat (length train_list) = train stats /\
    Z.of_nat (length val_list) = val stats /\
    Z.of_nat (length test_list) = test stats /\
    train_list ++ val_list ++ test_list ≡ₚ
      map (image_path dataset_fs false)
          (collect_image_info dataset_fs [] ["data/images"] ["data/labels"]) /\
    trainval_list ≡ₚ train_list ++ val_list.
Proof.
  assert (Hok : is_ok (split_dataset nat counter_seed rotate_sample dataset_fs 0%nat "n"
                         (OneDir "data/images") (Some (OneDir "data/labels"))
                         (Some "lists") [] (2 # 3) (1 # 2) false true None) = true)
    by (vm_compute; reflexivity).
  destruct (split_dataset nat counter_seed rotate_sample dataset_fs 0%nat "n"
              (OneDir "data/images") (Some (OneDir "data/labels")) (Some "lists") []
              (2 # 3) (1 # 2) false true None) as [[[stats written] g']|e] eqn:Hrun.
  - destruct (split_lists_partition nat counter_seed rotate_sample rotate_sample_length
                rotate_sample_elem rotate_sample_NoDup dataset_fs 0%nat "n"
                (OneDir "data/images") (Some (OneDir "data/labels")) (Some "lists") []
                (2 # 3) (1 # 2) false true None stats written g' Hrun)
      as (train_list & val_list & test_list & trainval_list & H).
    exists stats, written, g', train_list, val_list, test_list, trainval_list.
    split; [reflexivity | exact H].
  - discriminate Hok.
Defined.

Section split_without_labels.
Variable rng : Type.
Variable rng_seed : Z -> rng.
Variable rng_sample : rng -> list nat -> nat -> list nat * rng.
Hypothesis rng_sample_length : forall g population k,
  (k <= length population)%nat -> length (fst (rng_sample g population k)) = k.


End split_without_labels.


(** ** Renaming by [XmlNameModify.modify] *)

Lemma object_names_eq (t : string) (x : option string) (cs : list element) :
  object_names (Element t x cs) =
    (if String.eqb t "object" then [object_name (Element t x cs)] else []) ++
    flat_map object_names cs.
Proof.
  unfold object_names at 1. cbn [iter_objects]. rewrite map_app. f_equal.
  - destruct (String.eqb t "object"); reflexivity.
  - induction cs as [|c cs IH]; simpl; [reflexivity|].
    rewrite map_app, IH. reflexivity.
Qed.

Lemma iter_objects_text (t : string) (x y : option string) (cs : list element) :
  String.eqb t "object" = false ->
  iter_objects (Element t y cs) = iter_objects (Element t x cs).
Proof. intros Ht. cbn [iter_objects]. rewrite Ht. reflexivity. Qed.

Lemma flat_map_set_first_text (name t : string) (cs : list element) :
  String.eqb name "object" = false ->
  flat_map iter_objects (set_first_text name t cs) = flat_map iter_objects cs.
Proof.
  intros Hname. induction cs as [|c cs IH]; simpl; [reflexivity|].
  destruct (has_tag name c) eqn:Hc; simpl; [|rewrite IH; reflexivity].
  f_equal. destruct c as [tc xc csc]. unfold has_tag in Hc. cbn [tag children] in *.
  apply String.eqb_eq in Hc as ->. apply iter_objects_text, Hname.
Qed.

Lemma find_set_first_text_same (name t : string) (cs : list element) (n : element) :
  List.find (has_tag name) cs = Some n ->
  List.find (has_tag name) (set_first_text name t cs) =
    Some (Element (tag n) (Some t) (children n)).
Proof.
  induction cs as [|c cs IH]; simpl; [discriminate|].
  destruct (has_tag name c) eqn:Hc.
  - intros [= <-]. simpl. unfold has_tag in *. cbn [tag]. rewrite Hc. reflexivity.
  - intros H. simpl. rewrite Hc. apply IH, H.
Qed.

Lemma find_set_first_text_other (name name' t : string) (cs : list element) :
  String.eqb name name' = false ->
  is_Some (List.find (has_tag name') cs) ->
  is_Some (List.find (has_tag name') (set_first_text name t cs)).
Proof.
  intros Hne. induction cs as [|c cs IH]; cbn [set_first_text List.find]; [auto|].
  destruct (has_tag name c) eqn:Hc; cbn [List.find].
  - assert (Hc' : has_tag name' c = false).
    { unfold has_tag in *. apply String.eqb_eq in Hc. rewrite Hc. exact Hne. }
    assert (Hc2 : has_tag name' (Element (tag c) (Some t) (children c)) = false)
      by exact Hc'.
    rewrite Hc', Hc2. auto.
  - destruct (has_tag name' c); [eauto | exact IH].
Qed.

Lemma find_app_Some {A : Type} (p : A -> bool) (l l' : list A) :
  is_Some (List.find p l) -> is_Some (List.find p (l ++ l')).
Proof.
  induction l as [|a l IH]; simpl; [intros [? ?]; discriminate|].
  destruct (p a); [eauto | exact IH].
Qed.

Lemma rename_object_names (old_name new_name : string) (t : string)
    (x : option string) (cs : list element) :
  String.eqb t "object" = true ->
  is_Some (find "name" (Element t x cs)) ->
  object_names (rename_object old_name new_name (Element t x cs)) =
    Some (Some new_name) :: flat_map object_names cs.
Proof.
  intros Ht Hname. unfold rename_object. cbn [tag text children].
  set (cs1 := match find "name_old" (Element t x cs) with
              | Some _ => cs
              | None => cs ++ [Element "name_old" None []]
              end).
  rewrite object_names_eq, Ht. cbn [app]. f_equal.
  - unfold object_name, find. cbn [children].
    assert (H1 : is_Some (List.find (has_tag "name") cs1)).
    { subst cs1. destruct (find "name_old" _); [exact Hname|].
      apply find_app_Some. exact Hname. }
    apply (find_set_first_text_other "name_old" "name" old_name) in H1 as [n Hn];
      [|reflexivity].
    rewrite (find_set_first_text_same "name" new_name _ n Hn). reflexivity.
  - assert (Hflat : forall l, flat_map object_names l = map object_name (flat_map iter_objects l)).
    { induction l as [|c l IH]; simpl; [reflexivity|]. rewrite map_app, IH. reflexivity. }
    rewrite !Hflat, !flat_map_set_first_text by reflexivity. f_equal.
    subst cs1. destruct (find "name_old" _); [reflexivity|].
    rewrite flat_map_app. simpl. apply app_nil_r.
Qed.

Lemma modify_element_tag_text (old_name new_name : string) (e e' : element) :
  modify_element old_name new_name e = Ok (Some e') ->
  tag e' = tag e /\ text e' = text e.
Proof.
  destruct e as [t x cs]. cbn [modify_element].
  destruct (String.eqb t "object").
  - unfold modify_object.
    destruct (text_of (find "name" (Element t x cs))) as [name|err]; [|discriminate].
    cbn [mbind result_bind].
    destruct (bool_decide (name = Some old_name)); cbn [mbind result_bind].
    + intros [= <-]. split; reflexivity.
    + destruct (modify_first _ cs) as [[cs'|]|err]; cbn [mbind result_bind fmap option_fmap option_map];
        [|discriminate..]. intros [= <-]. split; reflexivity.
  - cbn [mbind result_bind].
    destruct (modify_first _ cs) as [[cs'|]|err]; cbn [mbind result_bind fmap option_fmap option_map];
      [|discriminate..]. intros [= <-]. split; reflexivity.
Qed.

Lemma modify_first_find (old_name new_name : string) (name : string)
    (cs cs' : list element) :
  modify_first (modify_element old_name new_name) cs = Ok (Some cs') ->
  text <$> List.find (has_tag name) cs' = text <$> List.find (has_tag name) cs.
Proof.
  revert cs'. induction cs as [|c cs IH]; intros cs'; cbn [modify_first]; [discriminate|].
  destruct (modify_element old_name new_name c) as [[c'|]|err] eqn:Hc;
    cbn [mbind result_bind]; [| |discriminate].
  - intros [= <-]. apply modify_element_tag_text in Hc as [Htag Htext].
    cbn [List.find]. unfold has_tag at 1 3. rewrite Htag.
    destruct (String.eqb (tag c) name); [simpl; f_equal; exact Htext | reflexivity].
  - destruct (modify_first _ cs) as [[cs1|]|err]; cbn [mbind result_bind fmap option_fmap option_map];
      [|discriminate..]. intros [= <-]. cbn [List.find].
    destruct (has_tag name c); [reflexivity | apply IH; reflexivity].
Qed.

(** What a run of the loop of [modify] on a tree comes to, in terms of
    the names it reads. *)
Lemma modify_element_spec (old_name new_name : string) (e : element) :
  let other n := n <> None /\ n <> Some (Some old_name) in
  match modify_element old_name new_name e with
  | Ok (Some e') =>
      exists pre post,
        object_names e = pre ++ Some (Some old_name) :: post /\
        Forall other pre /\
        object_names e' = pre ++ Some (Some new_name) :: post
  | Ok None => Forall other (object_names e)
  | Raise err =>
      err = AttributeError /\
      exists pre post, object_names e = pre ++ None :: post /\ Forall other pre
  end.
Proof.
  intros other. induction e as [t x cs IH] using element_induction.
  assert (Hchildren :
    match modify_first (modify_element old_name new_name) cs with
    | Ok (Some cs') =>
        exists pre post,
          flat_map object_names cs = pre ++ Some (Some old_name) :: post /\
          Forall other pre /\
          flat_map object_names cs' = pre ++ Some (Some new_name) :: post
    | Ok None => Forall other (flat_map object_names cs)
    | Raise err =>
        err = AttributeError /\
        exists pre post, flat_map object_names cs = pre ++ None :: post /\ Forall other pre
    end).
  { induction IH as [|c cs Hc _ IHcs]; cbn [modify_first flat_map]; [constructor|].
    destruct (modify_element old_name new_name c) as [[c'|]|err];
      cbn [mbind result_bind flat_map].
    - destruct Hc as (pre & post & -> & Hpre & ->).
      exists pre, (post ++ flat_map object_names cs).
      rewrite <- !app_assoc. auto.
    - destruct (modify_first _ cs) as [[cs'|]|err];
        cbn [mbind result_bind fmap option_fmap option_map flat_map].
      + destruct IHcs as (pre & post & -> & Hpre & ->).
        exists (object_names c ++ pre), post. rewrite <- !app_assoc.
        split; [reflexivity|]. split; [|reflexivity].
        apply Forall_app. split; assumption.
      + apply Forall_app. split; assumption.
      + destruct IHcs as (-> & pre & post & -> & Hpre). split; [reflexivity|].
        exists (object_names c ++ pre), post. rewrite <- app_assoc.
        split; [reflexivity|]. apply Forall_app. split; assumption.
    - destruct Hc as (-> & pre & post & -> & Hpre). split; [reflexivity|].
      exists pre, (post ++ flat_map object_names cs). rewrite <- !app_assoc. auto. }
  clear IH. cbn [modify_element]. rewrite object_names_eq.
  assert (Hwrap : forall cs',
            modify_first (modify_element old_name new_name) cs = Ok (Some cs') ->
            object_names (Element t x cs') =
              (if String.eqb t "object" then [object_name (Element t x cs)] else []) ++
              flat_map object_names cs').
  { intros cs' Hcs'. rewrite object_names_eq. f_equal.
    destruct (String.eqb t "object"); [|reflexivity]. f_equal.
    unfold object_name, find. cbn [children].
    apply (modify_first_find old_name new_name "name" cs cs' Hcs'). }
  destruct (String.eqb t "object") eqn:Ht; cbn [mbind result_bind app].
  - unfold modify_object.
    destruct (find "name" (Element t x cs)) as [n|] eqn:Hfind; cbn [text_of mbind result_bind].
    + assert (Hname : object_name (Element t x cs) = Some (text n)).
      { unfold object_name. rewrite Hfind. reflexivity. }
      destruct (bool_decide_reflect (text n = Some old_name)) as [Hold|Hother];
        cbn [mbind result_bind].
      * exists [], (flat_map object_names cs). rewrite Hname, Hold.
        split; [reflexivity|]. split; [constructor|].
        apply rename_object_names; [exact Ht | rewrite Hfind; eauto].
      * assert (Hhead : other (object_name (Element t x cs))).
        { rewrite Hname. split; [discriminate | congruence]. }
        destruct (modify_first _ cs) as [[cs'|]|err] eqn:Hcs;
          cbn [mbind result_bind fmap option_fmap option_map].
        -- destruct Hchildren as (pre & post & Hflat & Hpre & Hflat').
           exists (object_name (Element t x cs) :: pre), post.
           rewrite (Hwrap cs' eq_refl), Hflat, Hflat'.
           split; [reflexivity|]. split; [constructor; assumption | reflexivity].
        -- constructor; assumption.
        -- destruct Hchildren as (-> & pre & post & -> & Hpre). split; [reflexivity|].
           exists (object_name (Element t x cs) :: pre), post.
           split; [reflexivity | constructor; assumption].
    + split; [reflexivity|]. exists [], (flat_map object_names cs).
      unfold object_name. rewrite Hfind. split; [reflexivity | constructor].
  - destruct (modify_first _ cs) as [[cs'|]|err] eqn:Hcs;
      cbn [mbind result_bind fmap option_fmap option_map].
    + destruct Hchildren as (pre & post & Hflat & Hpre & Hflat').
      exists pre, post. rewrite (Hwrap cs' eq_refl), Hflat, Hflat'. auto.
    + exact Hchildren.
    + exact Hchildren.
Qed.

Lemma occurrences_absent {A : Type} `{EqDecision A} (x : A) (l : list A) :
  Forall (fun y => y <> x) l -> occurrences x l = 0%nat.
Proof.
  induction 1 as [|y l Hy _ IH]; simpl; [reflexivity|].
  destruct (decide (y = x)); [contradiction | exact IH].
Qed.

(** X22. When the loop of [modify] rewrites a tree, exactly one object
    changes its name: the first object in document order whose name is the
    old name gets the new name, every object before it has a [name] child
    with another name, and every object after it, also one with the old
    name, keeps its name. *)
Theorem modify_renames_first_object (old_name new_name : string) (e e' : element) :
  modify_element old_name new_name e = Ok (Some e') ->
  exists pre post,
    object_names e = pre ++ Some (Some old_name) :: post /\
    Forall (fun n => n <> None /\ n <> Some (Some old_name)) pre /\
    object_names e' = pre ++ Some (Some new_name) :: post.
Proof.
  intros H. pose proof (modify_element_spec old_name new_name e) as Hspec.
  cbv zeta in Hspec. rewrite H in Hspec. exact Hspec.
Qed.

(** X23. The loop of [modify] leaves a tree alone, without an error,
    exactly when every object of the tree has a [name] child and none has
    the old name; and it raises exactly when an object without a [name]
    child comes before any object with the old name. *)
Theorem modify_untouched_iff (old_name new_name : string) (e : element) :
  (modify_element old_name new_name e = Ok None <->
   Forall (fun n => n <> None /\ n <> Some (Some old_name)) (object_names e)) /\
  (modify_element old_name new_name e = Raise AttributeError <->
   exists pre post,
     object_names e = pre ++ None :: post /\
     Forall (fun n => n <> None /\ n <> Some (Some old_name)) pre).
Proof.
  pose proof (modify_element_spec old_name new_name e) as Hspec. cbv zeta in Hspec.
  assert (Hfirst : forall (pre pre' post post' : list (option (option string))) a b,
            pre ++ a :: post = pre' ++ b :: post' ->
            Forall (fun n => n <> None /\ n <> Some (Some old_name)) pre ->
            Forall (fun n => n <> None /\ n <> Some (Some old_name)) pre' ->
            (a = None \/ a = Some (Some old_name)) ->
            (b = None \/ b = Some (Some old_name)) -> a = b).
  { induction pre as [|p pre IH]; intros pre' post post' a b Heq Hpre Hpre' Ha Hb.
    - destruct pre' as [|p' pre']; simpl in Heq; [congruence|].
      injection Heq as <- _. apply Forall_cons in Hpre' as [[H1 H2] _].
      destruct Ha; contradiction.
    - destruct pre' as [|p' pre']; simpl in Heq.
      + injection Heq as -> _. apply Forall_cons in Hpre as [[H1 H2] _].
        destruct Hb; contradiction.
      + injection Heq as _ Heq. apply Forall_cons in Hpre as [_ Hpre], Hpre' as [_ Hpre'].
        exact (IH _ _ _ _ _ Heq Hpre Hpre' Ha Hb). }
  assert (Hin : forall (pre post : list (option (option string))) a,
            Forall (fun n => n <> None /\ n <> Some (Some old_name)) (pre ++ a :: post) ->
            a <> None /\ a <> Some (Some old_name)).
  { intros pre post a H. apply Forall_app in H as [_ H]. apply Forall_cons in H as [H _].
    exact H. }
  destruct (modify_element old_name new_name e) as [[e'|]|err].
  - destruct Hspec as (pre & post & Hnames & Hpre & _). split; split.
    + discriminate.
    + intros H. rewrite Hnames in H. apply Hin in H as [_ H]. contradiction.
    + discriminate.
    + intros (pre' & post' & Hnames' & Hpre'). rewrite Hnames in Hnames'.
      apply Hfirst in Hnames'; auto. discriminate.
  - split; split.
    + intros _. exact Hspec.
    + reflexivity.
    + discriminate.
    + intros (pre & post & Hnames & _). rewrite Hnames in Hspec.
      apply Hin in Hspec as [H _]. contradiction.
  - destruct Hspec as (-> & pre & post & Hnames & Hpre). split; split.
    + discriminate.
    + intros H. rewrite Hnames in H. apply Hin in H as [H _]. contradiction.
    + intros _. eauto.
    + reflexivity.
Qed.

(** X24. One call of [modify] renames at most one object in each file:
    when it returns, it returns [True], and in every file the number of
    objects with the old name is one less than before, or still zero. A file
    with several such objects needs as many calls. *)
Theorem modify_one_object_per_file (old_name new_name : string)
    (files files' : list xml_file) (outcome : bool) :
  old_name <> new_name ->
  modify old_name new_name files = (files', Ok outcome) ->
  outcome = true /\
  Forall2 (fun f f' =>
             exists root root',
               f = Document root /\ f' = Document root' /\
               occurrences (Some (Some old_name)) (object_names root') =
                 Nat.pred (occurrences (Some (Some old_name)) (object_names root)))
          files files'.
Proof.
  intros Hne. revert files'. induction files as [|f files IH]; intros files'; cbn [modify].
  - intros [= <- <-]. split; [reflexivity | constructor].
  - destruct f as [|root]; cbn [parse mbind result_bind]; [discriminate|].
    pose proof (modify_element_spec old_name new_name root) as Hspec. cbv zeta in Hspec.
    destruct (modify_element old_name new_name root) as [[root'|]|err]; [| |discriminate].
    + destruct (modify old_name new_name files) as [rest out] eqn:Hrest.
      intros [= <- ->]. destruct (IH rest eq_refl) as [-> Hall].
      split; [reflexivity|]. constructor; [|exact Hall].
      exists root, root'. split; [reflexivity|]. split; [reflexivity|].
      destruct Hspec as (pre & post & -> & Hpre & ->).
      rewrite !occurrences_app. cbn [occurrences].
      destruct (decide (Some (Some old_name) = Some (Some old_name))); [|congruence].
      destruct (decide (Some (Some new_name) = Some (Some old_name))); [congruence|].
      rewrite (occurrences_absent _ pre)
        by (eapply Forall_impl; [exact Hpre | intros y [_ Hy]; exact Hy]).
      reflexivity.
    + destruct (modify old_name new_name files) as [rest out] eqn:Hrest.
      intros [= <- ->]. destruct (IH rest eq_refl) as [-> Hall].
      split; [reflexivity|]. constructor; [|exact Hall].
      exists root, root. split; [reflexivity|]. split; [reflexivity|].
      rewrite (occurrences_absent _ (object_names root))
        by (eapply Forall_impl; [exact Hspec | intros y [_ Hy]; exact Hy]).
      reflexivity.
Qed.

Lemma modify_renames_first_object_witness :
  exists e',
    modify_element "M1A1" "Tank" three_objects = Ok (Some e') /\
    exists pre post,
      object_names three_objects = pre ++ Some (Some "M1A1") :: post /\
      Forall (fun n => n <> None /\ n <> Some (Some "M1A1")) pre /\
      object_names e' = pre ++ Some (Some "Tank") :: post.
Proof.
  assert (Hok : match modify_element "M1A1" "Tank" three_objects with
                | Ok (Some _) => true
                | _ => false
                end = true) by (vm_compute; reflexivity).
  destruct (modify_element "M1A1" "Tank" three_objects) as [[e'|]|err] eqn:Hrun;
    [|discriminate Hok..].
  exists e'. split; [reflexivity|].
  exact (modify_renames_first_object "M1A1" "Tank" three_objects e' Hrun).
Defined.

Lemma modify_one_object_per_file_witness :
  exists files',
    modify "M1A1" "Tank" [Document three_objects; Document (named_object "car" [])] =
      (files', Ok true) /\
    Forall2 (fun f f' =>
               exists root root',
                 f = Document root /\ f' = Document root' /\
                 occurrences (Some (Some "M1A1")) (object_names root') =
                   Nat.pred (occurrences (Some (Some "M1A1")) (object_names root)))
            [Document three_objects; Document (named_object "car" [])] files'.
Proof.
  assert (Hok : match snd (modify "M1A1" "Tank"
                             [Document three_objects; Document (named_object "car" [])]) with
                | Ok true => true
                | _ => false
                end = true) by (vm_compute; reflexivity).
  destruct (modify "M1A1" "Tank" [Document three_objects; Document (named_object "car" [])])
    as [files' [[|]|err]] eqn:Hrun; [|discriminate Hok..].
  exists files'. split; [reflexivity|].
  apply (modify_one_object_per_file "M1A1" "Tank"
           [Document three_objects; Document (named_object "car" [])] files' true);
    [discriminate | exact Hrun].
Defined.

(** ** The class file between the tools *)

Lemma class_file_text_chars (names : list string) (acc : string) :
  list_ascii_of_string
    (foldl (fun class_result i => (class_result +:+ i) +:+ String "010" EmptyString)
           acc names) =
  list_ascii_of_string acc ++
  flat_map (fun n => list_ascii_of_string n ++ ["010"%char]) names.
Proof.
  revert acc. induction names as [|n names IH]; intros acc; cbn [foldl flat_map].
  - rewrite app_nil_r. reflexivity.
  - rewrite IH, !list_ascii_of_string_app, <- !app_assoc. reflexivity.
Qed.

Lemma file_lines_line (n cur rest : list ascii) :
  Forall (fun ch => ch <> "010"%char /\ ch <> "013"%char) n ->
  file_lines cur (n ++ "010"%char :: rest) =
    (rev cur ++ n ++ ["010"%char]) :: file_lines [] rest.
Proof.
  intros Hn. revert cur. induction Hn as [|c n [Hlf Hcr] _ IH]; intros cur.
  - reflexivity.
  - cbn [app file_lines].
    destruct (Ascii.eqb_spec c "010"); [contradiction|].
    destruct (Ascii.eqb_spec c "013"); [contradiction|].
    rewrite IH. cbn [rev]. rewrite <- !app_assoc. reflexivity.
Qed.

Lemma file_lines_names (names : list (list ascii)) (rest : list ascii) :
  Forall (Forall (fun ch => ch <> "010"%char /\ ch <> "013"%char)) names ->
  file_lines [] (flat_map (fun n => n ++ ["010"%char]) names ++ rest) =
    map (fun n => n ++ ["010"%char]) names ++ file_lines [] rest.
Proof.
  induction 1 as [|n names Hn _ IH]; cbn [flat_map map app]; [reflexivity|].
  rewrite <- !app_assoc. cbn [app]. rewrite file_lines_line by exact Hn.
  rewrite IH. reflexivity.
Qed.

Lemma lstrip_char_absent (ch : ascii) (l : list ascii) :
  match l with c :: _ => c <> ch | [] => True end -> lstrip_char ch l = l.
Proof.
  destruct l as [|c l]; [reflexivity|]. intros Hc. simpl.
  destruct (Ascii.eqb_spec c ch); [contradiction | reflexivity].
Qed.

Lemma strip_char_line (n : list ascii) :
  Forall (fun ch => ch <> "010"%char /\ ch <> "013"%char) n ->
  rev (lstrip_char "010" (rev (lstrip_char "010" (n ++ ["010"%char])))) = n.
Proof.
  intros Hn. destruct n as [|c n]; [reflexivity|].
  rewrite (lstrip_char_absent "010" ((c :: n) ++ ["010"%char])).
  2:{ apply Forall_cons in Hn as [[H _] _]. exact H. }
  rewrite rev_app_distr. cbn [rev app lstrip_char Ascii.eqb Bool.eqb].
  rewrite lstrip_char_absent; [apply (rev_involutive (c :: n))|].
  destruct (rev n ++ [c]) as [|d l] eqn:Hrev; [exact I|].
  assert (Hd : d ∈ c :: n).
  { apply list_elem_of_In, (in_rev (c :: n)). cbn [rev]. rewrite Hrev. left. reflexivity. }
  rewrite Forall_forall in Hn. apply Hn in Hd as [H _]. exact H.
Qed.

Lemma lstrip_length (l : list ascii) : (length (lstrip l) <= length l)%nat.
Proof.
  induction l as [|c l IH]; simpl; [lia|]. destruct (py_isspace c); simpl; lia.
Qed.

Lemma strip_chars_fixed (l : list ascii) :
  strip_chars l = l -> l <> [] ->
  rstrip l = l /\ exists c l', l = c :: l' /\ py_isspace c = false.
Proof.
  intros Hfix Hne. destruct l as [|c l']; [contradiction|].
  assert (Hlen : (length (strip_chars (c :: l')) <= length (lstrip (c :: l')))%nat).
  { unfold strip_chars, rstrip. rewrite length_rev.
    etransitivity; [apply lstrip_length|]. rewrite length_rev. lia. }
  rewrite Hfix in Hlen. cbn [lstrip] in Hlen.
  destruct (py_isspace c) eqn:Hc.
  - pose proof (lstrip_length l'). simpl in Hlen. lia.
  - split; [|eauto]. unfold strip_chars in Hfix. cbn [lstrip] in Hfix.
    rewrite Hc in Hfix. exact Hfix.
Qed.

Lemma strip_line (n : string) :
  strip n = n -> n <> EmptyString -> strip (n +:+ String "010" EmptyString) = n.
Proof.
  intros Hfix Hne. unfold strip in *.
  assert (Hl : strip_chars (list_ascii_of_string n) = list_ascii_of_string n).
  { rewrite <- Hfix at 2. rewrite list_ascii_of_string_of_list_ascii. reflexivity. }
  assert (Hne' : list_ascii_of_string n <> []).
  { intros H. apply Hne. rewrite <- (string_of_list_ascii_of_string n), H. reflexivity. }
  destruct (strip_chars_fixed _ Hl Hne') as (Hr & c & l' & Hcl & Hc).
  rewrite list_ascii_of_string_app. cbn [list_ascii_of_string].
  rewrite <- (string_of_list_ascii_of_string n) at 2. f_equal.
  unfold strip_chars. rewrite Hcl at 1. cbn [app lstrip]. rewrite Hc.
  change (c :: l' ++ ["010"%char]) with ((c :: l') ++ ["010"%char]). rewrite <- Hcl.
  unfold rstrip in *. rewrite rev_app_distr. cbn [rev app lstrip].
  change (py_isspace "010") with true. cbv iota. exact Hr.
Qed.

(** X25. The class file that [_create_class_file] writes into an empty
    [classes.txt] is read back by the other tools: [TxtToXmlConverter] reads
    the class list itself, and the analyzer gives class [i] the [i]-th name,
    provided no name has a line break and, for the analyzer, no name is
    empty or has white space at its ends. The file is opened for appending,
    so after a second run it lists every class twice. *)
Theorem class_file_round_trip (c : converter) (names : list string) :
  class_list c = Some names ->
  Forall (fun n => Forall (fun ch => ch <> "010"%char /\ ch <> "013"%char)
                          (list_ascii_of_string n)) names ->
  exists content,
    _create_class_file c EmptyString = Ok content /\
    read_classes content = names /\
    (Forall (fun n => strip n = n /\ n <> EmptyString) names ->
     forall i, _load_classes_from_txt (Ok (readlines content)) !! i = names !! i) /\
    exists content2,
      _create_class_file c content = Ok content2 /\
      read_classes content2 = names ++ names.
Proof.
  intros Hlist Hplain. unfold _create_class_file. rewrite Hlist.
  set (written := foldl _ EmptyString names).
  assert (Hchars : list_ascii_of_string written =
                   flat_map (fun n => n ++ ["010"%char]) (map list_ascii_of_string names)).
  { subst written. rewrite class_file_text_chars. cbn [list_ascii_of_string app].
    clear. induction names as [|n names IH]; cbn [flat_map map]; [reflexivity|].
    rewrite IH. reflexivity. }
  assert (Hplain' : Forall (Forall (fun ch => ch <> "010"%char /\ ch <> "013"%char))
                           (map list_ascii_of_string names)).
  { apply Forall_map. exact Hplain. }
  assert (Hlines : forall k,
            file_lines [] (Nat.iter k (app (list_ascii_of_string written)) []) =
            Nat.iter k (app (map (fun n => n ++ ["010"%char])
                                 (map list_ascii_of_string names))) []).
  { induction k as [|k IH]; cbn [Nat.iter nat_rect]; [reflexivity|].
    rewrite Hchars at 1. rewrite file_lines_names by exact Hplain'.
    f_equal. exact IH. }
  assert (Hread : forall l,
            Forall (fun n => Forall (fun ch => ch <> "010"%char /\ ch <> "013"%char)
                                    (list_ascii_of_string n)) l ->
            map (strip_char "010")
                (map string_of_list_ascii
                     (map (fun n => n ++ ["010"%char]) (map list_ascii_of_string l))) = l).
  { induction 1 as [|n l Hn _ IH]; cbn [map]; [reflexivity|]. rewrite IH. f_equal.
    unfold strip_char. rewrite list_ascii_of_string_of_list_ascii, strip_char_line by exact Hn.
    apply string_of_list_ascii_of_string. }
  exists (EmptyString +:+ written). split; [reflexivity|].
  change (EmptyString +:+ written) with written.
  split; [|split].
  - unfold read_classes, readlines.
    specialize (Hlines 1%nat). cbn [Nat.iter nat_rect] in Hlines.
    rewrite !app_nil_r in Hlines. rewrite Hlines. apply Hread, Hplain.
  - intros Hclean i. cbn [_load_classes_from_txt].
    rewrite load_class_lines_lookup, decide_True by lia.
    rewrite Nat.sub_0_r, lookup_empty. unfold readlines.
    specialize (Hlines 1%nat). cbn [Nat.iter nat_rect] in Hlines.
    rewrite !app_nil_r in Hlines. rewrite Hlines.
    change (map ?f ?l) with (f <$> l). rewrite !list_lookup_fmap.
    destruct (names !! i) as [n|] eqn:Hn; cbn [fmap option_fmap option_map]; [|reflexivity].
    rewrite Forall_forall in Hclean.
    destruct (Hclean n (list_elem_of_lookup_2 _ _ _ Hn)) as [Hfix Hne].
    assert (Hline : string_of_list_ascii (list_ascii_of_string n ++ ["010"%char]) =
                    n +:+ String "010" EmptyString).
    { rewrite <- (string_of_list_ascii_of_string (n +:+ String "010" EmptyString)).
      rewrite list_ascii_of_string_app. reflexivity. }
    rewrite Hline, (strip_line n Hfix Hne).
    destruct n; [contradiction | reflexivity].
  - exists (written +:+ written). split; [reflexivity|].
    unfold read_classes, readlines. rewrite list_ascii_of_string_app.
    specialize (Hlines 2%nat). cbn [Nat.iter nat_rect] in Hlines.
    rewrite !app_nil_r in Hlines. rewrite Hlines.
    rewrite !map_app. f_equal; apply Hread, Hplain.
Qed.

Lemma class_file_round_trip_witness :
  let class_converter :=
    {| input_dir := "xml"; out_dir := "labels"; class_dir := Some "labels";
       class_list := Some ["car"; "bus"]; class_map_dist := None;
       txt_write_mode := Overwrite |} in
  exists content,
    _create_class_file class_converter EmptyString = Ok content /\
    read_classes content = ["car"; "bus"] /\
    (Forall (fun n => strip n = n /\ n <> EmptyString) ["car"; "bus"] ->
     forall i, _load_classes_from_txt (Ok (readlines content)) !! i = ["car"; "bus"] !! i) /\
    exists content2,
      _create_class_file class_converter content = Ok content2 /\
      read_classes content2 = ["car"; "bus"] ++ ["car"; "bus"].
Proof.
  intros class_converter.
  apply (class_file_round_trip class_converter ["car"; "bus"]).
  - reflexivity.
  - repeat constructor; discriminate.
Defined.
